(** * VDA5050 pydantic models: registry and envelope transcoder

    A shallow embedding of [pydantic_models/common.py] and
    [pydantic_models/validate.py], together with the part of the Python
    runtime the two modules rely on (JSON-shaped values, [json.loads],
    [json.dumps], pydantic's validating constructors and
    [model_dump_json]), followed by the properties of the registry and of
    the envelope transcoder.

    Conventions of the model.
    - A Python [str] is a [string] (a byte sequence; non-ASCII text is its
      UTF-8 encoding).
    - A Python [int] is a [Z].
    - A Python [float] is the decimal number it denotes, or one of
      [inf], [-inf], [nan]; binary rounding is not modelled, so every
      JSON number literal denotes exactly one float.
    - A [dict] is an association list in insertion order.
    - A value held under [Any] is a [pyany]: a value of JSON shape, a
      tuple, or an object of another kind, given by what the two
      writers make of it.
    - A call that may raise returns a [result].
    - The limits of the interpreter (the 4300 digits of an int that is
      converted to or from text, the depth of nesting) are no part of
      the writers and of the reader; a statement that could meet the
      first carries it as a hypothesis. *)

From Stdlib Require Import Reals Lra Machin.
From Stdlib Require Import String Ascii List ZArith Bool Lia.
From Stdlib Require Decimal DecimalPos DecimalZ.
From Stdlib Require Import DecimalFacts.
Import ListNotations.

Local Open Scope string_scope.
Local Open Scope list_scope.
Local Open Scope Z_scope.

(** ** Characters and small string helpers *)

Definition chr (n : nat) : ascii := ascii_of_nat n.

Definition quote : ascii := chr 34.
Definition backslash : ascii := chr 92.

Definition str1 (c : ascii) : string := String c EmptyString.

Fixpoint concat_str (l : list string) : string :=
  match l with
  | [] => EmptyString
  | s :: l' => (s ++ concat_str l')%string
  end.

Fixpoint join_str (sep : string) (l : list string) : string :=
  match l with
  | [] => EmptyString
  | [s] => s
  | s :: l' => (s ++ sep ++ join_str sep l')%string
  end.

(** ** Decimal digits *)

Definition digit_char (d : digits) : ascii :=
  match d with
  | d0 => "0" | d1 => "1" | d2 => "2" | d3 => "3" | d4 => "4"
  | d5 => "5" | d6 => "6" | d7 => "7" | d8 => "8" | d9 => "9"
  end%char.

Definition char_digit (c : ascii) : option digits :=
  match c with
  | "0" => Some d0 | "1" => Some d1 | "2" => Some d2 | "3" => Some d3
  | "4" => Some d4 | "5" => Some d5 | "6" => Some d6 | "7" => Some d7
  | "8" => Some d8 | "9" => Some d9 | _ => None
  end%char.

Fixpoint digits_str (ds : list digits) : string :=
  match ds with
  | [] => EmptyString
  | d :: ds' => String (digit_char d) (digits_str ds')
  end.

(** The natural number written by a digit list (leading zeros allowed). *)
Definition digits_val (ds : list digits) : Z := Z.of_uint (of_list ds).

(** The digits of a positive number, most significant first. *)
Definition pos_digits (p : positive) : list digits := to_list (Pos.to_uint p).

Definition nat_digits (n : Z) : list digits :=
  match n with
  | Zpos p => pos_digits p
  | _ => [d0]
  end.

Definition is_d0 (d : digits) : bool :=
  match d with d0 => true | _ => false end.

(** Drop the zeros at the end of a digit list and count them. *)
Fixpoint strip_zeros_rev (r : list digits) : list digits * nat :=
  match r with
  | d0 :: r' => let (q, n) := strip_zeros_rev r' in (q, S n)
  | _ => (r, O)
  end.

Definition strip_trailing (ds : list digits) : list digits * nat :=
  let (q, n) := strip_zeros_rev (rev ds) in (rev q, n).

Fixpoint strip_leading (ds : list digits) : list digits :=
  match ds with
  | d0 :: ds' => strip_leading ds'
  | _ => ds
  end.

(** ** Python floats *)

(** [Fin neg ds e] is the number [(-1)^neg * ds * 10^e], where [ds] is the
    decimal mantissa, most significant digit first.  Zero is written with
    the empty mantissa, so that [Fin true [] 0] is [-0.0]. *)
Inductive pyfloat :=
| Fin (neg : bool) (ds : list digits) (e : Z)
| Inf
| NegInf
| NaN.

(** The canonical representation: no leading and no trailing zero in the
    mantissa, exponent [0] for zero.  One number, one representation. *)
Definition mantissa_canonical (ds : list digits) : bool :=
  match ds with
  | [] => true
  | d :: _ => negb (is_d0 d) && negb (is_d0 (last ds d1))
  end.

Definition float_wf (f : pyfloat) : bool :=
  match f with
  | Fin _ ds e =>
      mantissa_canonical ds && (match ds with [] => e =? 0 | _ => true end)
  | _ => true
  end.

(** Build the canonical float from mantissa digits and an exponent. *)
Definition mk_float (neg : bool) (ds : list digits) (e : Z) : pyfloat :=
  let (q, n) := strip_trailing (strip_leading ds) in
  match q with
  | [] => Fin neg [] 0
  | _ => Fin neg q (e + Z.of_nat n)
  end.

(** [dec m e] is the float [m * 10^e]. *)
Definition dec (m e : Z) : pyfloat :=
  match m with
  | Z0 => Fin false [] 0
  | Zpos p => mk_float false (pos_digits p) e
  | Zneg p => mk_float true (pos_digits p) e
  end.

(** [float(z)] for a Python int [z].  The decimal floats of this file
    hold every int exactly.  A double does so up to 2^53 in magnitude;
    beyond, CPython rounds, and beyond the range of doubles [float(z)]
    raises.  A statement that names the float an int is taken for keeps
    to the exact range. *)
Definition float_of_Z (z : Z) : pyfloat := dec z 0.

Definition is_finite (f : pyfloat) : bool :=
  match f with Fin _ _ _ => true | _ => false end.

Definition signed (neg : bool) (n : Z) : Z := if neg then - n else n.

(** Comparison of two finite floats: both are scaled to the smaller
    exponent and compared as integers. *)
Definition fin_compare (n1 : bool) (ds1 : list digits) (e1 : Z)
                       (n2 : bool) (ds2 : list digits) (e2 : Z) : comparison :=
  let k := Z.min e1 e2 in
  (signed n1 (digits_val ds1) * 10 ^ (e1 - k)
   ?= signed n2 (digits_val ds2) * 10 ^ (e2 - k)).

(** [float_compare a b] is [None] when one of the two is [nan]. *)
Definition float_compare (a b : pyfloat) : option comparison :=
  match a, b with
  | NaN, _ | _, NaN => None
  | Fin n1 ds1 e1, Fin n2 ds2 e2 => Some (fin_compare n1 ds1 e1 n2 ds2 e2)
  | Inf, Inf | NegInf, NegInf => Some Eq
  | NegInf, _ | _, Inf => Some Lt
  | Inf, _ | _, NegInf => Some Gt
  end.

(** [a <= b], [a < b] and [a == b] of Python; all false on [nan]. *)
Definition float_le (a b : pyfloat) : bool :=
  match float_compare a b with
  | Some Lt | Some Eq => true
  | _ => false
  end.

Definition float_lt (a b : pyfloat) : bool :=
  match float_compare a b with
  | Some Lt => true
  | _ => false
  end.

Definition float_eqb (a b : pyfloat) : bool :=
  match float_compare a b with
  | Some Eq => true
  | _ => false
  end.

(** The integer a float denotes, when it denotes one. *)
Definition float_to_Z (f : pyfloat) : option Z :=
  match f with
  | Fin neg ds e =>
      if 0 <=? e then Some (signed neg (digits_val ds * 10 ^ e))
      else if digits_val ds mod 10 ^ (- e) =? 0
           then Some (signed neg (digits_val ds / 10 ^ (- e)))
           else None
  | _ => None
  end.

(** *** [repr] of a float

    CPython prints the shortest digit string that denotes the float, in
    fixed notation when the decimal point falls within [-4 < decpt <= 16]
    and in exponent notation otherwise; a fixed-notation integer gets a
    trailing [.0]; the exponent has a sign and at least two digits. *)

Fixpoint zeros (n : nat) : list digits :=
  match n with
  | O => []
  | S n' => d0 :: zeros n'
  end.

Definition exp_digits (n : Z) : list digits :=
  let ds := nat_digits n in
  match ds with
  | [_] => d0 :: ds
  | _ => ds
  end.

Definition sign_char (x : Z) : ascii :=
  if x <? 0 then "-"%char else "+"%char.

(** [d.ddde+XX] *)
Definition repr_exp (ds : list digits) (x : Z) : string :=
  (digits_str (firstn 1 ds)
   ++ match skipn 1 ds with
      | [] => EmptyString
      | r => String "." (digits_str r)
      end
   ++ String "e" (String (sign_char x) (digits_str (exp_digits (Z.abs x)))))%string.

(** [0.000ddd], [ddd000.0] and [dd.ddd] *)
Definition repr_fixed (ds : list digits) (decpt : Z) : string :=
  if decpt <=? 0 then
    String "0" (String "." (digits_str (zeros (Z.to_nat (- decpt)) ++ ds)))
  else if Z.of_nat (length ds) <=? decpt then
    (digits_str (ds ++ zeros (Z.to_nat decpt - length ds)) ++ ".0")%string
  else
    (digits_str (firstn (Z.to_nat decpt) ds)
     ++ String "." (digits_str (skipn (Z.to_nat decpt) ds)))%string.

Definition fin_body (ds : list digits) (e : Z) : string :=
  let ds' := match ds with [] => [d0] | _ => ds end in
  let decpt := Z.of_nat (length ds') + e in
  if (decpt <=? -4) || (16 <? decpt)
  then repr_exp ds' (decpt - 1)
  else repr_fixed ds' decpt.

Definition fin_repr (neg : bool) (ds : list digits) (e : Z) : string :=
  if neg then String "-" (fin_body ds e) else fin_body ds e.

Definition float_repr (f : pyfloat) : string :=
  match f with
  | Fin neg ds e => fin_repr neg ds e
  | Inf => "inf"
  | NegInf => "-inf"
  | NaN => "nan"
  end.

(** [repr] of an int. *)
Definition int_repr (z : Z) : string :=
  match z with
  | Z0 => "0"
  | Zpos p => digits_str (pos_digits p)
  | Zneg p => String "-" (digits_str (pos_digits p))
  end.

(** ** Python values of JSON shape

    What [json.loads] returns and what [json.dumps] accepts: [None],
    [bool], [int], [float], [str], [list] and [dict] with string keys. *)

#[local] Unset Elimination Schemes.
Inductive pyval :=
| PNone
| PBool (b : bool)
| PInt (z : Z)
| PFloat (f : pyfloat)
| PStr (s : string)
| PList (l : list pyval)
| PDict (d : list (string * pyval)).
#[local] Set Elimination Schemes.

Definition pydict := list (string * pyval).

(** Induction with the hypotheses for the elements of lists and dicts. *)
Section pyval_induction.
Variable P : pyval -> Prop.
Hypothesis HNone : P PNone.
Hypothesis HBool : forall b, P (PBool b).
Hypothesis HInt : forall z, P (PInt z).
Hypothesis HFloat : forall f, P (PFloat f).
Hypothesis HStr : forall s, P (PStr s).
Hypothesis HList : forall l, Forall P l -> P (PList l).
Hypothesis HDict : forall d, Forall (fun kv => P (snd kv)) d -> P (PDict d).

Fixpoint pyval_ind' (v : pyval) : P v :=
  match v with
  | PNone => HNone
  | PBool b => HBool b
  | PInt z => HInt z
  | PFloat f => HFloat f
  | PStr s => HStr s
  | PList l =>
      HList l ((fix go (l : list pyval) : Forall P l :=
                  match l with
                  | [] => Forall_nil _
                  | x :: l' => Forall_cons x (pyval_ind' x) (go l')
                  end) l)
  | PDict d =>
      HDict d ((fix go (d : pydict) : Forall (fun kv => P (snd kv)) d :=
                  match d with
                  | [] => Forall_nil _
                  | kv :: d' =>
                      Forall_cons (P := fun kv => P (snd kv)) kv
                                  (pyval_ind' (snd kv)) (go d')
                  end) d)
  end.
End pyval_induction.

(** [d.get(k)]: the value stored under [k], if any. *)
Fixpoint dict_get {A : Type} (d : list (string * A)) (k : string) : option A :=
  match d with
  | [] => None
  | (k', v) :: d' => if String.eqb k k' then Some v else dict_get d' k
  end.

(** [d[k] = v]: an existing key keeps its position, a new key goes last. *)
Fixpoint dict_set {A : Type} (d : list (string * A)) (k : string) (v : A)
  : list (string * A) :=
  match d with
  | [] => [(k, v)]
  | (k', v') :: d' =>
      if String.eqb k k' then (k, v) :: d' else (k', v') :: dict_set d' k v
  end.

(** [k in d] *)
Definition dict_mem {A : Type} (d : list (string * A)) (k : string) : bool :=
  match dict_get d k with Some _ => true | None => false end.

(** Truth value of a Python object: [None], [False], zero, the empty
    string and the empty containers are false. *)
Definition truthy (v : pyval) : bool :=
  match v with
  | PNone => false
  | PBool b => b
  | PInt z => negb (z =? 0)
  | PFloat f => negb (float_eqb f (Fin false [] 0))
  | PStr s => negb (String.eqb s EmptyString)
  | PList l => match l with [] => false | _ => true end
  | PDict d => match d with [] => false | _ => true end
  end.

Fixpoint keys_distinct (ks : list string) : bool :=
  match ks with
  | [] => true
  | k :: ks' => negb (existsb (String.eqb k) ks') && keys_distinct ks'
  end.

(** The values a Python program can build: every float in its canonical
    representation, no key twice in a dict. *)
Fixpoint pyval_wf (v : pyval) : bool :=
  match v with
  | PFloat f => float_wf f
  | PList l => forallb pyval_wf l
  | PDict d =>
      keys_distinct (map fst d) && forallb (fun kv => pyval_wf (snd kv)) d
  | _ => true
  end.

(** No [inf], [-inf] or [nan] anywhere in the value. *)
Fixpoint pyval_finite (v : pyval) : bool :=
  match v with
  | PFloat f => is_finite f
  | PList l => forallb pyval_finite l
  | PDict d => forallb (fun kv => pyval_finite (snd kv)) d
  | _ => true
  end.

(** A float a JSON text can carry: canonical and finite. *)
Definition float_plain (f : pyfloat) : bool := float_wf f && is_finite f.

Definition pyval_plain (v : pyval) : bool := pyval_wf v && pyval_finite v.

Definition opt_holds {A : Type} (p : A -> bool) (o : option A) : bool :=
  match o with
  | Some a => p a
  | None => true
  end.

(** ** Exceptions and results *)

(** One entry of a pydantic [ValidationError]: where, and which rule. *)
Inductive loc_item :=
| LKey (name : string)
| LIdx (i : nat).

Record error_detail := mk_error {
  err_loc : list loc_item;
  err_type : string
}.

(** The exception classes the two modules can meet.  In Python
    [JSONDecodeError] and pydantic's [ValidationError] and
    [PydanticSerializationError] are subclasses of [ValueError]; here
    every class has its own constructor, so that [ValueError] below is
    an instance of exactly that class. *)
Inductive exn :=
| ValueError (msg : string)
| TypeError (msg : string)
| AttributeError (msg : string)
| JSONDecodeError (msg : string)
| ValidationError (title : string) (errors : list error_detail)
| SerializationError (msg : string).

Inductive result (A : Type) :=
| Return (a : A)
| Raise (e : exn).

Arguments Return {A} a.
Arguments Raise {A} e.

Definition bind {A B : Type} (c : result A) (k : A -> result B) : result B :=
  match c with
  | Return a => k a
  | Raise e => Raise e
  end.

Notation "x <- c ;; k" := (bind c (fun x => k))
  (at level 61, c at next level, right associativity).

(** Run [f] over a list from left to right; the first exception ends
    the run. *)
Definition mapM {A B : Type} (f : A -> result B) : list A -> result (list B) :=
  fix run (l : list A) : result (list B) :=
    match l with
    | [] => Return []
    | x :: l' => y <- f x ;; ys <- run l' ;; Return (y :: ys)
    end.

(** [try: body except Exception as e: handler(e)] *)
Definition try_except {A : Type} (body : result A) (handler : exn -> result A)
  : result A :=
  match body with
  | Return a => Return a
  | Raise e => handler e
  end.

Definition loc_item_str (i : loc_item) : string :=
  match i with
  | LKey name => name
  | LIdx i => int_repr (Z.of_nat i)
  end.

Definition error_detail_str (d : error_detail) : string :=
  (join_str "." (map loc_item_str (err_loc d))
   ++ str1 (chr 10) ++ "  [type=" ++ err_type d ++ "]")%string.

(** [str(e)].  For a [ValidationError] the text is an abridged form of
    pydantic's report: the count, the model, and per error its location
    and its rule. *)
Definition exn_str (e : exn) : string :=
  match e with
  | ValueError msg | TypeError msg | AttributeError msg
  | JSONDecodeError msg | SerializationError msg => msg
  | ValidationError title errors =>
      (int_repr (Z.of_nat (length errors)) ++ " validation error"
       ++ (match errors with [_] => EmptyString | _ => "s" end)
       ++ " for " ++ title
       ++ concat_str (map (fun d => (str1 (chr 10) ++ error_detail_str d)%string)
                          errors))%string
  end.

(** ** JSON text: [json.dumps] and pydantic's writer *)

Definition hex_char (n : nat) : ascii :=
  match n with
  | 0 => "0" | 1 => "1" | 2 => "2" | 3 => "3" | 4 => "4" | 5 => "5"
  | 6 => "6" | 7 => "7" | 8 => "8" | 9 => "9" | 10 => "a" | 11 => "b"
  | 12 => "c" | 13 => "d" | 14 => "e" | _ => "f"
  end%nat%char.

(** The separators and [ensure_ascii] tell the two writers apart:
    [json.dumps] writes [", "] and [": "] and, with its default
    [ensure_ascii=True], escapes every character outside the printable
    ASCII range; pydantic's writer is compact and escapes the control
    characters only.  (pydantic may also spell a float otherwise than
    [repr] does, [1e16] for [1e+16]; both spellings denote the same
    float, and only [json.loads] reads that text.) *)
Record json_style := {
  item_sep : string;
  key_sep : string;
  ensure_ascii : bool
}.

Definition python_style : json_style :=
  {| item_sep := ", "; key_sep := ": "; ensure_ascii := true |}.

Definition compact_style : json_style :=
  {| item_sep := ","; key_sep := ":"; ensure_ascii := false |}.

Definition escape_char (st : json_style) (c : ascii) : string :=
  let n := nat_of_ascii c in
  if Ascii.eqb c quote then String backslash (str1 quote)
  else if Ascii.eqb c backslash then String backslash (str1 backslash)
  else if Nat.eqb n 8 then String backslash "b"
  else if Nat.eqb n 9 then String backslash "t"
  else if Nat.eqb n 10 then String backslash "n"
  else if Nat.eqb n 12 then String backslash "f"
  else if Nat.eqb n 13 then String backslash "r"
  else if Nat.ltb n 32 || (ensure_ascii st && Nat.eqb n 127) then
    String backslash
      (String "u" (String "0" (String "0"
         (String (hex_char (Nat.div n 16)) (str1 (hex_char (Nat.modulo n 16)))))))
  else str1 c.

Definition code (c : ascii) : N := N_of_ascii c.

Definition hex_digit (n : N) : ascii := hex_char (N.to_nat n).

(** [\uXXXX], in small letters as ['\\u{0:04x}'] writes it. *)
Definition escape_unit (u : N) : string :=
  String backslash
    (String "u"
       (String (hex_digit (u / 4096))
          (String (hex_digit ((u / 256) mod 16))
             (String (hex_digit ((u / 16) mod 16))
                (str1 (hex_digit (u mod 16)))))))%N.

(** A code point of the basic plane is one escape, any other a pair of
    surrogates. *)
Definition escape_code_point (u : N) : string :=
  (if u <? 65536 then escape_unit u
   else (escape_unit (55296 + (u - 65536) / 1024)
         ++ escape_unit (56320 + (u - 65536) mod 1024))%string)%N.

Definition is_continuation (c : ascii) : bool :=
  ((128 <=? code c) && (code c <=? 191))%N.

(** The code point that a well-formed UTF-8 sequence of two, three or
    four bytes encodes: in shortest form, no surrogate, at most
    U+10FFFF. *)
Definition utf8_2 (c1 c2 : ascii) : option N :=
  (if (194 <=? code c1) && (code c1 <=? 223) && is_continuation c2
   then Some ((code c1 - 192) * 64 + (code c2 - 128))
   else None)%N.

Definition utf8_3 (c1 c2 c3 : ascii) : option N :=
  (let u := (code c1 - 224) * 4096 + (code c2 - 128) * 64 + (code c3 - 128) in
   if (224 <=? code c1) && (code c1 <=? 239)
      && is_continuation c2 && is_continuation c3
      && (2048 <=? u) && negb ((55296 <=? u) && (u <=? 57343))
   then Some u
   else None)%N.

Definition utf8_4 (c1 c2 c3 c4 : ascii) : option N :=
  (let u := (code c1 - 240) * 262144 + (code c2 - 128) * 4096
            + (code c3 - 128) * 64 + (code c4 - 128) in
   if (240 <=? code c1) && (code c1 <=? 244)
      && is_continuation c2 && is_continuation c3 && is_continuation c4
      && (65536 <=? u) && (u <=? 1114111)
   then Some u
   else None)%N.

(** The inside of a string literal.  A [str] is kept as the bytes of
    its UTF-8 encoding, so under [ensure_ascii] the bytes of a character
    outside ASCII are read together and written as the escape of its
    code point; pydantic's writer copies them.  (A byte from 128 on that
    starts no well-formed sequence, which the encoding of a [str] never
    holds, is copied.) *)
Fixpoint escape_string (st : json_style) (s : string) : string :=
  match s with
  | EmptyString => EmptyString
  | String c s1 =>
      let copied := (escape_char st c ++ escape_string st s1)%string in
      if negb (ensure_ascii st) || (code c <? 128)%N then copied
      else
        match s1 with
        | String c2 s2 =>
            match utf8_2 c c2 with
            | Some u => (escape_code_point u ++ escape_string st s2)%string
            | None =>
                match s2 with
                | String c3 s3 =>
                    match utf8_3 c c2 c3 with
                    | Some u => (escape_code_point u ++ escape_string st s3)%string
                    | None =>
                        match s3 with
                        | String c4 s4 =>
                            match utf8_4 c c2 c3 c4 with
                            | Some u =>
                                (escape_code_point u ++ escape_string st s4)%string
                            | None => copied
                            end
                        | EmptyString => copied
                        end
                    end
                | EmptyString => copied
                end
            end
        | EmptyString => copied
        end
  end.

Definition write_string (st : json_style) (s : string) : string :=
  String quote (escape_string st s ++ str1 quote).

(** [float.__repr__] with the JSON names of the non-finite values. *)
Definition write_float (f : pyfloat) : string :=
  match f with
  | Fin neg ds e => fin_repr neg ds e
  | Inf => "Infinity"
  | NegInf => "-Infinity"
  | NaN => "NaN"
  end.

Fixpoint write_value (st : json_style) (v : pyval) : string :=
  match v with
  | PNone => "null"
  | PBool true => "true"
  | PBool false => "false"
  | PInt z => int_repr z
  | PFloat f => write_float f
  | PStr s => write_string st s
  | PList l =>
      (String "["
         ((fix items (l : list pyval) : string :=
             match l with
             | [] => EmptyString
             | [x] => write_value st x
             | x :: l' => write_value st x ++ item_sep st ++ items l'
             end) l ++ "]"))%string
  | PDict d =>
      (String "{"
         ((fix members (d : pydict) : string :=
             match d with
             | [] => EmptyString
             | [(k, x)] => write_string st k ++ key_sep st ++ write_value st x
             | (k, x) :: d' =>
                 write_string st k ++ key_sep st ++ write_value st x
                 ++ item_sep st ++ members d'
             end) d ++ "}"))%string
  end.

(** [json.dumps(obj)] with the default options, for an [obj] of JSON
    shape.  (CPython refuses to write or to read an int of more than
    4300 digits and has a bound on the depth of nesting; the writers
    and the scanner of this file have neither.  The statements that
    would meet the first limit ask for ints within it.) *)
Definition json_dumps (v : pyval) : string := write_value python_style v.

(** *** Objects that are no JSON values

    [create_message] takes a [Dict[str, Any]], and an
    [ActionParameter] holds a [List[Any]] or a [Dict[str, Any]]: a value
    in them may be any Python object.  [pyany] adds to the JSON shapes
    the tuple, which both writers write as an array, and the object of
    any other kind: a [datetime], a [bytes], an [object()], a dict one
    of whose keys is no [str].  Such an object is given by what each
    of the two writers makes of it, [json.dumps] first and the
    serializer of pydantic second: a [datetime] is refused by
    [json.dumps] and written as its ISO text by pydantic, an
    [object()] is refused by both, the dict [{1: 2}] is written by both,
    with the key ["1"]. *)

(** What a writer makes of such an object: the JSON value it writes, or
    the message it refuses the object with. *)
Inductive written :=
| Written (v : pyval)
| Refused (msg : string).

#[local] Unset Elimination Schemes.
Inductive pyany :=
| ANone
| ABool (b : bool)
| AInt (z : Z)
| AFloat (f : pyfloat)
| AStr (s : string)
| AList (l : list pyany)
| ATuple (l : list pyany)
| ADict (d : list (string * pyany))
| AObject (dumps : written) (serialized : written).
#[local] Set Elimination Schemes.

Section pyany_induction.
Variable P : pyany -> Prop.
Hypothesis HNone : P ANone.
Hypothesis HBool : forall b, P (ABool b).
Hypothesis HInt : forall z, P (AInt z).
Hypothesis HFloat : forall f, P (AFloat f).
Hypothesis HStr : forall s, P (AStr s).
Hypothesis HList : forall l, Forall P l -> P (AList l).
Hypothesis HTuple : forall l, Forall P l -> P (ATuple l).
Hypothesis HDict : forall d, Forall (fun kv => P (snd kv)) d -> P (ADict d).
Hypothesis HObject : forall dumps serialized, P (AObject dumps serialized).

End pyany_induction.

(** A value of JSON shape, as an object. *)
Fixpoint of_json (v : pyval) : pyany :=
  match v with
  | PNone => ANone
  | PBool b => ABool b
  | PInt z => AInt z
  | PFloat f => AFloat f
  | PStr s => AStr s
  | PList l => AList (map of_json l)
  | PDict d => ADict (map (fun kv => (fst kv, of_json (snd kv))) d)
  end.

Definition any_dict (d : pydict) : list (string * pyany) :=
  map (fun kv => (fst kv, of_json (snd kv))) d.







(** The value of JSON shape that an object is, if it is one: no tuple
    and no object of another kind anywhere in it. *)
Fixpoint as_json (a : pyany) : option pyval :=
  match a with
  | ANone => Some PNone
  | ABool b => Some (PBool b)
  | AInt z => Some (PInt z)
  | AFloat f => Some (PFloat f)
  | AStr s => Some (PStr s)
  | AList l =>
      option_map PList
        ((fix items (l : list pyany) : option (list pyval) :=
            match l with
            | [] => Some []
            | x :: l' =>
                match as_json x, items l' with
                | Some y, Some ys => Some (y :: ys)
                | _, _ => None
                end
            end) l)
  | ADict d =>
      option_map PDict
        ((fix members (d : list (string * pyany)) : option pydict :=
            match d with
            | [] => Some []
            | (k, x) :: d' =>
                match as_json x, members d' with
                | Some y, Some ys => Some ((k, y) :: ys)
                | _, _ => None
                end
            end) d)
  | ATuple _ | AObject _ _ => None
  end.


(** ** JSON text: [json.loads] *)

Definition is_ws (c : ascii) : bool :=
  let n := nat_of_ascii c in
  Nat.eqb n 32 || Nat.eqb n 9 || Nat.eqb n 10 || Nat.eqb n 13.

Fixpoint skip_ws (s : string) : string :=
  match s with
  | String c s' => if is_ws c then skip_ws s' else s
  | EmptyString => s
  end.

(** [starts_with p s] is the rest of [s] after the prefix [p]. *)
Fixpoint starts_with (p s : string) : option string :=
  match p, s with
  | EmptyString, _ => Some s
  | String a p', String b s' => if Ascii.eqb a b then starts_with p' s' else None
  | _, _ => None
  end.

(** *** Strings *)

Definition hex_val (c : ascii) : option N :=
  let n := nat_of_ascii c in
  if Nat.leb 48 n && Nat.leb n 57 then Some (N.of_nat (n - 48))
  else if Nat.leb 97 n && Nat.leb n 102 then Some (N.of_nat (n - 87))
  else if Nat.leb 65 n && Nat.leb n 70 then Some (N.of_nat (n - 55))
  else None.

Definition hex4 (a b c d : ascii) : option N :=
  match hex_val a, hex_val b, hex_val c, hex_val d with
  | Some x, Some y, Some z, Some w => Some (((x * 16 + y) * 16 + z) * 16 + w)%N
  | _, _, _, _ => None
  end.

(** What a string literal is made of: a character as written, or the
    code unit of a [\uXXXX] escape. *)
Inductive str_unit :=
| Raw (c : ascii)
| Esc (u : N).

Definition simple_escape (c : ascii) : option ascii :=
  if Ascii.eqb c quote then Some quote
  else if Ascii.eqb c backslash then Some backslash
  else if Ascii.eqb c "/" then Some "/"%char
  else if Ascii.eqb c "b" then Some (chr 8)
  else if Ascii.eqb c "f" then Some (chr 12)
  else if Ascii.eqb c "n" then Some (chr 10)
  else if Ascii.eqb c "r" then Some (chr 13)
  else if Ascii.eqb c "t" then Some (chr 9)
  else None.

(** Scan a string literal after its opening quote, up to and including
    the closing one.  A raw control character is an error. *)
Fixpoint scan_string (s : string) : option (list str_unit * string) :=
  match s with
  | EmptyString => None
  | String c r =>
      if Ascii.eqb c quote then Some ([], r)
      else if Ascii.eqb c backslash then
        match r with
        | String e r1 =>
            if Ascii.eqb e "u" then
              match r1 with
              | String h1 (String h2 (String h3 (String h4 r2))) =>
                  match hex4 h1 h2 h3 h4 with
                  | Some u =>
                      match scan_string r2 with
                      | Some (us, r3) => Some (Esc u :: us, r3)
                      | None => None
                      end
                  | None => None
                  end
              | _ => None
              end
            else
              match simple_escape e with
              | Some x =>
                  match scan_string r1 with
                  | Some (us, r3) => Some (Raw x :: us, r3)
                  | None => None
                  end
              | None => None
              end
        | EmptyString => None
        end
      else if Nat.ltb (nat_of_ascii c) 32 then None
      else
        match scan_string r with
        | Some (us, r3) => Some (Raw c :: us, r3)
        | None => None
        end
  end.

Definition byte (n : N) : ascii := ascii_of_N n.

(** The UTF-8 encoding of a code point. *)
Definition utf8 (u : N) : string :=
  (if u <? 128 then str1 (byte u)
   else if u <? 2048 then
     String (byte (192 + u / 64)) (str1 (byte (128 + u mod 64)))
   else if u <? 65536 then
     String (byte (224 + u / 4096))
       (String (byte (128 + (u / 64) mod 64)) (str1 (byte (128 + u mod 64))))
   else
     String (byte (240 + u / 262144))
       (String (byte (128 + (u / 4096) mod 64))
          (String (byte (128 + (u / 64) mod 64)) (str1 (byte (128 + u mod 64))))))%N.

Definition is_high_surrogate (u : N) : bool := ((55296 <=? u) && (u <=? 56319))%N.
Definition is_low_surrogate (u : N) : bool := ((56320 <=? u) && (u <=? 57343))%N.

(** The text of a scanned literal: a high surrogate followed by a low
    one is one code point. *)
Fixpoint decode_units (us : list str_unit) : string :=
  match us with
  | [] => EmptyString
  | Raw c :: us' => String c (decode_units us')
  | Esc u :: us' =>
      match us' with
      | Esc w :: us'' =>
          if is_high_surrogate u && is_low_surrogate w
          then (utf8 (65536 + (u - 55296) * 1024 + (w - 56320))%N
                ++ decode_units us'')%string
          else (utf8 u ++ decode_units us')%string
      | _ => (utf8 u ++ decode_units us')%string
      end
  end.

Definition parse_string (s : string) : option (string * string) :=
  match scan_string s with
  | Some (us, r) => Some (decode_units us, r)
  | None => None
  end.

(** *** Numbers

    An optional minus sign, an integer part, an optional fraction and an
    optional exponent. *)

Fixpoint scan_digits (s : string) : list digits * string :=
  match s with
  | String c r =>
      match char_digit c with
      | Some d => let (ds, r') := scan_digits r in (d :: ds, r')
      | None => ([], s)
      end
  | EmptyString => ([], s)
  end.

(** The integer part: a single [0], or a non-empty run of digits that
    does not start with [0]. *)
Definition scan_int_part (s : string) : option (list digits * string) :=
  match s with
  | String c r =>
      match char_digit c with
      | Some d0 => Some ([d0], r)
      | Some _ => Some (scan_digits s)
      | None => None
      end
  | EmptyString => None
  end.

(** The fraction: a point and at least one digit. *)
Definition scan_frac (s : string) : option (list digits * string) :=
  match s with
  | String c r =>
      if Ascii.eqb c "." then
        match scan_digits r with
        | ([], _) => None
        | (ds, r') => Some (ds, r')
        end
      else None
  | EmptyString => None
  end.

(** The exponent: [e] or [E], an optional sign, at least one digit. *)
Definition scan_exp (s : string) : option (Z * string) :=
  match s with
  | String c r =>
      if Ascii.eqb c "e" || Ascii.eqb c "E" then
        let (neg, r1) :=
          match r with
          | String sg r' =>
              if Ascii.eqb sg "-" then (true, r')
              else if Ascii.eqb sg "+" then (false, r')
              else (false, r)
          | EmptyString => (false, r)
          end in
        match scan_digits r1 with
        | ([], _) => None
        | (ds, r2) => Some (signed neg (digits_val ds), r2)
        end
      else None
  | EmptyString => None
  end.

(** A number without fraction and exponent is an [int], any other a
    [float]. *)
Definition parse_unsigned (neg : bool) (s : string) : option (pyval * string) :=
  match scan_int_part s with
  | None => None
  | Some (ip, s1) =>
      let frac := scan_frac s1 in
      let s2 := match frac with Some (_, r) => r | None => s1 end in
      let exp := scan_exp s2 in
      let s3 := match exp with Some (_, r) => r | None => s2 end in
      match frac, exp with
      | None, None => Some (PInt (signed neg (digits_val ip)), s3)
      | _, _ =>
          let fp := match frac with Some (ds, _) => ds | None => [] end in
          let x := match exp with Some (x, _) => x | None => 0 end in
          Some (PFloat (mk_float neg (ip ++ fp) (x - Z.of_nat (length fp))), s3)
      end
  end.

Definition parse_number (s : string) : option (pyval * string) :=
  match s with
  | String c r =>
      if Ascii.eqb c "-" then parse_unsigned true r else parse_unsigned false s
  | EmptyString => None
  end.

(** *** Values *)

Definition parse_literal (s : string) : option (pyval * string) :=
  match starts_with "null" s with
  | Some r => Some (PNone, r)
  | None =>
  match starts_with "true" s with
  | Some r => Some (PBool true, r)
  | None =>
  match starts_with "false" s with
  | Some r => Some (PBool false, r)
  | None =>
  match parse_number s with
  | Some res => Some res
  | None =>
  match starts_with "NaN" s with
  | Some r => Some (PFloat NaN, r)
  | None =>
  match starts_with "Infinity" s with
  | Some r => Some (PFloat Inf, r)
  | None =>
  match starts_with "-Infinity" s with
  | Some r => Some (PFloat NegInf, r)
  | None => None
  end end end end end end end.

(** A later occurrence of a key replaces the value of the earlier one. *)
Definition dict_of_pairs (kvs : pydict) : pydict :=
  fold_left (fun d kv => dict_set d (fst kv) (snd kv)) kvs [].

(** The scanner proper.  [fuel] bounds the number of nested calls; one
    unit per character of the text is always enough. *)
Fixpoint parse_value (fuel : nat) (s : string) {struct fuel}
  : option (pyval * string) :=
  match fuel with
  | O => None
  | S fuel' =>
      match s with
      | EmptyString => None
      | String c r =>
          if Ascii.eqb c quote then
            match parse_string r with
            | Some (x, r') => Some (PStr x, r')
            | None => None
            end
          else if Ascii.eqb c "{" then
            match skip_ws r with
            | String c1 r1 =>
                if Ascii.eqb c1 "}" then Some (PDict [], r1)
                else
                  match parse_members fuel' (String c1 r1) with
                  | Some (kvs, r') => Some (PDict (dict_of_pairs kvs), r')
                  | None => None
                  end
            | EmptyString => None
            end
          else if Ascii.eqb c "[" then
            match skip_ws r with
            | String c1 r1 =>
                if Ascii.eqb c1 "]" then Some (PList [], r1)
                else
                  match parse_elements fuel' (String c1 r1) with
                  | Some (vs, r') => Some (PList vs, r')
                  | None => None
                  end
            | EmptyString => None
            end
          else parse_literal s
      end
  end

with parse_elements (fuel : nat) (s : string) {struct fuel}
  : option (list pyval * string) :=
  match fuel with
  | O => None
  | S fuel' =>
      match parse_value fuel' s with
      | Some (v, r) =>
          match skip_ws r with
          | String c r1 =>
              if Ascii.eqb c "]" then Some ([v], r1)
              else if Ascii.eqb c "," then
                match parse_elements fuel' (skip_ws r1) with
                | Some (vs, r') => Some (v :: vs, r')
                | None => None
                end
              else None
          | EmptyString => None
          end
      | None => None
      end
  end

with parse_members (fuel : nat) (s : string) {struct fuel}
  : option (pydict * string) :=
  match fuel with
  | O => None
  | S fuel' =>
      match s with
      | String q r =>
          if Ascii.eqb q quote then
            match parse_string r with
            | Some (k, r0) =>
                match skip_ws r0 with
                | String c0 r1 =>
                    if Ascii.eqb c0 ":" then
                      match parse_value fuel' (skip_ws r1) with
                      | Some (v, r2) =>
                          match skip_ws r2 with
                          | String c r3 =>
                              if Ascii.eqb c "}" then Some ([(k, v)], r3)
                              else if Ascii.eqb c "," then
                                match parse_members fuel' (skip_ws r3) with
                                | Some (kvs, r') => Some ((k, v) :: kvs, r')
                                | None => None
                                end
                              else None
                          | EmptyString => None
                          end
                      | None => None
                      end
                    else None
                | EmptyString => None
                end
            | None => None
            end
          else None
      | EmptyString => None
      end
  end.

(** [json.loads(s)]: one value, white space around it, nothing else.
    The message of the error is shortened to what went wrong, without
    the position. *)
Definition json_loads (s : string) : result pyval :=
  match parse_value (S (String.length s)) (skip_ws s) with
  | Some (v, r) =>
      match skip_ws r with
      | EmptyString => Return v
      | _ => Raise (JSONDecodeError "Extra data")
      end
  | None => Raise (JSONDecodeError "Expecting value")
  end.

(** ** pydantic: field validators

    [model_validate] on a Python value, in pydantic's default (lax)
    mode.  A validator returns the validated value or the list of
    errors it found; a model reports the errors of all its fields. *)

Inductive vresult (A : Type) :=
| VOk (a : A)
| VErr (errors : list error_detail).

Arguments VOk {A} a.
Arguments VErr {A} errors.

Definition verror {A : Type} (type : string) : vresult A :=
  VErr [mk_error [] type].

(** Errors found below a field or an index get it in front of their
    location. *)
Definition at_loc {A : Type} (i : loc_item) (r : vresult A) : vresult A :=
  match r with
  | VOk a => VOk a
  | VErr errors =>
      VErr (map (fun d => mk_error (i :: err_loc d) (err_type d)) errors)
  end.

Definition vap {A B : Type} (f : vresult (A -> B)) (a : vresult A) : vresult B :=
  match f, a with
  | VOk g, VOk x => VOk (g x)
  | VOk _, VErr e => VErr e
  | VErr e, VOk _ => VErr e
  | VErr e1, VErr e2 => VErr (e1 ++ e2)
  end.

Definition vbind {A B : Type} (a : vresult A) (k : A -> vresult B) : vresult B :=
  match a with
  | VOk x => k x
  | VErr e => VErr e
  end.

Notation "f <*> a" := (vap f a) (at level 55, left associativity).

(** A numeric string given where a number is expected is converted.
    The strings accepted here are those of the JSON number syntax, with
    white space around them; pydantic takes a few more spellings. *)
Definition str_as_number (s : string) : option pyval :=
  match parse_number (skip_ws s) with
  | Some (v, r) =>
      match skip_ws r with
      | EmptyString => Some v
      | _ => None
      end
  | None => None
  end.

Definition str_validator (v : pyval) : vresult string :=
  match v with
  | PStr s => VOk s
  | _ => verror "string_type"
  end.

(** [float]: an [int] and a [bool] are converted. *)
Definition float_validator (v : pyval) : vresult pyfloat :=
  match v with
  | PFloat f => VOk f
  | PInt z => VOk (float_of_Z z)
  | PBool b => VOk (float_of_Z (if b then 1 else 0))
  | PStr s =>
      match str_as_number s with
      | Some (PFloat f) => VOk f
      | Some (PInt z) => VOk (float_of_Z z)
      | _ => verror "float_parsing"
      end
  | _ => verror "float_type"
  end.

(** [int]: a [bool] and a float without fractional part are converted. *)
Definition int_validator (v : pyval) : vresult Z :=
  match v with
  | PInt z => VOk z
  | PBool b => VOk (if b then 1 else 0)
  | PFloat f =>
      if is_finite f then
        match float_to_Z f with
        | Some z => VOk z
        | None => verror "int_from_float"
        end
      else verror "finite_number"
  | PStr s =>
      match str_as_number s with
      | Some (PInt z) => VOk z
      | _ => verror "int_parsing"
      end
  | _ => verror "int_type"
  end.

(** The bounds of [Field(ge=..., le=...)].  A [nan] satisfies no bound. *)
Definition check_le (bound : pyfloat) (f : pyfloat) : vresult pyfloat :=
  if float_le f bound then VOk f else verror "less_than_equal".

Definition check_ge (bound : pyfloat) (f : pyfloat) : vresult pyfloat :=
  if float_le bound f then VOk f else verror "greater_than_equal".

Definition int_check_ge (bound : Z) (z : Z) : vresult Z :=
  if bound <=? z then VOk z else verror "greater_than_equal".

(** [Optional[T]] *)
Definition optional {A : Type} (val : pyval -> vresult A) (v : pyval)
  : vresult (option A) :=
  match v with
  | PNone => VOk None
  | _ => vbind (val v) (fun a => VOk (Some a))
  end.

(** [List[T]]: every element is validated, at its index. *)
Fixpoint list_items {A : Type} (val : pyval -> vresult A) (i : nat)
  (l : list pyval) : vresult (list A) :=
  match l with
  | [] => VOk []
  | x :: l' => VOk cons <*> at_loc (LIdx i) (val x) <*> list_items val (S i) l'
  end.

Definition list_validator {A : Type} (val : pyval -> vresult A) (v : pyval)
  : vresult (list A) :=
  match v with
  | PList l => list_items val O l
  | _ => verror "list_type"
  end.

(** An enumeration accepts the value of one of its members. *)
Definition enum_validator {A : Type} (members : list (string * A)) (v : pyval)
  : vresult A :=
  match v with
  | PStr s =>
      match dict_get members s with
      | Some a => VOk a
      | None => verror "enum"
      end
  | _ => verror "enum"
  end.

(** A field declared with [Field(...)]: required. *)
Definition required {A : Type} (name : string) (val : pyval -> vresult A)
  (d : pydict) : vresult A :=
  match dict_get d name with
  | Some v => at_loc (LKey name) (val v)
  | None => VErr [mk_error [LKey name] "missing"]
  end.

(** A field declared with [Field(default, ...)]: the default is taken as
    it is when the key is absent. *)
Definition with_default {A : Type} (name : string) (default : A)
  (val : pyval -> vresult A) (d : pydict) : vresult A :=
  match dict_get d name with
  | Some v => at_loc (LKey name) (val v)
  | None => VOk default
  end.

(** The input of a model is a dict; keys that are no fields are ignored. *)
Definition model_validator {A : Type} (fields : pydict -> vresult A) (v : pyval)
  : vresult A :=
  match v with
  | PDict d => fields d
  | _ => verror "model_type"
  end.

(** ** pydantic: serialization to JSON

    [model_dump_json] writes [null] for a float that is not finite, in a
    typed field and inside an [Any] alike. *)

Definition dump_float (f : pyfloat) : pyval :=
  if is_finite f then PFloat f else PNone.

(** What is written for a value held under [Any]: a tuple as an array,
    an object of another kind as the serializer writes it; the first
    object that is refused raises [PydanticSerializationError]. *)
Fixpoint dump_any (a : pyany) : result pyval :=
  match a with
  | ANone => Return PNone
  | ABool b => Return (PBool b)
  | AInt z => Return (PInt z)
  | AFloat f => Return (dump_float f)
  | AStr s => Return (PStr s)
  | AList l => l' <- mapM dump_any l ;; Return (PList l')
  | ATuple l => l' <- mapM dump_any l ;; Return (PList l')
  | ADict d =>
      d' <- mapM (fun kv => y <- dump_any (snd kv) ;; Return (fst kv, y)) d ;;
      Return (PDict d')
  | AObject _ (Written v) => Return v
  | AObject _ (Refused msg) => Raise (SerializationError msg)
  end.

Definition dump_option {A : Type} (dump : A -> pyval) (o : option A) : pyval :=
  match o with
  | Some a => dump a
  | None => PNone
  end.

Definition raise_errors {A : Type} (title : string) (r : vresult A) : result A :=
  match r with
  | VOk a => Return a
  | VErr errors => Raise (ValidationError title errors)
  end.

(** ** common.py *)

(** [class BlockingType(Enum)] *)
Module BlockingType.
Inductive t := NONE | SOFT | HARD.

Definition members : list (string * t) :=
  [("NONE", NONE); ("SOFT", SOFT); ("HARD", HARD)].

Definition value (b : t) : string :=
  match b with
  | NONE => "NONE"
  | SOFT => "SOFT"
  | HARD => "HARD"
  end.

Definition validate : pyval -> vresult t := enum_validator members.
Definition dump (b : t) : pyval := PStr (value b).
End BlockingType.

(** [class ActionParameter(BaseModel)] *)
Module ActionParameter.
(** [Union[List[Any], bool, float, str, Dict[str, Any]]], the member
    that holds the value as tag.  A list and a dict hold objects of
    any kind. *)
Inductive value_t :=
| VList (l : list pyany)
| VBool (b : bool)
| VFloat (f : pyfloat)
| VStr (s : string)
| VDict (d : list (string * pyany)).

Record t := {
  key : string;
  value : value_t
}.

(** The members of the union in the order of the declaration, each
    with its strict validator: the type itself, and for [float] also
    an [int]. *)
Definition as_list (v : pyval) : option value_t :=
  match v with PList l => Some (VList (map of_json l)) | _ => None end.
Definition as_bool (v : pyval) : option value_t :=
  match v with PBool b => Some (VBool b) | _ => None end.
Definition as_float (v : pyval) : option value_t :=
  match v with
  | PFloat f => Some (VFloat f)
  | PInt z => Some (VFloat (float_of_Z z))
  | _ => None
  end.
Definition as_str (v : pyval) : option value_t :=
  match v with PStr s => Some (VStr s) | _ => None end.
Definition as_dict (v : pyval) : option value_t :=
  match v with PDict d => Some (VDict (any_dict d)) | _ => None end.

Definition member : Type := (string * string) * (pyval -> option value_t).

(** Each member with its tag, the error it reports, and its validator. *)
Definition union_members : list member :=
  [(("list[any]", "list_type"), as_list);
   (("bool", "bool_type"), as_bool);
   (("float", "float_type"), as_float);
   (("str", "string_type"), as_str);
   (("dict[str,any]", "dict_type"), as_dict)].

Fixpoint first_match (ms : list member) (v : pyval) : option value_t :=
  match ms with
  | [] => None
  | (_, m) :: ms' =>
      match m v with
      | Some x => Some x
      | None => first_match ms' v
      end
  end.

(** The union takes the first member that matches the value strictly.
    Of the values of JSON shape only [None] matches no member
    strictly, and it matches none leniently either: the error names
    every member. *)
Definition value_validator (v : pyval) : vresult value_t :=
  match first_match union_members v with
  | Some x => VOk x
  | None =>
      VErr (map (fun m => mk_error [LKey (fst (fst m))] (snd (fst m)))
                union_members)
  end.

Definition fields (d : pydict) : vresult t :=
  VOk Build_t
  <*> required "key" str_validator d
  <*> required "value" value_validator d.

Definition validate : pyval -> vresult t := model_validator fields.

Definition model_validate (data : pyval) : result t :=
  raise_errors "ActionParameter" (validate data).

Definition dump_value (x : value_t) : result pyval :=
  match x with
  | VList l => dump_any (AList l)
  | VBool b => Return (PBool b)
  | VFloat f => Return (dump_float f)
  | VStr s => Return (PStr s)
  | VDict d => dump_any (ADict d)
  end.

Definition dump (p : t) : result pyval :=
  v <- dump_value (value p) ;;
  Return (PDict [("key", PStr (key p)); ("value", v)]).

Definition model_dump_json (p : t) : result string :=
  v <- dump p ;; Return (write_value compact_style v).

(** The value held is of JSON shape, well formed and finite. *)
Definition payload_plain (a : pyany) : bool :=
  match as_json a with
  | Some v => pyval_plain v
  | None => false
  end.

Definition plain (p : t) : bool :=
  match value p with
  | VList l => payload_plain (AList l)
  | VFloat f => float_plain f
  | VDict d => payload_plain (ADict d)
  | VBool _ | VStr _ => true
  end.
End ActionParameter.

(** [class Action(BaseModel)] *)
Module Action.
Record t := {
  actionType : string;
  actionId : string;
  actionDescription : option string;
  blockingType : BlockingType.t;
  actionParameters : option (list ActionParameter.t)
}.

Definition fields (d : pydict) : vresult t :=
  VOk Build_t
  <*> required "actionType" str_validator d
  <*> required "actionId" str_validator d
  <*> with_default "actionDescription" None (optional str_validator) d
  <*> required "blockingType" BlockingType.validate d
  <*> with_default "actionParameters" None
        (optional (list_validator ActionParameter.validate)) d.

Definition validate : pyval -> vresult t := model_validator fields.

Definition model_validate (data : pyval) : result t :=
  raise_errors "Action" (validate data).

Definition dump (a : t) : result pyval :=
  parameters <-
    match actionParameters a with
    | Some l => l' <- mapM ActionParameter.dump l ;; Return (PList l')
    | None => Return PNone
    end ;;
  Return (PDict [("actionType", PStr (actionType a));
                 ("actionId", PStr (actionId a));
                 ("actionDescription", dump_option PStr (actionDescription a));
                 ("blockingType", BlockingType.dump (blockingType a));
                 ("actionParameters", parameters)]).

Definition model_dump_json (a : t) : result string :=
  v <- dump a ;; Return (write_value compact_style v).

Definition plain (a : t) : bool :=
  opt_holds (forallb ActionParameter.plain) (actionParameters a).
End Action.

(** [class NodePosition(BaseModel)] *)
Module NodePosition.
Record t := {
  x : pyfloat;
  y : pyfloat;
  theta : option pyfloat;
  allowedDeviationXY : option pyfloat;
  allowedDeviationTheta : option pyfloat;
  mapId : string;
  mapDescription : option string
}.

(** [ge=-3.14159265359], [le=3.14159265359] *)
Definition theta_ge : pyfloat := dec (-314159265359) (-11).
Definition theta_le : pyfloat := dec 314159265359 (-11).
(** [ge=0.0], [le=3.141592654] *)
Definition deviation_ge : pyfloat := dec 0 0.
Definition deviationTheta_le : pyfloat := dec 3141592654 (-9).

Definition theta_validator (v : pyval) : vresult pyfloat :=
  vbind (vbind (float_validator v) (check_le theta_le)) (check_ge theta_ge).

Definition allowedDeviationXY_validator (v : pyval) : vresult pyfloat :=
  vbind (float_validator v) (check_ge deviation_ge).

Definition allowedDeviationTheta_validator (v : pyval) : vresult pyfloat :=
  vbind (vbind (float_validator v) (check_le deviationTheta_le))
        (check_ge deviation_ge).

Definition fields (d : pydict) : vresult t :=
  VOk Build_t
  <*> required "x" float_validator d
  <*> required "y" float_validator d
  <*> with_default "theta" None (optional theta_validator) d
  <*> with_default "allowedDeviationXY" None
        (optional allowedDeviationXY_validator) d
  <*> with_default "allowedDeviationTheta" None
        (optional allowedDeviationTheta_validator) d
  <*> required "mapId" str_validator d
  <*> with_default "mapDescription" None (optional str_validator) d.

Definition validate : pyval -> vresult t := model_validator fields.

Definition model_validate (data : pyval) : result t :=
  raise_errors "NodePosition" (validate data).

Definition dump (n : t) : pyval :=
  PDict [("x", dump_float (x n));
         ("y", dump_float (y n));
         ("theta", dump_option dump_float (theta n));
         ("allowedDeviationXY", dump_option dump_float (allowedDeviationXY n));
         ("allowedDeviationTheta",
          dump_option dump_float (allowedDeviationTheta n));
         ("mapId", PStr (mapId n));
         ("mapDescription", dump_option PStr (mapDescription n))].

Definition model_dump_json (n : t) : string :=
  write_value compact_style (dump n).

(** What the field constraints demand of an instance. *)
Definition constraints (n : t) : bool :=
  opt_holds (fun f => float_le f theta_le && float_le theta_ge f) (theta n)
  && opt_holds (float_le deviation_ge) (allowedDeviationXY n)
  && opt_holds (fun f => float_le f deviationTheta_le && float_le deviation_ge f)
       (allowedDeviationTheta n).

Definition plain (n : t) : bool :=
  float_plain (x n) && float_plain (y n)
  && opt_holds float_plain (theta n)
  && opt_holds float_plain (allowedDeviationXY n)
  && opt_holds float_plain (allowedDeviationTheta n).
End NodePosition.

(** [class ControlPoint(BaseModel)] *)
Module ControlPoint.
Record t := {
  x : pyfloat;
  y : pyfloat;
  weight : option pyfloat
}.

(** [ge=0.0] *)
Definition weight_ge : pyfloat := dec 0 0.

Definition weight_validator (v : pyval) : vresult pyfloat :=
  vbind (float_validator v) (check_ge weight_ge).

(** [weight: Optional[float] = Field(None, ge=0.0, ...)] *)
Definition fields (d : pydict) : vresult t :=
  VOk Build_t
  <*> required "x" float_validator d
  <*> required "y" float_validator d
  <*> with_default "weight" None (optional weight_validator) d.

Definition validate : pyval -> vresult t := model_validator fields.

Definition model_validate (data : pyval) : result t :=
  raise_errors "ControlPoint" (validate data).

Definition dump (c : t) : pyval :=
  PDict [("x", dump_float (x c));
         ("y", dump_float (y c));
         ("weight", dump_option dump_float (weight c))].

Definition model_dump_json (c : t) : string :=
  write_value compact_style (dump c).

(** The input that constructs the instance: its fields, as they are. *)
Definition to_input (c : t) : pyval :=
  PDict [("x", PFloat (x c));
         ("y", PFloat (y c));
         ("weight", dump_option PFloat (weight c))].

Definition constraints (c : t) : bool :=
  opt_holds (float_le weight_ge) (weight c).

Definition plain (c : t) : bool :=
  float_plain (x c) && float_plain (y c) && opt_holds float_plain (weight c).
End ControlPoint.

(** [class Trajectory(BaseModel)] *)
Module Trajectory.
Record t := {
  degree : Z;
  knotVector : list pyfloat;
  controlPoints : list ControlPoint.t
}.

(** [ge=1] *)
Definition degree_validator (v : pyval) : vresult Z :=
  vbind (int_validator v) (int_check_ge 1).

Definition fields (d : pydict) : vresult t :=
  VOk Build_t
  <*> required "degree" degree_validator d
  <*> required "knotVector" (list_validator float_validator) d
  <*> required "controlPoints" (list_validator ControlPoint.validate) d.

Definition validate : pyval -> vresult t := model_validator fields.

Definition model_validate (data : pyval) : result t :=
  raise_errors "Trajectory" (validate data).

Definition dump (tr : t) : pyval :=
  PDict [("degree", PInt (degree tr));
         ("knotVector", PList (map dump_float (knotVector tr)));
         ("controlPoints", PList (map ControlPoint.dump (controlPoints tr)))].

Definition model_dump_json (tr : t) : string :=
  write_value compact_style (dump tr).

Definition constraints (tr : t) : bool :=
  (1 <=? degree tr) && forallb ControlPoint.constraints (controlPoints tr).

Definition plain (tr : t) : bool :=
  forallb float_plain (knotVector tr)
  && forallb ControlPoint.plain (controlPoints tr).
End Trajectory.

(** [class CorridorRefPoint(Enum)] *)
Module CorridorRefPoint.
Inductive t := KINEMATICCENTER | CONTOUR.

Definition members : list (string * t) :=
  [("KINEMATICCENTER", KINEMATICCENTER); ("CONTOUR", CONTOUR)].

Definition value (c : t) : string :=
  match c with
  | KINEMATICCENTER => "KINEMATICCENTER"
  | CONTOUR => "CONTOUR"
  end.

Definition validate : pyval -> vresult t := enum_validator members.
Definition dump (c : t) : pyval := PStr (value c).
End CorridorRefPoint.

(** [class Corridor(BaseModel)] *)
Module Corridor.
Record t := {
  leftWidth : pyfloat;
  rightWidth : pyfloat;
  corridorRefPoint : option CorridorRefPoint.t
}.

(** [ge=0.0] *)
Definition width_validator (v : pyval) : vresult pyfloat :=
  vbind (float_validator v) (check_ge (dec 0 0)).

Definition fields (d : pydict) : vresult t :=
  VOk Build_t
  <*> required "leftWidth" width_validator d
  <*> required "rightWidth" width_validator d
  <*> with_default "corridorRefPoint" None
        (optional CorridorRefPoint.validate) d.

Definition validate : pyval -> vresult t := model_validator fields.

Definition model_validate (data : pyval) : result t :=
  raise_errors "Corridor" (validate data).

Definition dump (c : t) : pyval :=
  PDict [("leftWidth", dump_float (leftWidth c));
         ("rightWidth", dump_float (rightWidth c));
         ("corridorRefPoint",
          dump_option CorridorRefPoint.dump (corridorRefPoint c))].

Definition model_dump_json (c : t) : string :=
  write_value compact_style (dump c).

Definition constraints (c : t) : bool :=
  float_le (dec 0 0) (leftWidth c) && float_le (dec 0 0) (rightWidth c).

Definition plain (c : t) : bool :=
  float_plain (leftWidth c) && float_plain (rightWidth c).
End Corridor.

(** ** The models of the other modules

    [validate.py] imports [OrderMessage], [Node], [Edge] from
    [pydantic_models.order], [State] from [pydantic_models.state],
    [InstantActions] from [pydantic_models.instantActions] and
    [Connection] from [pydantic_models.connection].  Those modules are
    not among the sources at hand, so their classes are taken as a
    parameter: the instances, the class of an instance, the validating
    constructor of a class and the JSON writer of an instance. *)

Inductive external_class :=
| OrderMessage_class
| Node_class
| Edge_class
| State_class
| InstantActions_class
| Connection_class.

Class ExternalModels := {
  external_model : Type;
  external_class_of : external_model -> external_class;
  external_model_validate : external_class -> pyval -> result external_model;
  external_model_dump_json : external_model -> result string
}.

(** ** validate.py *)

(** The classes the registry refers to. *)
Inductive model_class :=
| Action
| ActionParameter
| BlockingType
| ControlPoint
| Corridor
| CorridorRefPoint
| NodePosition
| Trajectory
| OrderMessage
| Node
| Edge
| State
| InstantActions
| Connection.

(** [MODEL_TYPE_MAP] *)
Definition MODEL_TYPE_MAP : list (string * model_class) :=
  [("Action", Action);
   ("ActionParameter", ActionParameter);
   ("BlockingType", BlockingType);
   ("ControlPoint", ControlPoint);
   ("Corridor", Corridor);
   ("CorridorRefPoint", CorridorRefPoint);
   ("NodePosition", NodePosition);
   ("Trajectory", Trajectory);
   ("OrderMessage", OrderMessage);
   ("Node", Node);
   ("Edge", Edge);
   ("State", State);
   ("InstantActions", InstantActions);
   ("Connection", Connection)].

(** [get_model_class(message_type)]: [MODEL_TYPE_MAP.get(message_type)] *)
Definition get_model_class (message_type : string) : option model_class :=
  dict_get MODEL_TYPE_MAP message_type.

Definition external_class_name (c : external_class) : string :=
  match c with
  | OrderMessage_class => "OrderMessage"
  | Node_class => "Node"
  | Edge_class => "Edge"
  | State_class => "State"
  | InstantActions_class => "InstantActions"
  | Connection_class => "Connection"
  end.

Section Validate.
Context {EM : ExternalModels}.

(** The objects a caller can hold: an instance of a model of
    [common.py], a member of one of its two enumerations, an instance
    of a model of the other modules, or an object of any other class,
    of which the class name and the outcome of calling
    [model_dump_json()] on it are recorded. *)
Inductive pyobj :=
| OAction (a : Action.t)
| OActionParameter (p : ActionParameter.t)
| OBlockingType (b : BlockingType.t)
| OControlPoint (c : ControlPoint.t)
| OCorridor (c : Corridor.t)
| OCorridorRefPoint (r : CorridorRefPoint.t)
| ONodePosition (n : NodePosition.t)
| OTrajectory (tr : Trajectory.t)
| OExternal (m : external_model)
| OOther (class_name : string) (dumped : result string).

(** [model.__class__.__name__] *)
Definition class_name (model : pyobj) : string :=
  match model with
  | OAction _ => "Action"
  | OActionParameter _ => "ActionParameter"
  | OBlockingType _ => "BlockingType"
  | OControlPoint _ => "ControlPoint"
  | OCorridor _ => "Corridor"
  | OCorridorRefPoint _ => "CorridorRefPoint"
  | ONodePosition _ => "NodePosition"
  | OTrajectory _ => "Trajectory"
  | OExternal m => external_class_name (external_class_of m)
  | OOther name _ => name
  end.

(** The [AttributeError] of a missing attribute, worded as CPython 3.12
    words it. *)
Definition no_attribute {A : Type} (owner attr : string) : result A :=
  Raise (AttributeError (owner ++ " has no attribute '" ++ attr ++ "'")%string).

(** [model.model_dump_json()]: an enumeration member has no such
    method. *)
Definition model_dump_json (model : pyobj) : result string :=
  match model with
  | OAction a => Action.model_dump_json a
  | OActionParameter p => ActionParameter.model_dump_json p
  | OControlPoint c => Return (ControlPoint.model_dump_json c)
  | OCorridor c => Return (Corridor.model_dump_json c)
  | ONodePosition n => Return (NodePosition.model_dump_json n)
  | OTrajectory tr => Return (Trajectory.model_dump_json tr)
  | OBlockingType _ =>
      no_attribute "'BlockingType' object" "model_dump_json"
  | OCorridorRefPoint _ =>
      no_attribute "'CorridorRefPoint' object" "model_dump_json"
  | OExternal m => external_model_dump_json m
  | OOther _ dumped => dumped
  end.

(** [model_class.model_validate(data)]: an enumeration class has no
    such method. *)
Definition model_validate (cls : model_class) (data : pyval) : result pyobj :=
  let external c :=
    m <- external_model_validate c data ;; Return (OExternal m) in
  match cls with
  | Action => a <- Action.model_validate data ;; Return (OAction a)
  | ActionParameter =>
      p <- ActionParameter.model_validate data ;; Return (OActionParameter p)
  | ControlPoint =>
      c <- ControlPoint.model_validate data ;; Return (OControlPoint c)
  | Corridor => c <- Corridor.model_validate data ;; Return (OCorridor c)
  | NodePosition =>
      n <- NodePosition.model_validate data ;; Return (ONodePosition n)
  | Trajectory =>
      tr <- Trajectory.model_validate data ;; Return (OTrajectory tr)
  | BlockingType =>
      no_attribute "type object 'BlockingType'" "model_validate"
  | CorridorRefPoint =>
      no_attribute "type object 'CorridorRefPoint'" "model_validate"
  | OrderMessage => external OrderMessage_class
  | Node => external Node_class
  | Edge => external Edge_class
  | State => external State_class
  | InstantActions => external InstantActions_class
  | Connection => external Connection_class
  end.

(** [type(v).__name__] *)
Definition type_name (v : pyval) : string :=
  match v with
  | PNone => "NoneType"
  | PBool _ => "bool"
  | PInt _ => "int"
  | PFloat _ => "float"
  | PStr _ => "str"
  | PList _ => "list"
  | PDict _ => "dict"
  end.

(** [message.get(key)]: only a dict has the method. *)
Definition py_get (message : pyval) (key : string) : result pyval :=
  match message with
  | PDict d =>
      Return (match dict_get d key with Some v => v | None => PNone end)
  | _ => no_attribute ("'" ++ type_name message ++ "' object")%string "get"
  end.

(** [MODEL_TYPE_MAP.get(message_type)] for an arbitrary key: a list or
    a dict is unhashable, and no other value than a string is equal to
    a key of the registry. *)
Definition registry_get (message_type : pyval) : result (option model_class) :=
  match message_type with
  | PStr s => Return (dict_get MODEL_TYPE_MAP s)
  | PList _ | PDict _ =>
      Raise (TypeError ("unhashable type: '" ++ type_name message_type ++ "'")%string)
  | _ => Return None
  end.

(** The text an f-string puts for a value.  (The text of a list or a
    dict is not needed: as a key of the registry it is refused before.) *)
Definition py_str (v : pyval) : string :=
  match v with
  | PNone => "None"
  | PBool true => "True"
  | PBool false => "False"
  | PInt z => int_repr z
  | PFloat f => float_repr f
  | PStr s => s
  | PList _ | PDict _ => json_dumps v
  end.

Definition to_model_failed : string :=
  "JSONからモデルへの変換に失敗しました: ".
Definition from_model_failed : string :=
  "モデルからJSONへの変換に失敗しました: ".
Definition missing_envelope_field : string :=
  "JSONにmessage_typeまたはdataフィールドがありません".
Definition unsupported_message_type : string :=
  "サポートされていないメッセージタイプです: ".
Definition unsupported_model_type : string :=
  "サポートされていないモデルタイプです: ".

(** [to_model(json_str)] *)
Definition to_model (json_str : string) : result pyobj :=
  try_except
    (message <- json_loads json_str ;;
     message_type <- py_get message "message_type" ;;
     data <- py_get message "data" ;;
     if negb (truthy message_type) || negb (truthy data) then
       Raise (ValueError missing_envelope_field)
     else
       model_class <- registry_get message_type ;;
       match model_class with
       | None =>
           Raise (ValueError
                    (unsupported_message_type ++ py_str message_type)%string)
       | Some cls => model_validate cls data
       end)
    (fun e => Raise (ValueError (to_model_failed ++ exn_str e)%string)).

(** [from_model(model)] *)
Definition from_model (model : pyobj) : result string :=
  try_except
    (let model_type := class_name model in
     if negb (dict_mem MODEL_TYPE_MAP model_type) then
       Raise (ValueError (unsupported_model_type ++ model_type)%string)
     else
       text <- model_dump_json model ;;
       model_data <- json_loads text ;;
       let message :=
         PDict [("message_type", PStr model_type); ("data", model_data)] in
       Return (json_dumps message))
    (fun e => Raise (ValueError (from_model_failed ++ exn_str e)%string)).


(** *** What the properties below speak of *)

(** The wire envelope [{message_type, data}]. *)
Definition envelope (name : string) (data : pyval) : pyval :=
  PDict [("message_type", PStr name); ("data", data)].

(** An instance of a pydantic model, as opposed to a member of an
    enumeration or an object of a foreign class. *)
Definition is_model (e : pyobj) : bool :=
  match e with
  | OBlockingType _ | OCorridorRefPoint _ | OOther _ _ => false
  | _ => true
  end.

(** The instance satisfies the field constraints of its class: it is
    one that validation lets through. *)
Definition constraints (e : pyobj) : bool :=
  match e with
  | OControlPoint c => ControlPoint.constraints c
  | OCorridor c => Corridor.constraints c
  | ONodePosition n => NodePosition.constraints n
  | OTrajectory tr => Trajectory.constraints tr
  | _ => true
  end.

(** Every float of the instance is a finite number (in canonical
    representation, as all floats built by the operations of this file
    are), and the values it holds are well formed. *)
Definition plain (e : pyobj) : bool :=
  match e with
  | OAction a => Action.plain a
  | OActionParameter p => ActionParameter.plain p
  | OControlPoint c => ControlPoint.plain c
  | OCorridor c => Corridor.plain c
  | ONodePosition n => NodePosition.plain n
  | OTrajectory tr => Trajectory.plain tr
  | _ => true
  end.


End Validate.

Arguments pyobj {EM}.

(** ** An environment without the other modules

    The classes of [order.py], [state.py], [instantActions.py] and
    [connection.py] with no instance at all: their constructors reject
    every input.  It serves to run the transcoder on the models of
    [common.py]. *)

#[export] Instance common_only : ExternalModels := {|
  external_model := Empty_set;
  external_class_of := fun m => match m with end;
  external_model_validate := fun c _ =>
    Raise (ValidationError (external_class_name c) [mk_error [] "model_type"]);
  external_model_dump_json := fun m => match m with end
|}.

(** ** Definitions used by the proofs *)

(** *** Writers and scanner *)

(** [p] holds of the first character of [s], or [s] is empty. *)
Definition head_is (p : ascii -> bool) (s : string) : bool :=
  match s with
  | String c _ => p c
  | EmptyString => true
  end.

Definition not_digit (c : ascii) : bool :=
  match char_digit c with Some _ => false | None => true end.

(** What follows a value inside a text: a comma or a closing bracket. *)
Definition is_stop (c : ascii) : bool :=
  Ascii.eqb c "," || Ascii.eqb c "]" || Ascii.eqb c "}".

(** An integer part as the grammar wants it. *)
Definition int_part_ok (ip : list digits) : bool :=
  match ip with
  | [] => false
  | [d0] => true
  | d :: _ => negb (is_d0 d)
  end.

Definition head_nonzero (l : list digits) : bool :=
  match l with
  | [] => true
  | d :: _ => negb (is_d0 d)
  end.

(** The escape of a character is the character itself, a two-character
    escape that the scanner maps back to it, or a [\u00XX] escape of its
    code. *)
Definition escape_char_ok (st : json_style) (c : ascii) : bool :=
  match escape_char st c with
  | String x EmptyString =>
      Ascii.eqb x c && negb (Ascii.eqb c quote) && negb (Ascii.eqb c backslash)
      && negb (Nat.ltb (nat_of_ascii c) 32)
  | String b (String e EmptyString) =>
      Ascii.eqb b backslash && negb (Ascii.eqb e "u")
      && match simple_escape e with Some x => Ascii.eqb x c | None => false end
  | String b (String u (String z1 (String z2 (String h1 (String h2 EmptyString))))) =>
      Ascii.eqb b backslash && Ascii.eqb u "u"
      && match hex4 z1 z2 h1 h2 with
         | Some n => String.eqb (utf8 n) (str1 c) && negb (is_high_surrogate n)
         | None => false
         end
  | _ => false
  end.

(** A code point that text can hold: no surrogate, at most U+10FFFF. *)
Definition scalar_value (u : N) : Prop :=
  (u < 1114112 /\ ~ (55296 <= u <= 57343))%N.

(** The items of a list and the members of a dict, as [write_value]
    writes them between the brackets. *)
Definition write_items (st : json_style) : list pyval -> string :=
  fix items (l : list pyval) : string :=
    match l with
    | [] => EmptyString
    | [x] => write_value st x
    | x :: l' => (write_value st x ++ item_sep st ++ items l')%string
    end.

Definition write_members (st : json_style) : pydict -> string :=
  fix members (d : pydict) : string :=
    match d with
    | [] => EmptyString
    | [(k, x)] => (write_string st k ++ key_sep st ++ write_value st x)%string
    | (k, x) :: d' =>
        (write_string st k ++ key_sep st ++ write_value st x
         ++ item_sep st ++ members d')%string
    end.

Fixpoint all_ws (s : string) : bool :=
  match s with
  | EmptyString => true
  | String c s' => is_ws c && all_ws s'
  end.

(** A style the scanner can read: a comma and a colon, each followed by
    white space only. *)
Definition style_ok (st : json_style) : bool :=
  match item_sep st, key_sep st with
  | String c1 w1, String c2 w2 =>
      Ascii.eqb c1 "," && all_ws w1 && Ascii.eqb c2 ":" && all_ws w2
  | _, _ => false
  end.

(** The text starts a value: no white space and no closing bracket. *)
Definition head_ok (s : string) : bool :=
  match s with
  | String c _ => negb (is_ws c) && negb (Ascii.eqb c "]") && negb (Ascii.eqb c "}")
  | EmptyString => false
  end.

(** The fuel the scanner needs for a value. *)
Fixpoint size (v : pyval) : nat :=
  match v with
  | PList l =>
      S ((fix sum (l : list pyval) : nat :=
            match l with
            | [] => O
            | x :: l' => (S (size x) + sum l')%nat
            end) l)
  | PDict d =>
      S ((fix sum (d : pydict) : nat :=
            match d with
            | [] => O
            | kv :: d' => (S (size (snd kv)) + sum d')%nat
            end) d)
  | _ => 1%nat
  end.

Definition size_items (l : list pyval) : nat :=
  fold_right (fun x n => S (size x) + n)%nat O l.

Definition size_members (d : pydict) : nat :=
  fold_right (fun kv n => S (size (snd kv)) + n)%nat O d.

(** With enough fuel the scanner reads the text of [v] back and stops
    where the text ends. *)
Definition parses (st : json_style) (v : pyval) : Prop :=
  forall fuel rest, (size v <= fuel)%nat -> head_is is_stop rest = true ->
    parse_value fuel (write_value st v ++ rest) = Some (v, rest).

Definition is_err {A : Type} (r : vresult A) : bool :=
  match r with VErr _ => true | VOk _ => false end.

(** *** Inputs and instances of the statements *)

(** A JSON text written with apostrophes in place of the double
    quotes. *)
Fixpoint dq (s : string) : string :=
  match s with
  | EmptyString => EmptyString
  | String c s' => String (if Ascii.eqb c "'" then quote else c) (dq s')
  end.

(** The real number a finite float denotes. *)
Definition float_to_R (f : pyfloat) : R :=
  match f with
  | Fin neg ds e => (IZR (signed neg (digits_val ds)) * powerRZ 10 e)%R
  | _ => 0%R
  end.

(** The keys of [MODEL_TYPE_MAP]. *)
Definition registered_names : list string :=
  ["Action"; "ActionParameter"; "BlockingType"; "ControlPoint"; "Corridor";
   "CorridorRefPoint"; "NodePosition"; "Trajectory"; "OrderMessage"; "Node";
   "Edge"; "State"; "InstantActions"; "Connection"].

Definition not_a_type_text : string := dq "{'message_type':'NotAType','data':{}}".

(** [ActionParameter(key="x", value=v)] *)
Definition parameter_input (v : pyval) : pyval :=
  PDict [("key", PStr "x"); ("value", v)].

(** The value is taken, held under [held], and written back as it
    came, as a Python value and as JSON text. *)
Definition accepted_unchanged (v : pyval) (held : ActionParameter.value_t) : Prop :=
  let p := {| ActionParameter.key := "x"; ActionParameter.value := held |} in
  ActionParameter.model_validate (parameter_input v) = Return p
  /\ ActionParameter.dump p = Return (parameter_input v)
  /\ (text <- ActionParameter.model_dump_json p ;; json_loads text)
     = Return (parameter_input v).

(** [NodePosition(x=..., y=..., mapId=..., **fields)] *)
Definition position_input (x y : pyfloat) (mapId : string) (fields : pydict) : pyval :=
  PDict ([("x", PFloat x); ("y", PFloat y); ("mapId", PStr mapId)] ++ fields).

Definition position (x y : pyfloat) (mapId : string) (theta deviation : option pyfloat)
  : NodePosition.t :=
  {| NodePosition.x := x; NodePosition.y := y;
     NodePosition.theta := theta;
     NodePosition.allowedDeviationXY := deviation;
     NodePosition.allowedDeviationTheta := None;
     NodePosition.mapId := mapId;
     NodePosition.mapDescription := None |}.

(** [Trajectory(degree=..., knotVector=..., controlPoints=...)] *)
Definition trajectory_input (degree : Z) (knotVector : list pyfloat)
  (controlPoints : list ControlPoint.t) : pyval :=
  PDict [("degree", PInt degree);
         ("knotVector", PList (map PFloat knotVector));
         ("controlPoints", PList (map ControlPoint.to_input controlPoints))].

Definition sample_point : ControlPoint.t :=
  {| ControlPoint.x := dec 1 0; ControlPoint.y := dec 2 0;
     ControlPoint.weight := Some (dec 5 (-1)) |}.





(** *** The limit on the digits of an int

    CPython converts no int of more than 4300 digits to or from its
    decimal text: [json.loads] and [json.dumps] raise [ValueError] on
    one. *)












(** *** Envelopes, classes and instances *)

(** [message.get(key)] on the dict of an envelope. *)
Definition envelope_field (d : pydict) (key : string) : pyval :=
  match dict_get d key with Some v => v | None => PNone end.

Definition is_dict (v : pyval) : bool :=
  match v with PDict _ => true | _ => false end.

(** A [bool], an [int] or a [float]: hashable, and equal to no string. *)
Definition is_number (v : pyval) : bool :=
  match v with PBool _ | PInt _ | PFloat _ => true | _ => false end.

(** A [list] or a [dict]: unhashable. *)
Definition is_container (v : pyval) : bool :=
  match v with PList _ | PDict _ => true | _ => false end.

(** [cls.__name__] *)
Definition model_class_name (cls : model_class) : string :=
  match cls with
  | Action => "Action"
  | ActionParameter => "ActionParameter"
  | BlockingType => "BlockingType"
  | ControlPoint => "ControlPoint"
  | Corridor => "Corridor"
  | CorridorRefPoint => "CorridorRefPoint"
  | NodePosition => "NodePosition"
  | Trajectory => "Trajectory"
  | OrderMessage => "OrderMessage"
  | Node => "Node"
  | Edge => "Edge"
  | State => "State"
  | InstantActions => "InstantActions"
  | Connection => "Connection"
  end.

(** The six classes of the registry that [common.py] declares as
    models. *)
Definition is_common_model (cls : model_class) : bool :=
  match cls with
  | Action | ActionParameter | ControlPoint | Corridor | NodePosition
  | Trajectory => true
  | _ => false
  end.

(** The fields each of them declares. *)
Definition field_names (cls : model_class) : list string :=
  match cls with
  | Action =>
      ["actionType"; "actionId"; "actionDescription"; "blockingType";
       "actionParameters"]
  | ActionParameter => ["key"; "value"]
  | ControlPoint => ["x"; "y"; "weight"]
  | Corridor => ["leftWidth"; "rightWidth"; "corridorRefPoint"]
  | NodePosition =>
      ["x"; "y"; "theta"; "allowedDeviationXY"; "allowedDeviationTheta";
       "mapId"; "mapDescription"]
  | Trajectory => ["degree"; "knotVector"; "controlPoints"]
  | _ => []
  end.

(** The fields declared with [Field(..., ...)]: an input has to hold
    them. *)
Definition required_names (cls : model_class) : list string :=
  match cls with
  | Action => ["actionType"; "actionId"; "blockingType"]
  | ActionParameter => ["key"; "value"]
  | ControlPoint => ["x"; "y"]
  | Corridor => ["leftWidth"; "rightWidth"]
  | NodePosition => ["x"; "y"; "mapId"]
  | Trajectory => ["degree"; "knotVector"; "controlPoints"]
  | _ => []
  end.

(** The fields declared with [Field(None, ...)]. *)
Definition optional_names (cls : model_class) : list string :=
  match cls with
  | Action => ["actionDescription"; "actionParameters"]
  | ControlPoint => ["weight"]
  | Corridor => ["corridorRefPoint"]
  | NodePosition =>
      ["theta"; "allowedDeviationXY"; "allowedDeviationTheta"; "mapDescription"]
  | _ => []
  end.

(** The error is among those the validator reports. *)
Definition reports {A : Type} (r : vresult A) (e : error_detail) : Prop :=
  match r with
  | VErr errors => In e errors
  | VOk _ => False
  end.

(** The bounds of the fields, read as what they exclude: a float
    strictly below the lower bound or strictly above the upper one.
    ([nan] is neither.) *)
Definition not_below (bound f : pyfloat) : bool := negb (float_lt f bound).
Definition not_above (bound f : pyfloat) : bool := negb (float_lt bound f).

Definition NodePosition_in_bounds (n : NodePosition.t) : bool :=
  opt_holds (fun f => not_above NodePosition.theta_le f
                      && not_below NodePosition.theta_ge f)
    (NodePosition.theta n)
  && opt_holds (not_below NodePosition.deviation_ge)
       (NodePosition.allowedDeviationXY n)
  && opt_holds (fun f => not_above NodePosition.deviationTheta_le f
                         && not_below NodePosition.deviation_ge f)
       (NodePosition.allowedDeviationTheta n).

Definition ControlPoint_in_bounds (c : ControlPoint.t) : bool :=
  opt_holds (not_below ControlPoint.weight_ge) (ControlPoint.weight c).

Definition Corridor_in_bounds (c : Corridor.t) : bool :=
  not_below (dec 0 0) (Corridor.leftWidth c)
  && not_below (dec 0 0) (Corridor.rightWidth c).

Definition Trajectory_in_bounds (tr : Trajectory.t) : bool :=
  (1 <=? Trajectory.degree tr)
  && forallb ControlPoint_in_bounds (Trajectory.controlPoints tr).

Section Instances.
Context {EM : ExternalModels}.




Definition in_bounds (e : pyobj) : bool :=
  match e with
  | OControlPoint c => ControlPoint_in_bounds c
  | OCorridor c => Corridor_in_bounds c
  | ONodePosition n => NodePosition_in_bounds n
  | OTrajectory tr => Trajectory_in_bounds tr
  | _ => true
  end.


(** What is asked of the constructors of the other modules where the
    class of the result matters: a class builds instances of itself. *)
Definition external_constructs_own_class : Prop :=
  forall c data m,
    external_model_validate c data = Return m -> external_class_of m = c.

End Instances.

(** * Properties *)

(** ** [json.loads] reads back what the writers write *)

(** *** Digits and string literals *)

Lemma char_digit_digit_char d : char_digit (digit_char d) = Some d.
Proof. destruct d; reflexivity. Qed.

Lemma string_app_assoc (a b c : string) : ((a ++ b) ++ c = a ++ (b ++ c))%string.
Proof. induction a; simpl; congruence. Qed.

Lemma digits_str_app a b : digits_str (a ++ b) = (digits_str a ++ digits_str b)%string.
Proof. induction a; simpl; congruence. Qed.

Lemma scan_digits_app ds rest :
  head_is not_digit rest = true ->
  scan_digits (digits_str ds ++ rest) = (ds, rest).
Proof.
  intros H. induction ds as [|d ds IH]; simpl.
  - destruct rest as [|c r]; [reflexivity|].
    simpl in *. unfold not_digit in H. destruct (char_digit c); [discriminate|reflexivity].
  - rewrite char_digit_digit_char, IH. reflexivity.
Qed.

Lemma pos_digits_val p : digits_val (pos_digits p) = Zpos p.
Proof.
  unfold digits_val, pos_digits. rewrite of_list_to_list.
  unfold Z.of_uint. rewrite DecimalPos.Unsigned.of_to. reflexivity.
Qed.

Lemma pos_digits_head p : exists d ds, pos_digits p = d :: ds /\ is_d0 d = false.
Proof.
  unfold pos_digits.
  pose proof (DecimalPos.Unsigned.to_of (Pos.to_uint p)) as H.
  rewrite DecimalPos.Unsigned.of_to in H. simpl in H.
  pose proof (DecimalPos.Unsigned.to_uint_nonzero p) as Hz.
  unfold Decimal.unorm in H.
  pose proof (nzhead_nonzero (Pos.to_uint p)) as Hn.
  destruct (Decimal.nzhead (Pos.to_uint p)) eqn:E;
    try (rewrite H; simpl; eexists; eexists; split; reflexivity).
  - contradiction.
  - exfalso. eapply Hn. reflexivity.
Qed.

Lemma decode_units_low u us :
  is_high_surrogate u = false ->
  decode_units (Esc u :: us) = (utf8 u ++ decode_units us)%string.
Proof.
  intros H. simpl. destruct us as [|[c|w] us']; try reflexivity.
  rewrite H. reflexivity.
Qed.

Lemma escape_char_ok_all st c : escape_char_ok st c = true.
Proof.
  destruct st as [isep ksep del]. unfold escape_char_ok, escape_char. simpl ensure_ascii.
  destruct del;
  destruct c as [[|] [|] [|] [|] [|] [|] [|] [|]]; vm_compute; reflexivity.
Qed.

Lemma scan_escape_char st c r us r' :
  scan_string r = Some (us, r') ->
  exists u, scan_string (escape_char st c ++ r) = Some (u :: us, r')
            /\ decode_units (u :: us) = String c (decode_units us).
Proof.
  intros H. pose proof (escape_char_ok_all st c) as Hok.
  unfold escape_char_ok in Hok.
  destruct (escape_char st c) as [|b [|e [|z1 [|z2 [|h1 [|h2 [|]]]]]]]; try discriminate.
  - (* a plain character *)
    repeat (apply andb_prop in Hok; destruct Hok as [Hok ?]).
    apply Ascii.eqb_eq in Hok. subst b.
    exists (Raw c). split; [|reflexivity].
    simpl. rewrite (proj1 (negb_true_iff _) H2), (proj1 (negb_true_iff _) H1),
      (proj1 (negb_true_iff _) H0), H. reflexivity.
  - (* a two-character escape *)
    repeat (apply andb_prop in Hok; destruct Hok as [Hok ?]).
    apply Ascii.eqb_eq in Hok. subst b.
    destruct (simple_escape e) as [x|] eqn:Ee; [|discriminate].
    apply Ascii.eqb_eq in H0. subst x.
    exists (Raw c). split; [|reflexivity].
    simpl. rewrite (proj1 (negb_true_iff _) H1), Ee, H. reflexivity.
  - (* a hexadecimal escape *)
    repeat (apply andb_prop in Hok; destruct Hok as [Hok ?]).
    apply Ascii.eqb_eq in Hok. subst b.
    apply Ascii.eqb_eq in H1. subst e.
    destruct (hex4 z1 z2 h1 h2) as [n|] eqn:Eh; [|discriminate].
    apply andb_prop in H0. destruct H0 as [Hu Hs].
    apply String.eqb_eq in Hu. apply negb_true_iff in Hs.
    exists (Esc n). split.
    + simpl. rewrite Eh, H. reflexivity.
    + rewrite decode_units_low by exact Hs. rewrite Hu. reflexivity.
Qed.

Lemma hex_val_hex_digit n : (n < 16)%N -> hex_val (hex_digit n) = Some n.
Proof.
  intros H. destruct n as [|p]; [reflexivity|].
  do 4 (try destruct p as [p|p|]); try reflexivity; exfalso; lia.
Qed.

Ltac div_lia := zify; Z.to_euclidean_division_equations; lia.

Lemma scan_escape_unit u r :
  (u < 65536)%N ->
  scan_string (escape_unit u ++ r)
  = match scan_string r with
    | Some (us, r') => Some (Esc u :: us, r')
    | None => None
    end.
Proof.
  intros H. unfold escape_unit, str1. cbn [String.append scan_string].
  change (Ascii.eqb backslash quote) with false.
  change (Ascii.eqb backslash backslash) with true.
  change (Ascii.eqb "u" "u") with true. cbv iota.
  unfold hex4.
  rewrite !hex_val_hex_digit by div_lia.
  replace (((u / 4096 * 16 + (u / 256) mod 16) * 16 + (u / 16) mod 16) * 16 + u mod 16)%N
    with u by div_lia.
  reflexivity.
Qed.

Lemma byte_code c : byte (code c) = c.
Proof. apply ascii_N_embedding. Qed.

Lemma code_bound c : (code c < 256)%N.
Proof. apply N_ascii_bounded. Qed.

Lemma is_continuation_inv c :
  is_continuation c = true -> (128 <= code c <= 191)%N.
Proof.
  unfold is_continuation. intros H. apply andb_prop in H. destruct H as [H1 H2].
  apply N.leb_le in H1, H2. lia.
Qed.

Lemma utf8_2_spec c1 c2 u :
  utf8_2 c1 c2 = Some u ->
  utf8 u = String c1 (str1 c2) /\ scalar_value u.
Proof.
  unfold utf8_2. destruct (_ && _) eqn:E; [|discriminate]. intros [= <-].
  apply andb_prop in E. destruct E as [E H2]. apply andb_prop in E. destruct E as [H1 H1'].
  apply is_continuation_inv in H2.
  apply N.leb_le in H1, H1'.
  set (u := ((code c1 - 192) * 64 + (code c2 - 128))%N).
  assert (128 <= u < 2048)%N as Hu by (subst u; div_lia).
  split; [|unfold scalar_value; lia].
  unfold utf8. rewrite (proj2 (N.ltb_ge u 128)), (proj2 (N.ltb_lt u 2048)) by lia.
  replace (192 + u / 64)%N with (code c1) by (subst u; div_lia).
  replace (128 + u mod 64)%N with (code c2) by (subst u; div_lia).
  rewrite !byte_code. reflexivity.
Qed.

Lemma utf8_3_spec c1 c2 c3 u :
  utf8_3 c1 c2 c3 = Some u ->
  utf8 u = String c1 (String c2 (str1 c3)) /\ scalar_value u.
Proof.
  unfold utf8_3. cbv zeta. destruct (_ && _) eqn:E; [|discriminate]. intros [= <-].
  repeat (apply andb_prop in E; let H := fresh "H" in destruct E as [E H]).
  apply is_continuation_inv in H1, H2.
  apply N.leb_le in E, H3, H0. apply negb_true_iff in H.
  set (u := ((code c1 - 224) * 4096 + (code c2 - 128) * 64 + (code c3 - 128))%N) in *.
  assert (2048 <= u < 65536)%N as Hu by (subst u; div_lia).
  split.
  - unfold utf8.
    rewrite (proj2 (N.ltb_ge u 128)), (proj2 (N.ltb_ge u 2048)),
      (proj2 (N.ltb_lt u 65536)) by lia.
    replace (224 + u / 4096)%N with (code c1) by (subst u; div_lia).
    replace (128 + (u / 64) mod 64)%N with (code c2) by (subst u; div_lia).
    replace (128 + u mod 64)%N with (code c3) by (subst u; div_lia).
    rewrite !byte_code. reflexivity.
  - unfold scalar_value. split; [lia|]. intros [Ha Hb].
    apply N.leb_le in Ha, Hb. rewrite Ha, Hb in H. discriminate.
Qed.

Lemma utf8_4_spec c1 c2 c3 c4 u :
  utf8_4 c1 c2 c3 c4 = Some u ->
  utf8 u = String c1 (String c2 (String c3 (str1 c4))) /\ scalar_value u
  /\ (65536 <= u)%N.
Proof.
  unfold utf8_4. cbv zeta. destruct (_ && _) eqn:E; [|discriminate]. intros [= <-].
  repeat (apply andb_prop in E; let H := fresh "H" in destruct E as [E H]).
  apply is_continuation_inv in H1, H2, H3.
  apply N.leb_le in E, H4, H0, H.
  set (u := ((code c1 - 240) * 262144 + (code c2 - 128) * 4096
             + (code c3 - 128) * 64 + (code c4 - 128))%N) in *.
  split; [|split; [unfold scalar_value; lia|lia]].
  unfold utf8.
  rewrite (proj2 (N.ltb_ge u 128)), (proj2 (N.ltb_ge u 2048)),
    (proj2 (N.ltb_ge u 65536)) by lia.
  replace (240 + u / 262144)%N with (code c1) by (subst u; div_lia).
  replace (128 + (u / 4096) mod 64)%N with (code c2) by (subst u; div_lia).
  replace (128 + (u / 64) mod 64)%N with (code c3) by (subst u; div_lia).
  replace (128 + u mod 64)%N with (code c4) by (subst u; div_lia).
  rewrite !byte_code. reflexivity.
Qed.

Lemma scan_escape_code_point u r us r' :
  scalar_value u ->
  scan_string r = Some (us, r') ->
  exists units,
    scan_string (escape_code_point u ++ r) = Some (units ++ us, r')
    /\ decode_units (units ++ us) = (utf8 u ++ decode_units us)%string.
Proof.
  intros [Hu Hs] H. unfold escape_code_point.
  destruct (N.ltb_spec u 65536) as [Hlt|Hge].
  - exists [Esc u]. rewrite scan_escape_unit, H by assumption. split; [reflexivity|].
    cbn [app]. apply decode_units_low. unfold is_high_surrogate.
    apply andb_false_iff.
    destruct (N.leb_spec 55296 u); [right; apply N.leb_gt; lia|now left].
  - set (hi := (55296 + (u - 65536) / 1024)%N).
    set (lo := (56320 + (u - 65536) mod 1024)%N).
    assert (55296 <= hi <= 56319 /\ 56320 <= lo <= 57343
            /\ 65536 + (hi - 55296) * 1024 + (lo - 56320) = u)%N
      as (Hhi & Hlo & Heq) by (subst hi lo; repeat split; div_lia).
    exists [Esc hi; Esc lo]. rewrite string_app_assoc.
    rewrite scan_escape_unit, scan_escape_unit, H by lia.
    split; [reflexivity|].
    cbn [app decode_units]. unfold is_high_surrogate, is_low_surrogate.
    rewrite (proj2 (N.leb_le 55296 hi)), (proj2 (N.leb_le hi 56319)),
      (proj2 (N.leb_le 56320 lo)), (proj2 (N.leb_le lo 57343)) by lia.
    cbn [andb]. rewrite Heq. reflexivity.
Qed.

Lemma escape_string_copied st c s1 us r r' :
  scan_string (escape_string st s1 ++ r) = Some (us, r') ->
  decode_units us = s1 ->
  exists us',
    scan_string ((escape_char st c ++ escape_string st s1) ++ r) = Some (us', r')
    /\ decode_units us' = String c s1.
Proof.
  intros H1 H2. rewrite string_app_assoc.
  destruct (scan_escape_char st c _ _ _ H1) as (u & Hs & Hd).
  exists (u :: us). split; [exact Hs|]. rewrite Hd, H2. reflexivity.
Qed.

Lemma escape_string_code_point st u s s' us r r' :
  scalar_value u ->
  scan_string (escape_string st s' ++ r) = Some (us, r') ->
  decode_units us = s' ->
  s = (utf8 u ++ s')%string ->
  exists us',
    scan_string ((escape_code_point u ++ escape_string st s') ++ r) = Some (us', r')
    /\ decode_units us' = s.
Proof.
  intros Hu H1 H2 ->. rewrite string_app_assoc.
  destruct (scan_escape_code_point u _ _ _ Hu H1) as (units & Hs & Hd).
  exists (units ++ us). split; [exact Hs|]. rewrite Hd, H2. reflexivity.
Qed.

Lemma scan_escape_string st rest n :
  forall s, (String.length s <= n)%nat ->
    exists us, scan_string (escape_string st s ++ String quote rest)
               = Some (us, rest)
               /\ decode_units us = s.
Proof.
  induction n as [|n IH]; intros s Hn.
  - destruct s; [|simpl in Hn; lia]. exists []. split; reflexivity.
  - destruct s as [|c s1]; [exists []; split; reflexivity|].
    simpl in Hn.
    assert (exists us', scan_string ((escape_char st c ++ escape_string st s1)
                                     ++ String quote rest) = Some (us', rest)
                        /\ decode_units us' = String c s1) as Hcopied.
    { destruct (IH s1) as (us & H1 & H2); [lia|].
      eapply escape_string_copied; eassumption. }
    cbn [escape_string].
    destruct (negb (ensure_ascii st) || (code c <? 128)%N); [exact Hcopied|].
    destruct s1 as [|c2 s2]; [exact Hcopied|].
    destruct (utf8_2 c c2) as [u|] eqn:E2.
    { apply utf8_2_spec in E2. destruct E2 as [E2 Hu].
      destruct (IH s2) as (us & H1 & H2); [simpl in Hn; lia|].
      eapply escape_string_code_point; try eassumption. rewrite E2. reflexivity. }
    destruct s2 as [|c3 s3]; [exact Hcopied|].
    destruct (utf8_3 c c2 c3) as [u|] eqn:E3.
    { apply utf8_3_spec in E3. destruct E3 as [E3 Hu].
      destruct (IH s3) as (us & H1 & H2); [simpl in Hn; lia|].
      eapply escape_string_code_point; try eassumption. rewrite E3. reflexivity. }
    destruct s3 as [|c4 s4]; [exact Hcopied|].
    destruct (utf8_4 c c2 c3 c4) as [u|] eqn:E4; [|exact Hcopied].
    apply utf8_4_spec in E4. destruct E4 as (E4 & Hu & _).
    destruct (IH s4) as (us & H1 & H2); [simpl in Hn; lia|].
    eapply escape_string_code_point; try eassumption. rewrite E4. reflexivity.
Qed.

Lemma parse_escape_string st s rest :
  parse_string (escape_string st s ++ String quote rest) = Some (s, rest).
Proof.
  unfold parse_string.
  destruct (scan_escape_string st rest (String.length s) s (le_n _)) as (us & -> & ->).
  reflexivity.
Qed.


(** *** Numbers *)

Lemma stop_cases rest :
  head_is is_stop rest = true ->
  rest = EmptyString \/ exists r, rest = String "," r \/ rest = String "]" r \/ rest = String "}" r.
Proof.
  destruct rest as [|c r]; [now left|]. simpl. unfold is_stop. intros H. right. exists r.
  apply orb_prop in H. destruct H as [H|H]; [apply orb_prop in H; destruct H as [H|H]|];
    apply Ascii.eqb_eq in H; subst; auto.
Qed.

Ltac stop_destruct H :=
  apply stop_cases in H; destruct H as [->|[? [->|[->| ->]]]].

Lemma stop_not_digit rest : head_is is_stop rest = true -> head_is not_digit rest = true.
Proof. intros H. stop_destruct H; reflexivity. Qed.

Lemma scan_frac_stop rest : head_is is_stop rest = true -> scan_frac rest = None.
Proof. intros H. stop_destruct H; reflexivity. Qed.

Lemma scan_exp_stop rest : head_is is_stop rest = true -> scan_exp rest = None.
Proof. intros H. stop_destruct H; reflexivity. Qed.

Lemma digit_char_not_minus d : Ascii.eqb (digit_char d) "-" = false.
Proof. destruct d; reflexivity. Qed.

Lemma scan_int_part_nonzero d ds rest :
  is_d0 d = false -> head_is not_digit rest = true ->
  scan_int_part (digits_str (d :: ds) ++ rest) = Some (d :: ds, rest).
Proof.
  intros Hd Hr.
  pose proof (scan_digits_app (d :: ds) rest Hr) as H.
  unfold scan_int_part. rewrite H. cbn [digits_str String.append].
  rewrite char_digit_digit_char.
  destruct d; try discriminate; reflexivity.
Qed.

Lemma parse_unsigned_pos (neg : bool) p rest :
  head_is is_stop rest = true ->
  parse_unsigned neg (digits_str (pos_digits p) ++ rest)
  = Some (PInt (signed neg (Zpos p)), rest).
Proof.
  intros Hr. destruct (pos_digits_head p) as (d & ds & E & Hd).
  pose proof (pos_digits_val p) as Hv. rewrite E in *.
  unfold parse_unsigned.
  rewrite scan_int_part_nonzero by auto using stop_not_digit.
  rewrite scan_frac_stop, scan_exp_stop by assumption. rewrite Hv. reflexivity.
Qed.

Lemma parse_number_digit d s :
  parse_number (String (digit_char d) s) = parse_unsigned false (String (digit_char d) s).
Proof. unfold parse_number. rewrite digit_char_not_minus. reflexivity. Qed.

Lemma parse_number_int z rest :
  head_is is_stop rest = true ->
  parse_number (int_repr z ++ rest) = Some (PInt z, rest).
Proof.
  intros Hr. destruct z as [|p|p].
  - simpl. unfold parse_unsigned. simpl.
    rewrite scan_frac_stop, scan_exp_stop by assumption. reflexivity.
  - simpl int_repr. destruct (pos_digits_head p) as (d & ds & E & Hd).
    pose proof (parse_unsigned_pos false p rest Hr) as H.
    rewrite E in *. cbn [digits_str String.append] in *.
    rewrite parse_number_digit. exact H.
  - apply (parse_unsigned_pos true p rest Hr).
Qed.


Lemma strip_leading_zeros k ds : strip_leading (zeros k ++ ds) = strip_leading ds.
Proof. induction k; simpl; auto. Qed.

Lemma strip_leading_nonzero d ds : is_d0 d = false -> strip_leading (d :: ds) = d :: ds.
Proof. destruct d; simpl; intros; try discriminate; reflexivity. Qed.

Lemma rev_zeros k : List.rev (zeros k) = zeros k.
Proof.
  induction k; simpl; auto. rewrite IHk. clear. induction k; simpl; auto. now rewrite IHk.
Qed.

Lemma strip_zeros_rev_zeros k r :
  strip_zeros_rev (zeros k ++ r) =
  let (q, n) := strip_zeros_rev r in (q, (k + n)%nat).
Proof.
  induction k; simpl.
  - destruct (strip_zeros_rev r); reflexivity.
  - rewrite IHk. destruct (strip_zeros_rev r); reflexivity.
Qed.

Lemma strip_zeros_rev_nonzero d r : is_d0 d = false -> strip_zeros_rev (d :: r) = (d :: r, O).
Proof. destruct d; simpl; intros; try discriminate; reflexivity. Qed.

Lemma rev_last (ds : list digits) x :
  ds <> [] -> exists r, List.rev ds = last ds x :: r.
Proof.
  intros H. destruct (exists_last H) as (l & a & ->).
  rewrite rev_app_distr, last_last. simpl. eauto.
Qed.

Lemma strip_trailing_zeros ds k :
  ds <> [] -> is_d0 (last ds d1) = false ->
  strip_trailing (ds ++ zeros k) = (ds, k).
Proof.
  intros Hne Hl. unfold strip_trailing.
  rewrite rev_app_distr, rev_zeros, strip_zeros_rev_zeros.
  destruct (rev_last ds d1 Hne) as (r & E). rewrite E.
  rewrite strip_zeros_rev_nonzero by assumption.
  rewrite <- E, rev_involutive. f_equal. lia.
Qed.

Lemma canonical_inv d tl :
  mantissa_canonical (d :: tl) = true ->
  is_d0 d = false /\ is_d0 (last (d :: tl) d1) = false.
Proof.
  unfold mantissa_canonical. intros H. apply andb_prop in H. destruct H as [H1 H2].
  apply negb_true_iff in H1, H2. auto.
Qed.

Lemma mk_float_zeros neg k1 d tl k2 e :
  mantissa_canonical (d :: tl) = true ->
  mk_float neg (zeros k1 ++ (d :: tl) ++ zeros k2) e = Fin neg (d :: tl) (e + Z.of_nat k2).
Proof.
  intros H. destruct (canonical_inv _ _ H) as [Hd Hl].
  unfold mk_float. rewrite strip_leading_zeros.
  change ((d :: tl) ++ zeros k2) with (d :: (tl ++ zeros k2)).
  rewrite strip_leading_nonzero by assumption.
  change (d :: (tl ++ zeros k2)) with ((d :: tl) ++ zeros k2).
  rewrite strip_trailing_zeros by (auto; discriminate). reflexivity.
Qed.

Lemma mk_float_all_zeros neg k e : mk_float neg (zeros k) e = Fin neg [] 0.
Proof.
  unfold mk_float. replace (zeros k) with (zeros k ++ []) by apply List.app_nil_r.
  rewrite strip_leading_zeros. reflexivity.
Qed.

Lemma scan_int_part_ok ip r :
  int_part_ok ip = true -> head_is not_digit r = true ->
  scan_int_part (digits_str ip ++ r) = Some (ip, r).
Proof.
  intros Hip Hr. destruct ip as [|d tl]; [discriminate|].
  destruct (is_d0 d) eqn:Ed.
  - destruct d; try discriminate. destruct tl; [reflexivity|discriminate].
  - apply scan_int_part_nonzero; assumption.
Qed.

Lemma scan_frac_digits fp r :
  fp <> [] -> head_is not_digit r = true ->
  scan_frac (String "." (digits_str fp ++ r)) = Some (fp, r).
Proof.
  intros Hne Hr. unfold scan_frac. change (Ascii.eqb "." ".") with true. cbv iota.
  rewrite scan_digits_app by assumption. destruct fp; congruence.
Qed.

Lemma exp_digits_val x : 0 <= x -> digits_val (exp_digits x) = x.
Proof.
  intros Hx. unfold exp_digits.
  assert (digits_val (nat_digits x) = x) as H.
  { destruct x as [|p|p]; [reflexivity|apply pos_digits_val|lia]. }
  destruct (nat_digits x) as [|a [|b l]]; auto.
Qed.

Lemma exp_digits_nonnil x : exp_digits x <> [].
Proof.
  unfold exp_digits. destruct x as [|p|p]; simpl; try discriminate.
  destruct (pos_digits_head p) as (d & ds & -> & _). destruct ds; discriminate.
Qed.

Lemma scan_exp_digits x rest :
  head_is not_digit rest = true ->
  scan_exp (String "e" (String (sign_char x) (digits_str (exp_digits (Z.abs x)) ++ rest)))
  = Some (x, rest).
Proof.
  intros Hr. unfold scan_exp. change (Ascii.eqb "e" "e" || Ascii.eqb "e" "E") with true.
  cbv iota. unfold sign_char.
  pose proof (exp_digits_nonnil (Z.abs x)) as Hne.
  pose proof (exp_digits_val (Z.abs x) (Z.abs_nonneg x)) as Hv.
  destruct (x <? 0) eqn:Ex.
  - change (Ascii.eqb "-" "-") with true. cbv iota.
    rewrite scan_digits_app by assumption.
    destruct (exp_digits (Z.abs x)); [congruence|].
    rewrite Hv. simpl. f_equal. f_equal. apply Z.ltb_lt in Ex. lia.
  - change (Ascii.eqb "+" "-") with false. change (Ascii.eqb "+" "+") with true. cbv iota.
    rewrite scan_digits_app by assumption.
    destruct (exp_digits (Z.abs x)); [congruence|].
    rewrite Hv. simpl. f_equal. f_equal. apply Z.ltb_ge in Ex. lia.
Qed.

Lemma not_digit_dot r : head_is not_digit (String "." r) = true.
Proof. reflexivity. Qed.
Lemma not_digit_e r : head_is not_digit (String "e" r) = true.
Proof. reflexivity. Qed.

Lemma parse_unsigned_frac neg ip fp rest :
  int_part_ok ip = true -> fp <> [] -> head_is is_stop rest = true ->
  parse_unsigned neg (digits_str ip ++ String "." (digits_str fp ++ rest))
  = Some (PFloat (mk_float neg (ip ++ fp) (0 - Z.of_nat (length fp))), rest).
Proof.
  intros Hip Hfp Hr. unfold parse_unsigned.
  rewrite scan_int_part_ok by auto using not_digit_dot.
  rewrite scan_frac_digits by auto using stop_not_digit.
  rewrite scan_exp_stop by assumption. reflexivity.
Qed.

Lemma scan_frac_e r : scan_frac (String "e" r) = None.
Proof. reflexivity. Qed.

Lemma parse_unsigned_exp neg ip x rest :
  int_part_ok ip = true -> head_is is_stop rest = true ->
  parse_unsigned neg
    (digits_str ip ++ String "e" (String (sign_char x) (digits_str (exp_digits (Z.abs x)) ++ rest)))
  = Some (PFloat (mk_float neg (ip ++ []) (x - 0)), rest).
Proof.
  intros Hip Hr. unfold parse_unsigned.
  rewrite scan_int_part_ok by auto using not_digit_e.
  rewrite scan_frac_e.
  rewrite scan_exp_digits by auto using stop_not_digit. reflexivity.
Qed.

Lemma parse_unsigned_frac_exp neg ip fp x rest :
  int_part_ok ip = true -> fp <> [] -> head_is is_stop rest = true ->
  parse_unsigned neg
    (digits_str ip ++ String "." (digits_str fp ++
       String "e" (String (sign_char x) (digits_str (exp_digits (Z.abs x)) ++ rest))))
  = Some (PFloat (mk_float neg (ip ++ fp) (x - Z.of_nat (length fp))), rest).
Proof.
  intros Hip Hfp Hr. unfold parse_unsigned.
  rewrite scan_int_part_ok by auto using not_digit_dot.
  rewrite scan_frac_digits by auto using not_digit_e.
  rewrite scan_exp_digits by auto using stop_not_digit. reflexivity.
Qed.

Lemma mk_float_canonical neg d tl e :
  mantissa_canonical (d :: tl) = true -> mk_float neg (d :: tl) e = Fin neg (d :: tl) e.
Proof.
  intros H. pose proof (mk_float_zeros neg 0 d tl 0 e H) as H'.
  simpl zeros in H'. rewrite List.app_nil_r in H'. simpl app in H'.
  rewrite H'. f_equal. simpl. lia.
Qed.

Lemma int_part_ok_nonzero d tl : is_d0 d = false -> int_part_ok (d :: tl) = true.
Proof. destruct d; intros; try discriminate; destruct tl; reflexivity. Qed.

Lemma parse_unsigned_repr_exp neg d tl e rest :
  mantissa_canonical (d :: tl) = true -> head_is is_stop rest = true ->
  parse_unsigned neg (repr_exp (d :: tl) (Z.of_nat (length (d :: tl)) + e - 1) ++ rest)
  = Some (PFloat (Fin neg (d :: tl) e), rest).
Proof.
  intros Hc Hr. destruct (canonical_inv _ _ Hc) as [Hd _].
  unfold repr_exp. cbn [firstn skipn].
  set (x := Z.of_nat (length (d :: tl)) + e - 1).
  destruct tl as [|t tl].
  - cbn [String.append]. rewrite ?string_app_assoc. cbn [String.append].
    rewrite parse_unsigned_exp; [| apply int_part_ok_nonzero; assumption | assumption].
    simpl app. rewrite mk_float_canonical by assumption.
    subst x; simpl length; repeat f_equal; lia.
  - rewrite !string_app_assoc. cbn [String.append].
    rewrite parse_unsigned_frac_exp; [| apply int_part_ok_nonzero; assumption | discriminate | assumption].
    simpl app. rewrite mk_float_canonical by assumption.
    subst x; simpl length; repeat f_equal; lia.
Qed.

Lemma mk_float_trailing neg d tl k e :
  mantissa_canonical (d :: tl) = true ->
  mk_float neg ((d :: tl) ++ zeros k) e = Fin neg (d :: tl) (e + Z.of_nat k).
Proof. intros H. exact (mk_float_zeros neg 0 d tl k e H). Qed.

Lemma parse_unsigned_repr_fixed neg d tl e rest :
  mantissa_canonical (d :: tl) = true -> head_is is_stop rest = true ->
  parse_unsigned neg (repr_fixed (d :: tl) (Z.of_nat (length (d :: tl)) + e) ++ rest)
  = Some (PFloat (Fin neg (d :: tl) e), rest).
Proof.
  intros Hc Hr. destruct (canonical_inv _ _ Hc) as [Hd _].
  unfold repr_fixed.
  set (ds := d :: tl) in *. set (decpt := Z.of_nat (length ds) + e).
  destruct (decpt <=? 0) eqn:E1; [|destruct (Z.of_nat (length ds) <=? decpt) eqn:E2].
  - (* 0.000ddd *)
    apply Z.leb_le in E1.
    cbn [String.append].
    change (String "0" (String "." (digits_str (zeros (Z.to_nat (- decpt)) ++ ds) ++ rest)))
      with (digits_str [d0] ++ String "." (digits_str (zeros (Z.to_nat (- decpt)) ++ ds) ++ rest))%string.
    rewrite parse_unsigned_frac; [| reflexivity | subst ds; destruct (zeros _); discriminate | assumption].
    change ([d0] ++ zeros (Z.to_nat (- decpt)) ++ ds) with (zeros (S (Z.to_nat (- decpt))) ++ ds).
    replace ds with (ds ++ zeros 0) at 1 by apply List.app_nil_r.
    subst ds. rewrite mk_float_zeros by assumption.
    rewrite length_app. 
    assert (length (zeros (Z.to_nat (- decpt))) = Z.to_nat (- decpt)) as ->.
    { clear. induction (Z.to_nat (- decpt)); simpl; auto. }
    repeat f_equal. subst decpt. lia.
  - (* ddd000.0 *)
    apply Z.leb_le in E2. apply Z.leb_gt in E1.
    rewrite string_app_assoc.
    change (".0" ++ rest)%string with (String "." (digits_str [d0] ++ rest)).
    rewrite parse_unsigned_frac; [| subst ds; apply int_part_ok_nonzero; assumption | discriminate | assumption].
    rewrite <- List.app_assoc.
    change (zeros (Z.to_nat decpt - length ds) ++ [d0])
      with (zeros (Z.to_nat decpt - length ds) ++ zeros 1).
    assert (forall a b, zeros a ++ zeros b = zeros (a + b)) as Hz.
    { clear. induction a; simpl; intros; auto. now rewrite IHa. }
    rewrite Hz.
    subst ds. rewrite mk_float_trailing by assumption.
    repeat f_equal. subst decpt. simpl length in *. lia.
  - (* dd.ddd *)
    apply Z.leb_gt in E2. apply Z.leb_gt in E1.
    rewrite string_app_assoc. cbn [String.append].
    rewrite parse_unsigned_frac.
    + rewrite firstn_skipn. subst ds. rewrite mk_float_canonical by assumption.
      repeat f_equal. rewrite length_skipn. subst decpt. simpl length in *. lia.
    + subst ds. destruct (Z.to_nat decpt) eqn:En; [lia|]. simpl firstn.
      apply int_part_ok_nonzero; assumption.
    + intros H. apply (f_equal (@length _)) in H. rewrite length_skipn in H.
      subst ds. simpl length in *. lia.
    + assumption.
Qed.

Lemma parse_unsigned_fin neg ds e rest :
  float_wf (Fin neg ds e) = true -> head_is is_stop rest = true ->
  parse_unsigned neg (fin_body ds e ++ rest) = Some (PFloat (Fin neg ds e), rest).
Proof.
  intros Hwf Hr. simpl in Hwf. apply andb_prop in Hwf. destruct Hwf as [Hc He].
  destruct ds as [|d tl].
  - apply Z.eqb_eq in He. subst e. unfold fin_body. cbv zeta. simpl.
    change (String "0" (String "." (String "0" rest)))
      with (digits_str [d0] ++ String "." (digits_str [d0] ++ rest))%string.
    rewrite parse_unsigned_frac by (auto; discriminate).
    apply (f_equal (fun f => Some (PFloat f, rest))).
    apply (mk_float_all_zeros neg 2).
  - unfold fin_body. cbv zeta.
    destruct ((Z.of_nat (length (d :: tl)) + e <=? -4) || (16 <? Z.of_nat (length (d :: tl)) + e)).
    + apply parse_unsigned_repr_exp; assumption.
    + apply parse_unsigned_repr_fixed; assumption.
Qed.

Lemma parse_number_unsigned s res :
  parse_unsigned false s = Some res -> parse_number s = Some res.
Proof.
  destruct s as [|c r]; [discriminate|]. unfold parse_number.
  destruct (Ascii.eqb c "-") eqn:E; [|trivial].
  apply Ascii.eqb_eq in E. subst c. discriminate.
Qed.

Lemma parse_number_float f rest :
  float_wf f = true -> is_finite f = true -> head_is is_stop rest = true ->
  parse_number (write_float f ++ rest) = Some (PFloat f, rest).
Proof.
  intros Hwf Hfin Hr. destruct f as [neg ds e| | |]; try discriminate.
  pose proof (parse_unsigned_fin neg ds e rest Hwf Hr) as H.
  unfold write_float, fin_repr.
  destruct neg.
  - cbn [String.append]. unfold parse_number. change (Ascii.eqb "-" "-") with true.
    cbv iota. exact H.
  - apply parse_number_unsigned. exact H.
Qed.

Lemma char_digit_inv c d : char_digit c = Some d -> c = digit_char d.
Proof.
  destruct c as [[|] [|] [|] [|] [|] [|] [|] [|]]; simpl; intros H;
    try discriminate; injection H as <-; reflexivity.
Qed.

(** The first character of a number: a digit or the minus sign. *)
Lemma parse_number_head s res :
  parse_number s = Some res ->
  exists c r, s = String c r /\ (c = "-"%char \/ exists d, c = digit_char d).
Proof.
  destruct s as [|c r]; [discriminate|]. intros H. exists c, r. split; [reflexivity|].
  unfold parse_number in H. destruct (Ascii.eqb c "-") eqn:E.
  - apply Ascii.eqb_eq in E. auto.
  - right. unfold parse_unsigned, scan_int_part in H.
    destruct (char_digit c) as [d|] eqn:Ed; [|discriminate].
    exists d. apply char_digit_inv. assumption.
Qed.

Lemma parse_literal_number s res :
  parse_number s = Some res -> parse_literal s = Some res.
Proof.
  intros H. destruct (parse_number_head s res H) as (c & r & -> & Hc).
  unfold parse_literal. rewrite H.
  destruct Hc as [->|[d ->]]; [reflexivity|destruct d; reflexivity].
Qed.

Lemma parse_value_number fuel s res :
  parse_number s = Some res -> parse_value (S fuel) s = Some res.
Proof.
  intros H. pose proof (parse_literal_number s res H) as Hl.
  destruct (parse_number_head s res H) as (c & r & -> & Hc).
  cbn [parse_value].
  destruct Hc as [->|[d ->]]; [exact Hl|destruct d; exact Hl].
Qed.

(** *** Values *)

Lemma write_value_list st l :
  write_value st (PList l) = String "[" (write_items st l ++ "]").
Proof. reflexivity. Qed.

Lemma write_value_dict st d :
  write_value st (PDict d) = String "{" (write_members st d ++ "}").
Proof. reflexivity. Qed.

Lemma style_ok_inv st :
  style_ok st = true ->
  exists w1 w2, item_sep st = String "," w1 /\ key_sep st = String ":" w2
                /\ all_ws w1 = true /\ all_ws w2 = true.
Proof.
  unfold style_ok. destruct (item_sep st) as [|c1 w1]; [discriminate|].
  destruct (key_sep st) as [|c2 w2]; [discriminate|]. intros H.
  repeat (apply andb_prop in H; destruct H as [H ?]).
  apply Ascii.eqb_eq in H, H1. subst. eauto 6.
Qed.

Lemma skip_ws_all_ws w s : all_ws w = true -> skip_ws (w ++ s) = skip_ws s.
Proof.
  induction w as [|c w IH]; simpl; intros H; [reflexivity|].
  apply andb_prop in H. destruct H as [-> H]. auto.
Qed.


Lemma parse_value_head fuel s res : parse_value fuel s = Some res -> head_ok s = true.
Proof.
  destruct fuel; [discriminate|]. destruct s as [|c r]; [discriminate|].
  intros H. simpl head_ok.
  destruct c as [[|] [|] [|] [|] [|] [|] [|] [|]];
    first [ reflexivity | exfalso; simpl in H; discriminate ].
Qed.

Lemma head_ok_skip s : head_ok s = true -> skip_ws s = s.
Proof.
  destruct s as [|c r]; [discriminate|]. simpl. intros H.
  apply andb_prop in H. destruct H as [H _]. apply andb_prop in H. destruct H as [H _].
  apply negb_true_iff in H. rewrite H. reflexivity.
Qed.

Lemma size_list l : size (PList l) = S (size_items l).
Proof. reflexivity. Qed.
Lemma size_dict d : size (PDict d) = S (size_members d).
Proof. reflexivity. Qed.

Lemma keys_distinct_nodup ks : keys_distinct ks = true -> NoDup ks.
Proof.
  induction ks as [|k ks IH]; simpl; intros H; constructor.
  - apply andb_prop in H. destruct H as [H _]. apply negb_true_iff in H.
    intros Hin. assert (existsb (String.eqb k) ks = true) as E; [|congruence].
    apply existsb_exists. exists k. split; [assumption|apply String.eqb_refl].
  - apply IH. apply andb_prop in H. tauto.
Qed.

Lemma pyval_wf_list l :
  pyval_wf (PList l) = true -> Forall (fun x => pyval_wf x = true) l.
Proof. simpl. intros H. apply Forall_forall. apply forallb_forall. exact H. Qed.

Lemma pyval_wf_dict d :
  pyval_wf (PDict d) = true ->
  NoDup (map fst d) /\ Forall (fun kv => pyval_wf (snd kv) = true) d.
Proof.
  simpl. intros H. apply andb_prop in H. destruct H as [H1 H2]. split.
  - apply keys_distinct_nodup. assumption.
  - apply Forall_forall. apply (proj1 (forallb_forall _ _)). exact H2.
Qed.

Lemma dict_set_fresh {A} (d : list (string * A)) k v :
  ~ In k (map fst d) -> dict_set d k v = d ++ [(k, v)].
Proof.
  induction d as [|[k' v'] d IH]; simpl; intros H; [reflexivity|].
  destruct (String.eqb_spec k k') as [->|Hne]; [tauto|].
  rewrite IH by tauto. reflexivity.
Qed.

Lemma dict_of_pairs_nodup d : NoDup (map fst d) -> dict_of_pairs d = d.
Proof.
  unfold dict_of_pairs.
  assert (forall acc, NoDup (map fst (acc ++ d)) ->
            fold_left (fun d0 kv => dict_set d0 (fst kv) (snd kv)) d acc = acc ++ d) as H.
  { induction d as [|[k v] d IH]; intros acc Hnd; simpl.
    - now rewrite List.app_nil_r.
    - rewrite dict_set_fresh.
      + rewrite IH; rewrite <- List.app_assoc; [reflexivity|assumption].
      + rewrite map_app in Hnd. simpl in Hnd. apply NoDup_remove_2 in Hnd.
        intros Hin. apply Hnd. apply in_or_app. auto. }
  intros Hnd. apply (H []). assumption.
Qed.

Lemma stop_comma r : head_is is_stop (String "," r) = true. Proof. reflexivity. Qed.
Lemma stop_bracket r : head_is is_stop (String "]" r) = true. Proof. reflexivity. Qed.
Lemma stop_brace r : head_is is_stop (String "}" r) = true. Proof. reflexivity. Qed.

Lemma skip_ws_comma r : skip_ws (String "," r) = String "," r. Proof. reflexivity. Qed.
Lemma skip_ws_colon r : skip_ws (String ":" r) = String ":" r. Proof. reflexivity. Qed.

Section WriterParser.
Variable st : json_style.
Hypothesis Hst : style_ok st = true.

Lemma parses_string s fuel rest :
  parse_value (S fuel) (write_string st s ++ rest) = Some (PStr s, rest).
Proof.
  unfold write_string. cbn [String.append parse_value].
  change (Ascii.eqb quote quote) with true. cbv iota.
  rewrite string_app_assoc. cbn [String.append str1].
  rewrite parse_escape_string. reflexivity.
Qed.

Lemma parses_atom v :
  match v with PList _ | PDict _ => False | _ => True end ->
  pyval_wf v = true -> parses st v.
Proof.
  intros Hv Hwf fuel rest Hf Hr. destruct fuel as [|fuel]; [destruct v; try contradiction; simpl in Hf; lia|].
  destruct v as [|[|]|z|f|s|l|d]; try contradiction.
  - reflexivity.
  - reflexivity.
  - reflexivity.
  - apply parse_value_number. apply parse_number_int. assumption.
  - destruct (is_finite f) eqn:Ef.
    + apply parse_value_number. apply parse_number_float; assumption.
    + destruct f; try discriminate; reflexivity.
  - apply parses_string.
Qed.

Lemma parses_items l :
  Forall (parses st) l -> l <> [] ->
  forall fuel rest, (size_items l <= fuel)%nat ->
    parse_elements fuel (write_items st l ++ String "]" rest) = Some (l, rest).
Proof.
  destruct (style_ok_inv st Hst) as (w1 & w2 & Hi & Hk & Hw1 & Hw2).
  induction 1 as [|x l Hx Hl IH]; [congruence|]. intros _ fuel rest Hf.
  destruct fuel as [|fuel]; [simpl in Hf; lia|]. simpl in Hf.
  cbn [parse_elements].
  destruct l as [|y l'].
  - cbn [write_items]. rewrite Hx by (auto using stop_bracket; lia).
    reflexivity.
  - change (write_items st (x :: y :: l'))
      with (write_value st x ++ item_sep st ++ write_items st (y :: l'))%string.
    rewrite Hi. rewrite !string_app_assoc. cbn [String.append].
    rewrite Hx by (auto using stop_comma; lia).
    rewrite skip_ws_comma. change (Ascii.eqb "," "]") with false.
    change (Ascii.eqb "," ",") with true. cbv iota.
    rewrite skip_ws_all_ws by assumption.
    assert (parse_elements fuel (write_items st (y :: l') ++ String "]" rest)
            = Some (y :: l', rest)) as H.
    { apply IH; [discriminate|]. simpl. simpl in Hf. lia. }
    assert (head_ok (write_items st (y :: l') ++ String "]" rest) = true) as Hh.
    { destruct fuel as [|fuel']; [discriminate|]. cbn [parse_elements] in H.
      destruct (parse_value fuel' _) as [[v r]|] eqn:E; [|discriminate].
      eapply parse_value_head. eassumption. }
    rewrite head_ok_skip by assumption. rewrite H. reflexivity.
Qed.

Lemma write_string_app k r :
  (write_string st k ++ r)%string
  = String quote (escape_string st k ++ String quote r).
Proof.
  unfold write_string. cbn [String.append]. rewrite string_app_assoc. reflexivity.
Qed.

Lemma parses_members d :
  Forall (fun kv => parses st (snd kv)) d -> d <> [] ->
  forall fuel rest, (size_members d <= fuel)%nat ->
    parse_members fuel (write_members st d ++ String "}" rest) = Some (d, rest).
Proof.
  destruct (style_ok_inv st Hst) as (w1 & w2 & Hi & Hk & Hw1 & Hw2).
  induction 1 as [|[k x] d Hx Hd IH]; [congruence|]. intros _ fuel rest Hf.
  destruct fuel as [|fuel]; [simpl in Hf; lia|]. simpl in Hf. simpl snd in Hx.
  assert (forall R, head_is is_stop R = true ->
            parse_value fuel (skip_ws (w2 ++ write_value st x ++ R)) = Some (x, R)) as Hv.
  { intros R HR. rewrite skip_ws_all_ws by assumption.
    assert (parse_value fuel (write_value st x ++ R) = Some (x, R)) as H
      by (apply Hx; [lia|assumption]).
    rewrite head_ok_skip by (eapply parse_value_head; eassumption). exact H. }
  destruct d as [|[k' y] d'].
  - change (write_members st [(k, x)])
      with (write_string st k ++ key_sep st ++ write_value st x)%string.
    rewrite Hk. rewrite !string_app_assoc. rewrite write_string_app.
    cbn [parse_members]. change (Ascii.eqb quote quote) with true. cbv iota.
    rewrite parse_escape_string. cbn [String.append].
    rewrite skip_ws_colon. change (Ascii.eqb ":" ":") with true. cbv iota.
    rewrite Hv by apply stop_brace. reflexivity.
  - change (write_members st ((k, x) :: (k', y) :: d'))
      with (write_string st k ++ key_sep st ++ write_value st x
            ++ item_sep st ++ write_members st ((k', y) :: d'))%string.
    rewrite Hk, Hi. rewrite !string_app_assoc. rewrite write_string_app.
    cbn [parse_members]. change (Ascii.eqb quote quote) with true. cbv iota.
    rewrite parse_escape_string. cbn [String.append].
    rewrite skip_ws_colon. change (Ascii.eqb ":" ":") with true. cbv iota.
    rewrite Hv by apply stop_comma.
    rewrite skip_ws_comma. change (Ascii.eqb "," "}") with false.
    change (Ascii.eqb "," ",") with true. cbv iota.
    rewrite skip_ws_all_ws by assumption.
    assert (parse_members fuel (write_members st ((k', y) :: d') ++ String "}" rest)
            = Some ((k', y) :: d', rest)) as H.
    { apply IH; [discriminate|]. simpl. simpl in Hf. lia. }
    assert (skip_ws (write_members st ((k', y) :: d') ++ String "}" rest)
            = (write_members st ((k', y) :: d') ++ String "}" rest)%string) as ->.
    { destruct d'; cbn [write_members]; rewrite ?string_app_assoc;
        rewrite write_string_app; reflexivity. }
    rewrite H. reflexivity.
Qed.

Theorem parse_write v : pyval_wf v = true -> parses st v.
Proof.
  induction v as [| | | | |l IH|d IH] using pyval_ind';
    try (intros Hwf; apply parses_atom; [exact I|exact Hwf]).
  - intros Hwf fuel rest Hf Hr. apply pyval_wf_list in Hwf.
    rewrite size_list in Hf. destruct fuel as [|fuel]; [lia|].
    rewrite write_value_list. cbn [String.append parse_value].
    change (Ascii.eqb "[" quote) with false. change (Ascii.eqb "[" "{") with false.
    change (Ascii.eqb "[" "[") with true. cbv iota.
    rewrite string_app_assoc. cbn [String.append].
    destruct l as [|x l]; [reflexivity|].
    assert (parse_elements fuel (write_items st (x :: l) ++ String "]" rest)
            = Some (x :: l, rest)) as H.
    { apply parses_items; [|discriminate|lia].
      rewrite Forall_forall in *. intros y Hy. apply IH; auto. }
    assert (head_ok (write_items st (x :: l) ++ String "]" rest) = true) as Hh.
    { destruct fuel as [|fuel']; [discriminate|]. cbn [parse_elements] in H.
      destruct (parse_value fuel' _) as [[v r]|] eqn:E; [|discriminate].
      eapply parse_value_head. eassumption. }
    rewrite head_ok_skip by assumption.
    destruct (write_items st (x :: l) ++ String "]" rest)%string as [|c r] eqn:E;
      [discriminate|].
    simpl in Hh. apply andb_prop in Hh. destruct Hh as [Hh _].
    apply andb_prop in Hh. destruct Hh as [_ Hh]. apply negb_true_iff in Hh.
    rewrite Hh, H. reflexivity.
  - intros Hwf fuel rest Hf Hr. apply pyval_wf_dict in Hwf. destruct Hwf as [Hnd Hwf].
    rewrite size_dict in Hf. destruct fuel as [|fuel]; [lia|].
    rewrite write_value_dict. cbn [String.append parse_value].
    change (Ascii.eqb "{" quote) with false. change (Ascii.eqb "{" "{") with true.
    cbv iota. rewrite string_app_assoc. cbn [String.append].
    destruct d as [|[k x] d]; [reflexivity|].
    assert (parse_members fuel (write_members st ((k, x) :: d) ++ String "}" rest)
            = Some ((k, x) :: d, rest)) as H.
    { apply parses_members; [|discriminate|lia].
      rewrite Forall_forall in *. intros y Hy. apply IH; auto. }
    assert (exists r, (write_members st ((k, x) :: d) ++ String "}" rest)%string
                      = String quote r) as [r E].
    { destruct d; cbn [write_members]; rewrite ?string_app_assoc;
        rewrite write_string_app; eauto. }
    rewrite E in *. change (skip_ws (String quote r)) with (String quote r).
    cbv iota. change (Ascii.eqb quote "}") with false. cbv iota.
    rewrite H, dict_of_pairs_nodup by assumption. reflexivity.
Qed.

Lemma length_app_str (a b : string) :
  String.length (a ++ b) = (String.length a + String.length b)%nat.
Proof. induction a; simpl; auto. Qed.

Lemma write_value_nonempty v : pyval_wf v = true -> (1 <= String.length (write_value st v))%nat.
Proof.
  intros Hwf. destruct v as [|[|]|z|f|s|l|d]; try (simpl; lia).
  - pose proof (parses_atom (PInt z) I Hwf 1%nat EmptyString (le_n _) eq_refl) as H.
    destruct (write_value st (PInt z)); [discriminate|simpl; lia].
  - pose proof (parses_atom (PFloat f) I Hwf 1%nat EmptyString (le_n _) eq_refl) as H.
    destruct (write_value st (PFloat f)); [discriminate|simpl; lia].
Qed.

Lemma size_le_length v :
  pyval_wf v = true -> (size v <= String.length (write_value st v))%nat.
Proof.
  destruct (style_ok_inv st Hst) as (w1 & w2 & Hi & Hk & Hw1 & Hw2).
  induction v as [| | | | |l IH|d IH] using pyval_ind'; intros Hwf;
    try (apply write_value_nonempty; assumption).
  - apply pyval_wf_list in Hwf. rewrite size_list, write_value_list.
    cbn [String.length]. rewrite length_app_str. simpl String.length at 2.
    assert (size_items l <= String.length (write_items st l) + 1)%nat; [|lia].
    induction l as [|x l IHl]; [simpl; lia|].
    inversion IH as [|? ? Hx Hl]; subst. inversion Hwf as [|? ? Wx Wl]; subst.
    specialize (IHl Hl Wl). specialize (Hx Wx).
    destruct l as [|y l'].
    + simpl. lia.
    + change (write_items st (x :: y :: l'))
        with (write_value st x ++ item_sep st ++ write_items st (y :: l'))%string.
      rewrite Hi, !length_app_str. simpl String.length at 2.
      change (size_items (x :: y :: l')) with (S (size x) + size_items (y :: l'))%nat.
      lia.
  - apply pyval_wf_dict in Hwf. destruct Hwf as [_ Hwf].
    rewrite size_dict, write_value_dict.
    cbn [String.length]. rewrite length_app_str. simpl String.length at 2.
    assert (size_members d <= String.length (write_members st d) + 1)%nat; [|lia].
    induction d as [|[k x] d IHd]; [simpl; lia|].
    inversion IH as [|? ? Hx Hl]; subst. inversion Hwf as [|? ? Wx Wl]; subst.
    specialize (IHd Hl Wl). specialize (Hx Wx). simpl snd in *.
    destruct d as [|[k' y] d'].
    + change (write_members st [(k, x)])
        with (write_string st k ++ key_sep st ++ write_value st x)%string.
      rewrite !length_app_str. simpl. lia.
    + change (write_members st ((k, x) :: (k', y) :: d'))
        with (write_string st k ++ key_sep st ++ write_value st x
              ++ item_sep st ++ write_members st ((k', y) :: d'))%string.
      rewrite Hi, !length_app_str. simpl String.length at 4.
      change (size_members ((k, x) :: (k', y) :: d'))
        with (S (size x) + size_members ((k', y) :: d'))%nat.
      lia.
Qed.

Lemma append_empty (s : string) : (s ++ EmptyString)%string = s.
Proof. induction s; simpl; congruence. Qed.

Theorem json_loads_write v :
  pyval_wf v = true -> json_loads (write_value st v) = Return v.
Proof.
  intros Hwf. unfold json_loads.
  assert (parse_value (S (String.length (write_value st v))) (write_value st v)
          = Some (v, EmptyString)) as H.
  { rewrite <- (append_empty (write_value st v)) at 2.
    apply parse_write; [assumption| |reflexivity].
    pose proof (size_le_length v Hwf). lia. }
  rewrite head_ok_skip by (eapply parse_value_head; eassumption).
  rewrite H. reflexivity.
Qed.
End WriterParser.

Lemma json_loads_dumps v : pyval_wf v = true -> json_loads (json_dumps v) = Return v.
Proof. apply json_loads_write. reflexivity. Qed.


(** *** What [json.loads] returns is well formed *)

Lemma strip_leading_head ds : head_nonzero (strip_leading ds) = true.
Proof. induction ds as [|d ds IH]; [reflexivity|]. destruct d; simpl; auto. Qed.

Lemma strip_zeros_rev_spec r :
  r = zeros (snd (strip_zeros_rev r)) ++ fst (strip_zeros_rev r)
  /\ head_nonzero (fst (strip_zeros_rev r)) = true.
Proof.
  induction r as [|d r IH]; [split; reflexivity|].
  destruct d; try (split; reflexivity).
  simpl. destruct (strip_zeros_rev r) as [q n]. simpl in *.
  destruct IH as [IH1 IH2]. split; [congruence|assumption].
Qed.

Lemma mk_float_wf neg ds e : float_wf (mk_float neg ds e) = true.
Proof.
  unfold mk_float, strip_trailing.
  pose proof (strip_leading_head ds) as Hsl.
  destruct (strip_zeros_rev_spec (List.rev (strip_leading ds))) as [Hr Hq].
  destruct (strip_zeros_rev (List.rev (strip_leading ds))) as [q' n]. simpl in Hr, Hq.
  apply (f_equal (@List.rev _)) in Hr. rewrite rev_involutive, rev_app_distr, rev_zeros in Hr.
  destruct (List.rev q') as [|a q] eqn:Eq; [reflexivity|].
  cbn [float_wf]. rewrite andb_true_r. unfold mantissa_canonical.
  rewrite Hr in Hsl. simpl in Hsl. rewrite Hsl. cbn [andb].
  destruct q' as [|h t]; [discriminate|].
  simpl in Eq. rewrite <- Eq, last_last. exact Hq.
Qed.

Lemma existsb_dict_set {A} (d : list (string * A)) k v k0 :
  existsb (String.eqb k0) (map fst (dict_set d k v))
  = existsb (String.eqb k0) (map fst d) || String.eqb k0 k.
Proof.
  induction d as [|[k' v'] d IH]; simpl.
  - now rewrite orb_false_r.
  - destruct (String.eqb_spec k k') as [->|Hne]; simpl.
    + destruct (String.eqb k0 k'); simpl; [reflexivity|]. now rewrite orb_false_r.
    + rewrite IH. now rewrite orb_assoc.
Qed.

Lemma keys_distinct_dict_set {A} (d : list (string * A)) k v :
  keys_distinct (map fst d) = true -> keys_distinct (map fst (dict_set d k v)) = true.
Proof.
  induction d as [|[k' v'] d IH]; simpl; intros H; [reflexivity|].
  apply andb_prop in H. destruct H as [H1 H2].
  destruct (String.eqb_spec k k') as [->|Hne]; simpl.
  - now rewrite H1, H2.
  - rewrite existsb_dict_set, IH by assumption.
    apply negb_true_iff in H1. rewrite H1. simpl.
    destruct (String.eqb_spec k' k); [congruence|reflexivity].
Qed.

Lemma forallb_dict_set {A} (p : string * A -> bool) (d : list (string * A)) k v :
  forallb p d = true -> p (k, v) = true -> forallb p (dict_set d k v) = true.
Proof.
  induction d as [|[k' v'] d IH]; simpl; intros H Hp; [now rewrite Hp|].
  apply andb_prop in H. destruct H as [H1 H2].
  destruct (String.eqb k k'); simpl; [now rewrite Hp, H2|]. rewrite H1. auto.
Qed.

Lemma dict_of_pairs_wf kvs :
  forallb (fun kv => pyval_wf (snd kv)) kvs = true ->
  pyval_wf (PDict (dict_of_pairs kvs)) = true.
Proof.
  unfold dict_of_pairs. intros H.
  assert (forall acc, pyval_wf (PDict acc) = true ->
            pyval_wf (PDict (fold_left (fun d kv => dict_set d (fst kv) (snd kv)) kvs acc))
            = true) as G; [|apply (G []); reflexivity].
  induction kvs as [|[k v] kvs IH]; intros acc Hacc; [exact Hacc|].
  simpl in H. apply andb_prop in H. destruct H as [Hv H].
  simpl fold_left. apply IH; [assumption|].
  simpl in *. apply andb_prop in Hacc. destruct Hacc as [Hk Hf].
  rewrite keys_distinct_dict_set by assumption.
  rewrite forallb_dict_set by assumption. reflexivity.
Qed.

Lemma parse_unsigned_wf neg s v r :
  parse_unsigned neg s = Some (v, r) -> pyval_wf v = true.
Proof.
  unfold parse_unsigned. destruct (scan_int_part s) as [[ip s1]|]; [|discriminate].
  destruct (scan_frac s1) as [[fp s2]|]; destruct (scan_exp _) as [[x s3]|];
    intros [= <- <-]; try apply mk_float_wf; reflexivity.
Qed.

Lemma parse_literal_wf s v r : parse_literal s = Some (v, r) -> pyval_wf v = true.
Proof.
  unfold parse_literal.
  repeat (match goal with
          | |- context [starts_with ?p s] => destruct (starts_with p s)
          end; [intros [= <- <-]; reflexivity|]).
  destruct (parse_number s) as [[v' r']|] eqn:E.
  - intros [= <- <-]. unfold parse_number in E. destruct s as [|c s']; [discriminate|].
    destruct (Ascii.eqb c "-"); eapply parse_unsigned_wf; eassumption.
  - repeat (match goal with
          | |- context [starts_with ?p s] => destruct (starts_with p s)
          end; [intros [= <- <-]; reflexivity|]). discriminate.
Qed.

Lemma parse_wf fuel :
  (forall s v r, parse_value fuel s = Some (v, r) -> pyval_wf v = true)
  /\ (forall s vs r, parse_elements fuel s = Some (vs, r) -> forallb pyval_wf vs = true)
  /\ (forall s kvs r, parse_members fuel s = Some (kvs, r) ->
        forallb (fun kv => pyval_wf (snd kv)) kvs = true).
Proof.
  induction fuel as [|fuel (IHv & IHe & IHm)]; [repeat split; discriminate|].
  repeat split.
  - intros s v r. cbn [parse_value]. destruct s as [|c s']; [discriminate|].
    destruct (Ascii.eqb c quote).
    { destruct (parse_string s') as [[x r']|]; intros [= <- <-]. reflexivity. }
    destruct (Ascii.eqb c "{").
    { destruct (skip_ws s') as [|c1 r1]; [discriminate|].
      destruct (Ascii.eqb c1 "}"); [intros [= <- <-]; reflexivity|].
      destruct (parse_members fuel _) as [[kvs r']|] eqn:E; intros [= <- <-].
      apply dict_of_pairs_wf. eapply IHm. eassumption. }
    destruct (Ascii.eqb c "[").
    { destruct (skip_ws s') as [|c1 r1]; [discriminate|].
      destruct (Ascii.eqb c1 "]"); [intros [= <- <-]; reflexivity|].
      destruct (parse_elements fuel _) as [[vs r']|] eqn:E; intros [= <- <-].
      simpl. eapply IHe. eassumption. }
    apply parse_literal_wf.
  - intros s vs r. cbn [parse_elements].
    destruct (parse_value fuel s) as [[v r0]|] eqn:Ev; [|discriminate].
    destruct (skip_ws r0) as [|c r1]; [discriminate|].
    destruct (Ascii.eqb c "]").
    { intros [= <- <-]. simpl. rewrite (IHv _ _ _ Ev). reflexivity. }
    destruct (Ascii.eqb c ","); [|discriminate].
    destruct (parse_elements fuel _) as [[vs' r']|] eqn:Ee; intros [= <- <-].
    simpl. rewrite (IHv _ _ _ Ev), (IHe _ _ _ Ee). reflexivity.
  - intros s kvs r. cbn [parse_members]. destruct s as [|q s']; [discriminate|].
    destruct (Ascii.eqb q quote); [|discriminate].
    destruct (parse_string s') as [[k r0]|]; [|discriminate].
    destruct (skip_ws r0) as [|c0 r1]; [discriminate|].
    destruct (Ascii.eqb c0 ":"); [|discriminate].
    destruct (parse_value fuel _) as [[v r2]|] eqn:Ev; [|discriminate].
    destruct (skip_ws r2) as [|c r3]; [discriminate|].
    destruct (Ascii.eqb c "}").
    { intros [= <- <-]. simpl. rewrite (IHv _ _ _ Ev). reflexivity. }
    destruct (Ascii.eqb c ","); [|discriminate].
    destruct (parse_members fuel _) as [[kvs' r']|] eqn:Em; intros [= <- <-].
    simpl. rewrite (IHv _ _ _ Ev), (IHm _ _ _ Em). reflexivity.
Qed.

Lemma json_loads_wf s v : json_loads s = Return v -> pyval_wf v = true.
Proof.
  unfold json_loads.
  destruct (parse_value _ _) as [[v' r]|] eqn:E; [|discriminate].
  destruct (skip_ws r); intros [= <-]. eapply (proj1 (parse_wf _)). eassumption.
Qed.

(** ** A model validates what it dumps *)



Lemma map_id_on {A} (f : A -> A) l : Forall (fun x => f x = x) l -> map f l = l.
Proof. induction 1; simpl; congruence. Qed.





Lemma as_json_of_json v : as_json (of_json v) = Some v.
Proof.
  induction v as [| | | | |l IH|d IH] using pyval_ind'; try reflexivity.
  - cbn [of_json as_json].
    match goal with
    | |- option_map _ ?c = _ => assert (c = Some l) as ->; [|reflexivity]
    end.
    induction IH as [|x l Hx Hl IHl]; [reflexivity|].
    cbn [map]. rewrite Hx, IHl. reflexivity.
  - cbn [of_json as_json].
    match goal with
    | |- option_map _ ?c = _ => assert (c = Some d) as ->; [|reflexivity]
    end.
    induction IH as [|[k x] d Hx Hd IHd]; [reflexivity|].
    cbn [map fst snd] in *. rewrite Hx, IHd. reflexivity.
Qed.


Lemma pyval_plain_inv v : pyval_plain v = true -> pyval_wf v = true /\ pyval_finite v = true.
Proof. unfold pyval_plain. intros H. apply andb_prop in H. exact H. Qed.

Lemma list_items_dump {A} (val : pyval -> vresult A) (dump : A -> pyval) l :
  Forall (fun x => val (dump x) = VOk x) l ->
  forall i, list_items val i (map dump l) = VOk l.
Proof.
  induction 1 as [|x l Hx Hl IH]; intros i; simpl; [reflexivity|].
  rewrite Hx, IH. reflexivity.
Qed.


Ltac split_andb :=
  repeat match goal with
         | H : _ && _ = true |- _ => apply andb_prop in H; destruct H
         end.

(** Look up the fields of a model in a dict with known keys. *)
Ltac get_fields :=
  cbn [dict_get String.eqb Ascii.eqb Bool.eqb andb required with_default
       model_validator fst snd].






(** *** [ControlPoint] *)



(** *** [NodePosition] *)



(** *** [Corridor] *)




(** *** [Trajectory] *)




(** *** [ActionParameter] *)


(** *** [Action] *)



(** ** The transcoder *)

Section Transcoder.
Context {EM : ExternalModels}.

(** What [to_model] does once the text is known to hold a dict. *)
Lemma to_model_of_loads s d :
  json_loads s = Return (PDict d) ->
  to_model s =
  try_except
    (let message_type :=
       match dict_get d "message_type" with Some v => v | None => PNone end in
     let data := match dict_get d "data" with Some v => v | None => PNone end in
     if negb (truthy message_type) || negb (truthy data) then
       Raise (ValueError missing_envelope_field)
     else
       model_class <- registry_get message_type ;;
       match model_class with
       | None =>
           Raise (ValueError (unsupported_message_type ++ py_str message_type)%string)
       | Some cls => model_validate cls data
       end)
    (fun e => Raise (ValueError (to_model_failed ++ exn_str e)%string)).
Proof. intros H. unfold to_model. rewrite H. reflexivity. Qed.





(** C3, as amended.  Decoding the exact text
    [{"message_type":"NotAType","data":{}}] fails with the
    missing-envelope-field message: the empty [data] is refused before the
    registry is asked.  With any [data] that is not empty the same
    [message_type] fails with the unsupported-message-type message. *)
Theorem unknown_type_with_empty_data :
  to_model not_a_type_text
  = Raise (ValueError (to_model_failed ++ missing_envelope_field))
  /\ forall s d data,
       json_loads s = Return (PDict d) ->
       dict_get d "message_type" = Some (PStr "NotAType") ->
       dict_get d "data" = Some data ->
       truthy data = true ->
       to_model s
       = Raise (ValueError (to_model_failed ++ unsupported_message_type ++ "NotAType")).
Proof.
  split; [reflexivity|].
  intros s d data Hl Hm Hd Ht. rewrite (to_model_of_loads s d Hl), Hm, Hd.
  cbv zeta. rewrite Ht. reflexivity.
Qed.

(** C8.  [BlockingType] and [CorridorRefPoint] are names of the
    registry, and an envelope that names one of them never decodes: with
    a [data] that is not empty, the attempt to call [model_validate] on
    the enumeration class raises, and the failure is reported to the
    caller. *)
Theorem enumeration_entries_never_decode :
  get_model_class "BlockingType" = Some BlockingType
  /\ get_model_class "CorridorRefPoint" = Some CorridorRefPoint
  /\ forall s d name data,
       json_loads s = Return (PDict d) ->
       name = "BlockingType" \/ name = "CorridorRefPoint" ->
       dict_get d "message_type" = Some (PStr name) ->
       dict_get d "data" = Some data ->
       truthy data = true ->
       to_model s
       = Raise (ValueError
                  (to_model_failed ++ "type object '" ++ name
                   ++ "' has no attribute 'model_validate'")).
Proof.
  split; [reflexivity|split; [reflexivity|]].
  intros s d name data Hl Hn Hm Hd Ht.
  rewrite (to_model_of_loads s d Hl), Hm, Hd. cbv zeta.
  destruct Hn as [-> | ->]; cbn [truthy String.eqb Ascii.eqb Bool.eqb negb orb andb];
    rewrite Ht; reflexivity.
Qed.

Lemma try_except_value_error {A} (body : result A) prefix :
  (exists a, try_except body (fun e => Raise (ValueError (prefix ++ exn_str e))) = Return a)
  \/ (exists msg,
        try_except body (fun e => Raise (ValueError (prefix ++ exn_str e)))
        = Raise (ValueError (prefix ++ msg))).
Proof. destruct body as [a|e]; simpl; eauto. Qed.

(** C10.  Whatever goes wrong inside [to_model] or [from_model], the
    caller sees a [ValueError], with the fixed prefix of the function in
    front of the text of the cause.  A text that is no JSON, an envelope
    without [message_type], an unregistered name and a payload that fails
    validation all end in that one class; their messages differ. *)
Theorem failures_are_value_errors :
  (forall json_str,
     (exists model, to_model json_str = Return model)
     \/ (exists msg, to_model json_str = Raise (ValueError (to_model_failed ++ msg))))
  /\ (forall model,
        (exists text, from_model model = Return text)
        \/ (exists msg, from_model model = Raise (ValueError (from_model_failed ++ msg))))
  /\ to_model "{" = Raise (ValueError (to_model_failed ++ "Expecting value"))
  /\ to_model (dq "{'data': {'x': 1}}")
     = Raise (ValueError (to_model_failed ++ missing_envelope_field))
  /\ to_model (dq "{'message_type': 'NotAType', 'data': {'x': 1}}")
     = Raise (ValueError (to_model_failed ++ unsupported_message_type ++ "NotAType"))
  /\ to_model (dq "{'message_type': 'ControlPoint', 'data': {'x': 1}}")
     = Raise (ValueError
                (to_model_failed
                 ++ exn_str (ValidationError "ControlPoint" [mk_error [LKey "y"] "missing"]))).
Proof.
  split; [|split; [|repeat split; reflexivity]].
  - intros s. apply try_except_value_error.
  - intros m. apply try_except_value_error.
Qed.

End Transcoder.



(** C3 as stated fails: the text with the empty [data] is reported as
    an envelope that lacks a field, which is another message than the
    one for an unregistered name. *)
Lemma empty_data_is_reported_missing :
  @to_model common_only not_a_type_text
  = Raise (ValueError (to_model_failed ++ missing_envelope_field))
  /\ (to_model_failed ++ missing_envelope_field)%string
     <> (to_model_failed ++ unsupported_message_type ++ "NotAType")%string.
Proof. split; [reflexivity|discriminate]. Qed.

(** The second part of C3 on a payload with one entry. *)
Lemma unknown_type_with_empty_data_witness :
  @to_model common_only (dq "{'message_type':'NotAType','data':{'a':1}}")
  = Raise (ValueError (to_model_failed ++ unsupported_message_type ++ "NotAType")).
Proof.
  apply (proj2 (@unknown_type_with_empty_data common_only)
           _ [("message_type", PStr "NotAType"); ("data", PDict [("a", PInt 1)])]
           (PDict [("a", PInt 1)])); reflexivity.
Defined.

(** C8 on an envelope that offers a member of the enumeration. *)
Lemma enumeration_entries_never_decode_witness :
  @to_model common_only (dq "{'message_type':'BlockingType','data':{'value':'HARD'}}")
  = Raise (ValueError
             (to_model_failed
              ++ "type object 'BlockingType' has no attribute 'model_validate'")).
Proof.
  apply (proj2 (proj2 (@enumeration_entries_never_decode common_only))
           _ [("message_type", PStr "BlockingType");
              ("data", PDict [("value", PStr "HARD")])]
           "BlockingType" (PDict [("value", PStr "HARD")]));
    first [reflexivity | left; reflexivity].
Defined.

(** ** The registry *)

Lemma dict_get_none {A} (d : list (string * A)) k :
  dict_get d k = None <-> ~ In k (map fst d).
Proof.
  induction d as [|[k' v] d IH]; simpl; [tauto|].
  destruct (String.eqb_spec k k') as [->|Hne].
  - split; [discriminate|]. intros H. exfalso. auto.
  - rewrite IH. split; intros H; [intros [E|E]; [congruence|auto]|auto].
Qed.

(** C2, as amended.  The registry maps each of its fourteen names to its
    class, and [get_model_class] raises nothing: it returns [None]
    exactly for the names that are not among the fourteen. *)
Theorem registry_lookup :
  (get_model_class "Action" = Some Action
   /\ get_model_class "ActionParameter" = Some ActionParameter
   /\ get_model_class "BlockingType" = Some BlockingType
   /\ get_model_class "ControlPoint" = Some ControlPoint
   /\ get_model_class "Corridor" = Some Corridor
   /\ get_model_class "CorridorRefPoint" = Some CorridorRefPoint
   /\ get_model_class "NodePosition" = Some NodePosition
   /\ get_model_class "Trajectory" = Some Trajectory
   /\ get_model_class "OrderMessage" = Some OrderMessage
   /\ get_model_class "Node" = Some Node
   /\ get_model_class "Edge" = Some Edge
   /\ get_model_class "State" = Some State
   /\ get_model_class "InstantActions" = Some InstantActions
   /\ get_model_class "Connection" = Some Connection)
  /\ forall name, get_model_class name = None <-> ~ In name registered_names.
Proof.
  split; [repeat split; reflexivity|].
  intros name. unfold get_model_class. apply dict_get_none.
Qed.

(** C2 as stated fails: two of the message types it lists have no entry
    in the registry. *)
Lemma registry_lacks_factsheet_and_visualization :
  get_model_class "AgvFactsheet" = None /\ get_model_class "Visualization" = None.
Proof. split; reflexivity. Qed.








(** ** The models of common.py *)

Lemma first_match_spec ms v x :
  ActionParameter.first_match ms v = Some x <->
  exists before m after,
    ms = before ++ m :: after
    /\ Forall (fun m' => snd m' v = None) before
    /\ snd m v = Some x.
Proof.
  induction ms as [|[name m] ms IH]; simpl.
  - split; [discriminate|]. intros (b & m & a & H & _). destruct b; discriminate.
  - destruct (m v) as [y|] eqn:E.
    + split.
      * intros [= ->]. exists [], (name, m), ms. repeat split; auto.
      * intros (b & m' & a & H & Hb & Hm). destruct b as [|m0 b].
        -- injection H as <- <-. simpl in Hm. congruence.
        -- injection H as <- _. inversion Hb; subst. simpl in *. congruence.
    + rewrite IH. split.
      * intros (b & m' & a & H & Hb & Hm). exists ((name, m) :: b), m', a.
        subst. repeat split; auto.
      * intros (b & m' & a & H & Hb & Hm). destruct b as [|m0 b].
        -- injection H as <- <-. simpl in Hm. congruence.
        -- injection H as <- ->. inversion Hb; subst. eauto 6.
Qed.

(** C4.  An [ActionParameter] with key ["x"] takes each of [true],
    [3.14], ["left"], [["a","b"]] and [{"k":1}], holds it under the
    member of its shape and writes it back as it came.  The members of
    the union stand in the order list, bool, float, str, dict, and the
    value goes to the first of them that matches. *)
Theorem action_parameter_union :
  accepted_unchanged (PBool true) (ActionParameter.VBool true)
  /\ accepted_unchanged (PFloat (dec 314 (-2))) (ActionParameter.VFloat (dec 314 (-2)))
  /\ accepted_unchanged (PStr "left") (ActionParameter.VStr "left")
  /\ accepted_unchanged (PList [PStr "a"; PStr "b"])
       (ActionParameter.VList [AStr "a"; AStr "b"])
  /\ accepted_unchanged (PDict [("k", PInt 1)]) (ActionParameter.VDict [("k", AInt 1)])
  /\ map (fun m => fst (fst m)) ActionParameter.union_members
     = ["list[any]"; "bool"; "float"; "str"; "dict[str,any]"]
  /\ forall v x,
       ActionParameter.value_validator v = VOk x <->
       exists before m after,
         ActionParameter.union_members = before ++ m :: after
         /\ Forall (fun m' => snd m' v = None) before
         /\ snd m v = Some x.
Proof.
  repeat split; try reflexivity.
  - intros H. apply first_match_spec. unfold ActionParameter.value_validator in H.
    destruct (ActionParameter.first_match _ v); [congruence|discriminate].
  - intros H. apply first_match_spec in H. unfold ActionParameter.value_validator.
    rewrite H. reflexivity.
Qed.

(** The series of Machin for [2 atan (1/3) + atan (1/7)], summed to its
    thirteenth term, bounds [PI] from above. *)
Lemma PI_upper : (PI < 314159265359 / 100000000000)%R.
Proof.
  pose proof (PI_2_3_7_ineq 6) as [_ H].
  cbv [Nat.mul Nat.add sum_f_R0 tg_alt PI_2_3_7_tg Ratan_seq] in H.
  repeat rewrite S_INR in H. simpl INR in H.
  lra.
Qed.

(** C5 as stated fails: the upper bound of [theta] in the code,
    3.14159265359, is greater than pi and is accepted. *)
Lemma theta_bound_exceeds_pi :
  (PI < float_to_R NodePosition.theta_le)%R
  /\ NodePosition.model_validate
       (position_input (dec 0 0) (dec 0 0) "map" [("theta", PFloat NodePosition.theta_le)])
     = Return (position (dec 0 0) (dec 0 0) "map" (Some NodePosition.theta_le) None).
Proof.
  split; [|reflexivity].
  unfold float_to_R.
  let f := eval vm_compute in NodePosition.theta_le in change NodePosition.theta_le with f.
  cbv beta iota.
  match goal with
  | |- context [IZR ?z] => let z' := eval vm_compute in z in change z with z'
  end.
  pose proof PI_upper. simpl powerRZ. lra.
Qed.

Lemma is_err_vap {A B} (f : vresult (A -> B)) a : is_err (f <*> a) = is_err f || is_err a.
Proof. destruct f, a; reflexivity. Qed.

Lemma is_err_at_loc {A} i (r : vresult A) : is_err (at_loc i r) = is_err r.
Proof. destruct r; reflexivity. Qed.

Lemma is_err_vbind {A B} (r : vresult A) (k : A -> vresult B) :
  is_err r = true -> is_err (vbind r k) = true.
Proof. destruct r; intros H; [discriminate|reflexivity]. Qed.

Lemma raise_errors_err {A} title (r : vresult A) :
  is_err r = true -> exists errors, raise_errors title r = Raise (ValidationError title errors).
Proof. destruct r as [a|errs]; intros H; [discriminate|]. exists errs. reflexivity. Qed.

Lemma float_compare_antisym a b :
  float_compare b a = option_map CompOpp (float_compare a b).
Proof.
  destruct a as [n1 ds1 e1| | |], b as [n2 ds2 e2| | |]; try reflexivity.
  simpl. unfold fin_compare. rewrite (Z.min_comm e2 e1). now rewrite Z.compare_antisym.
Qed.

Lemma float_lt_not_le a b : float_lt a b = true -> float_le b a = false.
Proof.
  unfold float_lt, float_le. rewrite (float_compare_antisym a b).
  destruct (float_compare a b) as [[| |]|]; simpl; congruence.
Qed.

Lemma theta_rejected theta :
  float_lt theta NodePosition.theta_ge = true \/ float_lt NodePosition.theta_le theta = true ->
  is_err (NodePosition.theta_validator (PFloat theta)) = true.
Proof.
  unfold NodePosition.theta_validator. cbn [float_validator vbind]. unfold check_le, check_ge.
  intros [H|H]; apply float_lt_not_le in H.
  - destruct (float_le theta NodePosition.theta_le); cbn [vbind]; [|reflexivity].
    rewrite H. reflexivity.
  - rewrite H. reflexivity.
Qed.

Lemma NodePosition_field_error d :
  is_err (with_default "theta" None (optional NodePosition.theta_validator) d) = true
  \/ is_err (with_default "allowedDeviationXY" None
               (optional NodePosition.allowedDeviationXY_validator) d) = true ->
  exists errors,
    NodePosition.model_validate (PDict d) = Raise (ValidationError "NodePosition" errors).
Proof.
  intros H. apply raise_errors_err. unfold NodePosition.validate, model_validator,
    NodePosition.fields. rewrite !is_err_vap.
  destruct H as [-> | ->]; rewrite ?orb_true_r; reflexivity.
Qed.

(** C5, as amended.  Whatever else the input holds, a [theta] below
    -3.14159265359 or above 3.14159265359 is rejected, and so is a
    negative [allowedDeviationXY]; at the bounds themselves, at the
    floats nearest to pi and -pi, and at [allowedDeviationXY = 0] the
    position is built. *)
Theorem node_position_range :
  (forall d theta,
     dict_get d "theta" = Some (PFloat theta) ->
     float_lt theta NodePosition.theta_ge = true
     \/ float_lt NodePosition.theta_le theta = true ->
     exists errors,
       NodePosition.model_validate (PDict d) = Raise (ValidationError "NodePosition" errors))
  /\ (forall d a,
        dict_get d "allowedDeviationXY" = Some (PFloat a) ->
        float_lt a (dec 0 0) = true ->
        exists errors,
          NodePosition.model_validate (PDict d)
          = Raise (ValidationError "NodePosition" errors))
  /\ (forall x y mapId theta,
        theta = NodePosition.theta_le \/ theta = NodePosition.theta_ge
        \/ theta = dec 3141592653589793 (-15) \/ theta = dec (-3141592653589793) (-15) ->
        NodePosition.model_validate
          (position_input x y mapId
             [("theta", PFloat theta); ("allowedDeviationXY", PFloat (dec 0 0))])
        = Return (position x y mapId (Some theta) (Some (dec 0 0)))).
Proof.
  repeat split.
  - intros d theta Hd Hout. apply NodePosition_field_error. left.
    unfold with_default. rewrite Hd, is_err_at_loc. cbn [optional].
    apply is_err_vbind. apply theta_rejected. assumption.
  - intros d a Hd Hneg. apply NodePosition_field_error. right.
    unfold with_default. rewrite Hd, is_err_at_loc. cbn [optional].
    apply is_err_vbind. unfold NodePosition.allowedDeviationXY_validator.
    cbn [float_validator vbind]. unfold check_ge, NodePosition.deviation_ge.
    rewrite (float_lt_not_le _ _ Hneg). reflexivity.
  - intros x y mapId theta [->|[->|[->| ->]]]; reflexivity.
Qed.

(** C5, as amended, at [theta = 4], at a deviation of [-0.1] and at the
    upper bound. *)
Lemma node_position_range_witness :
  (exists errors,
     NodePosition.model_validate
       (position_input (dec 0 0) (dec 0 0) "map" [("theta", PFloat (dec 4 0))])
     = Raise (ValidationError "NodePosition" errors))
  /\ (exists errors,
        NodePosition.model_validate
          (position_input (dec 0 0) (dec 0 0) "map"
             [("allowedDeviationXY", PFloat (dec (-1) (-1)))])
        = Raise (ValidationError "NodePosition" errors))
  /\ NodePosition.model_validate
       (position_input (dec 1 0) (dec 2 0) "map"
          [("theta", PFloat NodePosition.theta_le);
           ("allowedDeviationXY", PFloat (dec 0 0))])
     = Return (position (dec 1 0) (dec 2 0) "map" (Some NodePosition.theta_le)
                 (Some (dec 0 0))).
Proof.
  split; [|split].
  - apply (proj1 node_position_range _ (dec 4 0)); [reflexivity|right; reflexivity].
  - apply (proj1 (proj2 node_position_range) _ (dec (-1) (-1))); reflexivity.
  - apply (proj2 (proj2 node_position_range)). left. reflexivity.
Defined.

(** C6.  What the code does where the claim, and the description of the
    field, promise the default 1.0: a [ControlPoint] built without
    [weight] holds no weight at all. *)
Theorem control_point_weight_absent :
  forall x y,
    ControlPoint.model_validate (PDict [("x", PFloat x); ("y", PFloat y)])
    = Return {| ControlPoint.x := x; ControlPoint.y := y; ControlPoint.weight := None |}.
Proof. reflexivity. Qed.

Lemma ControlPoint_validate_input c :
  ControlPoint.constraints c = true ->
  ControlPoint.validate (ControlPoint.to_input c) = VOk c.
Proof.
  destruct c as [x y [w|]]; unfold ControlPoint.constraints; cbn [ControlPoint.weight opt_holds];
    intros H; [|reflexivity].
  unfold ControlPoint.validate, ControlPoint.to_input, ControlPoint.fields.
  cbn [ControlPoint.x ControlPoint.y ControlPoint.weight dump_option]. get_fields.
  cbn [optional]. unfold ControlPoint.weight_validator, check_ge.
  cbn [float_validator vbind]. rewrite H. reflexivity.
Qed.

(** C9.  A [Trajectory] is built from every degree from 1 on, every list
    of floats as knot vector and every list of control points with
    admissible weights; no relation between the lengths of the two lists
    and the degree is looked at. *)
Theorem trajectory_lengths_unchecked :
  forall degree knotVector controlPoints,
    1 <= degree ->
    forallb ControlPoint.constraints controlPoints = true ->
    Trajectory.model_validate (trajectory_input degree knotVector controlPoints)
    = Return {| Trajectory.degree := degree;
                Trajectory.knotVector := knotVector;
                Trajectory.controlPoints := controlPoints |}.
Proof.
  intros degree kv cps Hd Hc.
  unfold Trajectory.model_validate, Trajectory.validate, trajectory_input, Trajectory.fields.
  get_fields. unfold list_validator.
  assert (list_items float_validator 0 (map PFloat kv) = VOk kv) as ->.
  { apply list_items_dump. apply Forall_forall. reflexivity. }
  assert (list_items ControlPoint.validate 0 (map ControlPoint.to_input cps) = VOk cps) as ->.
  { apply list_items_dump. apply Forall_forall. intros c Hin.
    apply ControlPoint_validate_input. eapply (proj1 (forallb_forall _ _)); eassumption. }
  unfold Trajectory.degree_validator, int_check_ge. cbn [int_validator vbind].
  rewrite (proj2 (Z.leb_le 1 degree) Hd). reflexivity.
Qed.

(** C9 on a trajectory of degree 3 with one knot and two control
    points, where the relation of the curve asks for six knots. *)
Lemma trajectory_lengths_unchecked_witness :
  Z.of_nat (length [dec 0 0]) <> Z.of_nat (length [sample_point; sample_point]) + 3 + 1
  /\ Trajectory.model_validate (trajectory_input 3 [dec 0 0] [sample_point; sample_point])
     = Return {| Trajectory.degree := 3;
                 Trajectory.knotVector := [dec 0 0];
                 Trajectory.controlPoints := [sample_point; sample_point] |}.
Proof.
  split; [simpl; lia|].
  apply (trajectory_lengths_unchecked 3 [dec 0 0] [sample_point; sample_point]);
    [lia|reflexivity].
Defined.

(** * Further properties of the two modules *)

(** ** More on [to_model] *)

Section Decoder.
Context {EM : ExternalModels}.

(** [to_model] on a text that holds a dict, with the two lookups
    named. *)
Lemma to_model_of_dict s d :
  json_loads s = Return (PDict d) ->
  to_model s =
  try_except
    (if negb (truthy (envelope_field d "message_type"))
        || negb (truthy (envelope_field d "data")) then
       Raise (ValueError missing_envelope_field)
     else
       model_class <- registry_get (envelope_field d "message_type") ;;
       match model_class with
       | None =>
           Raise (ValueError
                    (unsupported_message_type
                     ++ py_str (envelope_field d "message_type"))%string)
       | Some cls => model_validate cls (envelope_field d "data")
       end)
    (fun e => Raise (ValueError (to_model_failed ++ exn_str e)%string)).
Proof. intros H. unfold to_model. rewrite H. reflexivity. Qed.

(** X1.  A text that is no JSON at all, and a JSON text whose value is
    no object, are both refused: the first with the message of the
    scanner, the second because the value has no method [get]. *)
Theorem to_model_rejects_non_object :
  (forall s e, json_loads s = Raise e ->
     to_model s = Raise (ValueError (to_model_failed ++ exn_str e)))
  /\ (forall s v, json_loads s = Return v -> is_dict v = false ->
        to_model s
        = Raise (ValueError
                   (to_model_failed ++ "'" ++ type_name v
                    ++ "' object has no attribute 'get'"))).
Proof.
  split.
  - intros s e H. unfold to_model. rewrite H. reflexivity.
  - intros s v H Hd. unfold to_model. rewrite H.
    destruct v; try discriminate; reflexivity.
Qed.

(** X2.  An envelope in which [message_type] or [data] is absent,
    [null], empty, zero or [false] is refused with the
    missing-envelope-field message, whatever the other key holds. *)
Theorem to_model_missing_field s d :
  json_loads s = Return (PDict d) ->
  truthy (envelope_field d "message_type") = false
  \/ truthy (envelope_field d "data") = false ->
  to_model s = Raise (ValueError (to_model_failed ++ missing_envelope_field)).
Proof.
  intros Hl H. rewrite (to_model_of_dict s d Hl).
  destruct H as [-> | ->]; rewrite ?orb_true_r; reflexivity.
Qed.

(** X3.  With a [data] that is not empty, a [message_type] that is a
    string outside the registry, or a number, is refused with the
    unsupported-message-type message, which ends in the text of the
    value. *)
Theorem to_model_unregistered_type s d message_type :
  json_loads s = Return (PDict d) ->
  dict_get d "message_type" = Some message_type ->
  truthy message_type = true ->
  truthy (envelope_field d "data") = true ->
  (exists name, message_type = PStr name /\ get_model_class name = None)
  \/ is_number message_type = true ->
  to_model s
  = Raise (ValueError
             (to_model_failed ++ unsupported_message_type ++ py_str message_type)).
Proof.
  intros Hl Hm Ht Hd Hk. rewrite (to_model_of_dict s d Hl).
  assert (envelope_field d "message_type" = message_type) as ->
    by (unfold envelope_field; now rewrite Hm).
  rewrite Ht, Hd. cbn [negb orb].
  destruct Hk as [(name & -> & Hn)|Hk].
  - cbn [registry_get bind]. unfold get_model_class in Hn. rewrite Hn. reflexivity.
  - destruct message_type; try discriminate; reflexivity.
Qed.

(** X4.  A [message_type] that is a list or a dict, not empty, cannot
    be looked up in the registry at all: the failure of the lookup is
    what the caller is told. *)
Theorem to_model_unhashable_type s d message_type :
  json_loads s = Return (PDict d) ->
  dict_get d "message_type" = Some message_type ->
  truthy message_type = true ->
  truthy (envelope_field d "data") = true ->
  is_container message_type = true ->
  to_model s
  = Raise (ValueError
             (to_model_failed ++ "unhashable type: '" ++ type_name message_type ++ "'")).
Proof.
  intros Hl Hm Ht Hd Hk. rewrite (to_model_of_dict s d Hl).
  assert (envelope_field d "message_type" = message_type) as ->
    by (unfold envelope_field; now rewrite Hm).
  rewrite Ht, Hd. cbn [negb orb].
  destruct message_type; try discriminate; reflexivity.
Qed.

Lemma to_model_inv s m :
  to_model s = Return m ->
  exists d name cls data,
    json_loads s = Return (PDict d)
    /\ dict_get d "message_type" = Some (PStr name)
    /\ dict_get d "data" = Some data
    /\ truthy data = true
    /\ get_model_class name = Some cls
    /\ model_validate cls data = Return m.
Proof.
  intros H. destruct (json_loads s) as [v|e] eqn:Hl;
    [|unfold to_model in H; rewrite Hl in H; discriminate].
  destruct v as [| | | | | |d];
    try (unfold to_model in H; rewrite Hl in H; discriminate).
  rewrite (to_model_of_dict s d Hl) in H. unfold envelope_field in H.
  destruct (dict_get d "message_type") as [mt|] eqn:Hm; [|discriminate].
  destruct (dict_get d "data") as [data|] eqn:Hdata;
    [|rewrite orb_true_r in H; discriminate].
  destruct (truthy mt) eqn:Htm; [|discriminate].
  destruct (truthy data) eqn:Htd; [|discriminate].
  cbn [negb orb] in H.
  destruct mt as [| | | |name| |]; try discriminate.
  cbn [registry_get bind] in H.
  destruct (dict_get MODEL_TYPE_MAP name) as [cls|] eqn:Hc; [|discriminate].
  exists d, name, cls, data. repeat split; try assumption.
  destruct (model_validate cls data); [|discriminate]. exact H.
Qed.

(** X5.  [to_model] returns an object exactly when the text is a JSON
    object whose [message_type] is a name of the registry, whose [data]
    is not empty, and the class registered under the name builds the
    object from [data]. *)
Theorem to_model_returns_iff s m :
  to_model s = Return m <->
  exists d name cls data,
    json_loads s = Return (PDict d)
    /\ dict_get d "message_type" = Some (PStr name)
    /\ dict_get d "data" = Some data
    /\ truthy data = true
    /\ get_model_class name = Some cls
    /\ model_validate cls data = Return m.
Proof.
  split; [apply to_model_inv|].
  intros (d & name & cls & data & Hl & Hm & Hd & Ht & Hc & Hv).
  rewrite (to_model_of_dict s d Hl). unfold envelope_field. rewrite Hm, Hd, Ht.
  assert (truthy (PStr name) = true) as ->.
  { destruct name; [discriminate|reflexivity]. }
  cbn [negb orb registry_get bind]. unfold get_model_class in Hc.
  rewrite Hc, Hv. reflexivity.
Qed.

End Decoder.

(** ** What validation lets through *)

Lemma vap_ok {A B} (f : vresult (A -> B)) (a : vresult A) y :
  f <*> a = VOk y -> exists g x, f = VOk g /\ a = VOk x /\ y = g x.
Proof. destruct f as [g|], a as [x|]; intros [= <-]. eauto. Qed.

Lemma vbind_ok {A B} (r : vresult A) (k : A -> vresult B) y :
  vbind r k = VOk y -> exists x, r = VOk x /\ k x = VOk y.
Proof. destruct r as [x|]; intros H; [eauto|discriminate]. Qed.

Lemma at_loc_ok {A} i (r : vresult A) a : at_loc i r = VOk a -> r = VOk a.
Proof. destruct r; intros [= <-]. reflexivity. Qed.

Lemma check_ge_ok bound f g : check_ge bound f = VOk g -> g = f /\ float_le bound f = true.
Proof. unfold check_ge. destruct (float_le bound f); intros [= <-]. auto. Qed.

Lemma check_le_ok bound f g : check_le bound f = VOk g -> g = f /\ float_le f bound = true.
Proof. unfold check_le. destruct (float_le f bound); intros [= <-]. auto. Qed.

Lemma required_ok {A} name (val : pyval -> vresult A) d a :
  required name val d = VOk a -> exists v, dict_get d name = Some v /\ val v = VOk a.
Proof.
  unfold required. destruct (dict_get d name) as [v|]; [|discriminate].
  intros H. apply at_loc_ok in H. eauto.
Qed.

Lemma with_default_ok {A} name (default : A) (val : pyval -> vresult A) d a :
  with_default name default val d = VOk a ->
  (dict_get d name = None /\ a = default)
  \/ exists v, dict_get d name = Some v /\ val v = VOk a.
Proof.
  unfold with_default. destruct (dict_get d name) as [v|].
  - intros H. apply at_loc_ok in H. eauto.
  - intros [= <-]. auto.
Qed.

Lemma optional_ok {A} (val : pyval -> vresult A) v o :
  optional val v = VOk o -> forall a, o = Some a -> val v = VOk a.
Proof.
  destruct v; simpl; intros H a ->; try discriminate;
    apply vbind_ok in H; destruct H as (x & Hx & [= ->]); exact Hx.
Qed.

(** A field [Optional[T] = Field(None, ...)] holds [None] or a value
    its validator has let through. *)
Lemma optional_field_ok {A} name (val : pyval -> vresult A) d o :
  with_default name None (optional val) d = VOk o ->
  forall a, o = Some a -> exists v, val v = VOk a.
Proof.
  intros H a ->. apply with_default_ok in H. destruct H as [[_ [=]]|(v & _ & H)].
  exists v. eapply optional_ok; eauto.
Qed.

Lemma list_items_ok {A} (val : pyval -> vresult A) l :
  forall i xs, list_items val i l = VOk xs ->
    Forall (fun x => exists v, val v = VOk x) xs.
Proof.
  induction l as [|v l IH]; intros i xs; cbn [list_items].
  - intros [= <-]. constructor.
  - intros H. apply vap_ok in H. destruct H as (g & tl & Hg & Htl & ->).
    apply vap_ok in Hg. destruct Hg as (g0 & x & [= <-] & Hx & ->).
    apply at_loc_ok in Hx. constructor; eauto.
Qed.

Lemma model_validator_ok {A} (fields : pydict -> vresult A) v a :
  model_validator fields v = VOk a -> exists d, v = PDict d /\ fields d = VOk a.
Proof. destruct v; try discriminate. eauto. Qed.

(** Take a successful run of the fields of a model apart. *)
Ltac fields_ok H :=
  repeat match type of H with
         | _ <*> _ = VOk _ =>
             let g := fresh "g" in
             let x := fresh "x" in
             let Hx := fresh "Hx" in
             apply vap_ok in H; destruct H as (g & x & H & Hx & ->)
         | VOk _ = VOk _ => injection H as <-
         end.

Lemma weight_validator_ok v f :
  ControlPoint.weight_validator v = VOk f -> float_le ControlPoint.weight_ge f = true.
Proof.
  intros H. apply vbind_ok in H. destruct H as (x & _ & H).
  apply check_ge_ok in H. destruct H as [-> H]. exact H.
Qed.

Lemma ControlPoint_validate_constraints v c :
  ControlPoint.validate v = VOk c -> ControlPoint.constraints c = true.
Proof.
  intros H. apply model_validator_ok in H. destruct H as (d & -> & H).
  unfold ControlPoint.fields in H. fields_ok H.
  unfold ControlPoint.constraints. cbn [ControlPoint.weight].
  destruct x as [w|]; [|reflexivity]. cbn [opt_holds].
  destruct (optional_field_ok _ _ _ _ Hx w eq_refl) as (v & Hv).
  eapply weight_validator_ok; eassumption.
Qed.

Lemma width_validator_ok v f :
  Corridor.width_validator v = VOk f -> float_le (dec 0 0) f = true.
Proof.
  intros H. apply vbind_ok in H. destruct H as (x & _ & H).
  apply check_ge_ok in H. destruct H as [-> H]. exact H.
Qed.

Lemma Corridor_validate_constraints v c :
  Corridor.validate v = VOk c -> Corridor.constraints c = true.
Proof.
  intros H. apply model_validator_ok in H. destruct H as (d & -> & H).
  unfold Corridor.fields in H. fields_ok H.
  unfold Corridor.constraints. cbn [Corridor.leftWidth Corridor.rightWidth].
  apply required_ok in Hx0, Hx1.
  destruct Hx0 as (v0 & _ & H0), Hx1 as (v1 & _ & H1).
  rewrite (width_validator_ok _ _ H0), (width_validator_ok _ _ H1). reflexivity.
Qed.

Lemma theta_validator_ok v f :
  NodePosition.theta_validator v = VOk f ->
  float_le f NodePosition.theta_le && float_le NodePosition.theta_ge f = true.
Proof.
  intros H. apply vbind_ok in H. destruct H as (x & H & H2).
  apply vbind_ok in H. destruct H as (x0 & _ & H1).
  apply check_le_ok in H1. destruct H1 as [-> H1].
  apply check_ge_ok in H2. destruct H2 as [-> H2]. now rewrite H1, H2.
Qed.

Lemma allowedDeviationXY_validator_ok v f :
  NodePosition.allowedDeviationXY_validator v = VOk f ->
  float_le NodePosition.deviation_ge f = true.
Proof.
  intros H. apply vbind_ok in H. destruct H as (x & _ & H).
  apply check_ge_ok in H. destruct H as [-> H]. exact H.
Qed.

Lemma allowedDeviationTheta_validator_ok v f :
  NodePosition.allowedDeviationTheta_validator v = VOk f ->
  float_le f NodePosition.deviationTheta_le && float_le NodePosition.deviation_ge f = true.
Proof.
  intros H. apply vbind_ok in H. destruct H as (x & H & H2).
  apply vbind_ok in H. destruct H as (x0 & _ & H1).
  apply check_le_ok in H1. destruct H1 as [-> H1].
  apply check_ge_ok in H2. destruct H2 as [-> H2]. now rewrite H1, H2.
Qed.

Lemma NodePosition_validate_constraints v n :
  NodePosition.validate v = VOk n -> NodePosition.constraints n = true.
Proof.
  intros H. apply model_validator_ok in H. destruct H as (d & -> & H).
  unfold NodePosition.fields in H. fields_ok H.
  unfold NodePosition.constraints.
  cbn [NodePosition.theta NodePosition.allowedDeviationXY NodePosition.allowedDeviationTheta].
  repeat match goal with
         | |- context [opt_holds _ ?o] =>
             is_var o; destruct o; cbn [opt_holds]
         end;
    repeat match goal with
           | H : with_default _ None (optional _) _ = VOk (Some ?f) |- _ =>
               destruct (optional_field_ok _ _ _ _ H f eq_refl) as (? & ?); clear H
           end;
    repeat match goal with
           | H : NodePosition.theta_validator _ = VOk _ |- _ =>
               apply theta_validator_ok in H; rewrite H
           | H : NodePosition.allowedDeviationXY_validator _ = VOk _ |- _ =>
               apply allowedDeviationXY_validator_ok in H; rewrite H
           | H : NodePosition.allowedDeviationTheta_validator _ = VOk _ |- _ =>
               apply allowedDeviationTheta_validator_ok in H; rewrite H
           end;
    reflexivity.
Qed.

Lemma Trajectory_validate_constraints v tr :
  Trajectory.validate v = VOk tr -> Trajectory.constraints tr = true.
Proof.
  intros H. apply model_validator_ok in H. destruct H as (d & -> & H).
  unfold Trajectory.fields in H. fields_ok H.
  unfold Trajectory.constraints. cbn [Trajectory.degree Trajectory.controlPoints].
  apply required_ok in Hx1. destruct Hx1 as (v1 & _ & H1).
  apply vbind_ok in H1. destruct H1 as (z & _ & H1).
  unfold int_check_ge in H1. destruct (1 <=? z) eqn:Hz; [|discriminate].
  injection H1 as <-. rewrite Hz. cbn [andb].
  apply required_ok in Hx. destruct Hx as (v & _ & H).
  destruct v; try discriminate. cbn [list_validator] in H.
  apply list_items_ok in H. apply forallb_forall. intros c Hin.
  rewrite Forall_forall in H. destruct (H c Hin) as (vc & Hvc).
  eapply ControlPoint_validate_constraints; eassumption.
Qed.

Lemma raise_errors_ok {A} title (r : vresult A) a :
  raise_errors title r = Return a -> r = VOk a.
Proof. destruct r; intros [= <-]. reflexivity. Qed.

Lemma float_le_not_below bound f : float_le bound f = true -> not_below bound f = true.
Proof.
  intros H. unfold not_below. destruct (float_lt f bound) eqn:E; [|reflexivity].
  apply float_lt_not_le in E. congruence.
Qed.

Lemma float_le_not_above bound f : float_le f bound = true -> not_above bound f = true.
Proof.
  intros H. unfold not_above. destruct (float_lt bound f) eqn:E; [|reflexivity].
  apply float_lt_not_le in E. congruence.
Qed.

Lemma opt_holds_impl {A} (p q : A -> bool) o :
  (forall a, p a = true -> q a = true) -> opt_holds p o = true -> opt_holds q o = true.
Proof. destruct o; simpl; auto. Qed.

Lemma ControlPoint_constraints_in_bounds c :
  ControlPoint.constraints c = true -> ControlPoint_in_bounds c = true.
Proof. apply opt_holds_impl. apply float_le_not_below. Qed.

Lemma Corridor_constraints_in_bounds c :
  Corridor.constraints c = true -> Corridor_in_bounds c = true.
Proof.
  unfold Corridor.constraints, Corridor_in_bounds. intros H. split_andb.
  rewrite !float_le_not_below by assumption. reflexivity.
Qed.

Lemma NodePosition_constraints_in_bounds n :
  NodePosition.constraints n = true -> NodePosition_in_bounds n = true.
Proof.
  unfold NodePosition.constraints, NodePosition_in_bounds. intros H. split_andb.
  repeat (apply andb_true_intro; split);
    match goal with
    | H : opt_holds _ ?o = true |- opt_holds _ ?o = true =>
        revert H; apply opt_holds_impl; intros f Hf; split_andb;
        rewrite ?float_le_not_below, ?float_le_not_above by assumption; reflexivity
    end.
Qed.

Lemma Trajectory_constraints_in_bounds tr :
  Trajectory.constraints tr = true -> Trajectory_in_bounds tr = true.
Proof.
  unfold Trajectory.constraints, Trajectory_in_bounds. intros H. split_andb.
  apply andb_true_intro. split; [assumption|].
  apply forallb_forall. intros c Hc. apply ControlPoint_constraints_in_bounds.
  eapply (proj1 (forallb_forall _ _)); eassumption.
Qed.

(** X6.  An instance that one of the validating constructors of
    [common.py] returns holds no value outside the bounds its class
    declares: no angle beyond the bounds of [theta], no negative
    deviation, weight or width, no deviation of the angle above its
    bound, no degree below 1, and that for every control point of a
    trajectory. *)
Theorem validated_instances_in_bounds :
  (forall data n, NodePosition.model_validate data = Return n ->
     NodePosition_in_bounds n = true)
  /\ (forall data c, ControlPoint.model_validate data = Return c ->
        ControlPoint_in_bounds c = true)
  /\ (forall data c, Corridor.model_validate data = Return c ->
        Corridor_in_bounds c = true)
  /\ (forall data tr, Trajectory.model_validate data = Return tr ->
        Trajectory_in_bounds tr = true).
Proof.
  repeat split; intros data x H; apply raise_errors_ok in H.
  - apply NodePosition_constraints_in_bounds.
    eapply NodePosition_validate_constraints; eassumption.
  - apply ControlPoint_constraints_in_bounds.
    eapply ControlPoint_validate_constraints; eassumption.
  - apply Corridor_constraints_in_bounds.
    eapply Corridor_validate_constraints; eassumption.
  - apply Trajectory_constraints_in_bounds.
    eapply Trajectory_validate_constraints; eassumption.
Qed.

(** ** What [to_model] returns *)

Lemma registry_name name cls :
  dict_get MODEL_TYPE_MAP name = Some cls -> name = model_class_name cls.
Proof.
  unfold MODEL_TYPE_MAP. cbn [dict_get].
  repeat match goal with
         | |- context [String.eqb name ?k] =>
             destruct (String.eqb_spec name k) as [->|_];
             [intros [= <-]; reflexivity|]
         end.
  discriminate.
Qed.

Section Decoded.
Context {EM : ExternalModels}.

Lemma model_validate_sound cls data m :
  model_validate cls data = Return m ->
  is_model m = true /\ in_bounds m = true.
Proof.
  destruct cls; cbn [model_validate]; try discriminate;
    try (destruct (external_model_validate _ data); intros [= <-]; split; reflexivity).
  - destruct (Action.model_validate data); intros [= <-]. split; reflexivity.
  - destruct (ActionParameter.model_validate data); intros [= <-]. split; reflexivity.
  - destruct (ControlPoint.model_validate data) as [c|] eqn:E; intros [= <-].
    split; [reflexivity|]. apply raise_errors_ok in E.
    apply ControlPoint_constraints_in_bounds.
    eapply ControlPoint_validate_constraints; eassumption.
  - destruct (Corridor.model_validate data) as [c|] eqn:E; intros [= <-].
    split; [reflexivity|]. apply raise_errors_ok in E.
    apply Corridor_constraints_in_bounds.
    eapply Corridor_validate_constraints; eassumption.
  - destruct (NodePosition.model_validate data) as [c|] eqn:E; intros [= <-].
    split; [reflexivity|]. apply raise_errors_ok in E.
    apply NodePosition_constraints_in_bounds.
    eapply NodePosition_validate_constraints; eassumption.
  - destruct (Trajectory.model_validate data) as [c|] eqn:E; intros [= <-].
    split; [reflexivity|]. apply raise_errors_ok in E.
    apply Trajectory_constraints_in_bounds.
    eapply Trajectory_validate_constraints; eassumption.
Qed.

Lemma model_validate_class cls data m :
  external_constructs_own_class ->
  model_validate cls data = Return m -> class_name m = model_class_name cls.
Proof.
  intros Hext.
  destruct cls; cbn [model_validate]; try discriminate;
    try (destruct (external_model_validate _ data) as [x|] eqn:E; intros [= <-];
         cbn [class_name]; rewrite (Hext _ _ _ E); reflexivity);
    match goal with
    | |- bind ?c _ = _ -> _ => destruct c; intros [= <-]; reflexivity
    end.
Qed.

(** X7.  What [to_model] returns is an instance of a model, never a
    member of an enumeration; it holds no value outside the bounds of
    its class, and its class is the one the envelope names, provided
    the classes of the other modules build instances of themselves. *)
Theorem to_model_returns_named_class s m :
  external_constructs_own_class ->
  to_model s = Return m ->
  is_model m = true /\ in_bounds m = true
  /\ exists d,
       json_loads s = Return (PDict d)
       /\ dict_get d "message_type" = Some (PStr (class_name m)).
Proof.
  intros Hext H. apply to_model_inv in H.
  destruct H as (d & name & cls & data & Hl & Hm & Hd & Ht & Hc & Hv).
  destruct (model_validate_sound _ _ _ Hv) as [H1 H2].
  repeat split; try assumption. exists d. split; [assumption|].
  rewrite (model_validate_class _ _ _ Hext Hv), <- (registry_name _ _ Hc). assumption.
Qed.

End Decoded.

(** ** More on [from_model] *)





Section Encoder.
Context {EM : ExternalModels}.


(** X8.  [from_model] refuses an object whose class name is no key of
    the registry.  When it returns, the text is the envelope of the
    class name of the object around what its [model_dump_json] wrote,
    and [json.loads] reads the text back as that envelope. *)
Theorem from_model_returns_envelope :
  (forall e, get_model_class (class_name e) = None ->
     from_model e
     = Raise (ValueError (from_model_failed ++ unsupported_model_type ++ class_name e)))
  /\ (forall e text, from_model e = Return text ->
        exists cls dumped data,
          get_model_class (class_name e) = Some cls
          /\ model_dump_json e = Return dumped
          /\ json_loads dumped = Return data
          /\ text = json_dumps (envelope (class_name e) data)
          /\ json_loads text = Return (envelope (class_name e) data)).
Proof.
  split.
  - intros e H. unfold from_model, dict_mem. unfold get_model_class in H.
    rewrite H. reflexivity.
  - intros e text H. unfold from_model, dict_mem, get_model_class in *.
    destruct (dict_get MODEL_TYPE_MAP (class_name e)) as [cls|]; [|discriminate].
    cbn [negb] in H.
    destruct (model_dump_json e) as [dumped|]; [|discriminate]. cbn [bind] in H.
    destruct (json_loads dumped) as [data|] eqn:Hl; [|discriminate].
    injection H as <-. exists cls, dumped, data.
    split; [reflexivity|split; [reflexivity|split; [assumption|split; [reflexivity|]]]].
    apply json_loads_dumps. unfold envelope. cbn [pyval_wf map fst snd forallb].
    rewrite (json_loads_wf _ _ Hl). reflexivity.
Qed.


End Encoder.

(** ** [create_message] and [to_model] *)

Section Wrapped.
Context {EM : ExternalModels}.


End Wrapped.

(** ** Fields: required, optional, unknown *)

Lemma reports_vap_l {A B} (f : vresult (A -> B)) (a : vresult A) e :
  reports f e -> reports (f <*> a) e.
Proof.
  destruct f as [g|ef], a as [x|ea]; simpl; try tauto. intros H. apply in_or_app. auto.
Qed.

Lemma reports_vap_r {A B} (f : vresult (A -> B)) (a : vresult A) e :
  reports a e -> reports (f <*> a) e.
Proof.
  destruct f as [g|ef], a as [x|ea]; simpl; auto; try tauto.
  intros H. apply in_or_app. auto.
Qed.

Lemma reports_raise {A} title (r : vresult A) e :
  reports r e ->
  exists errors, raise_errors title r = Raise (ValidationError title errors) /\ In e errors.
Proof. destruct r as [a|errors]; simpl; [tauto|]. eauto. Qed.

Lemma reports_missing {A} name (val : pyval -> vresult A) d :
  dict_get d name = None -> reports (required name val d) (mk_error [LKey name] "missing").
Proof. intros H. unfold required. rewrite H. simpl. auto. Qed.

Lemma reports_at_loc {A} i (r : vresult A) e :
  reports r e -> reports (at_loc i r) (mk_error (i :: err_loc e) (err_type e)).
Proof.
  destruct r as [a|errors]; simpl; [tauto|]. intros H.
  apply (in_map (fun d => mk_error (i :: err_loc d) (err_type d))) in H. exact H.
Qed.

Lemma reports_field {A} name (val : pyval -> vresult A) d v ty :
  dict_get d name = Some v -> reports (val v) (mk_error [] ty) ->
  reports (required name val d) (mk_error [LKey name] ty).
Proof.
  intros H Hr. unfold required. rewrite H.
  apply (reports_at_loc (LKey name)) in Hr. exact Hr.
Qed.

Lemma reports_default_field {A} name (default : A) (val : pyval -> vresult A) d v ty :
  dict_get d name = Some v -> reports (val v) (mk_error [] ty) ->
  reports (with_default name default val d) (mk_error [LKey name] ty).
Proof.
  intros H Hr. unfold with_default. rewrite H.
  apply (reports_at_loc (LKey name)) in Hr. exact Hr.
Qed.

(** Find the field that reports the error in the run of the fields. *)
Ltac find_report :=
  first [ assumption
        | apply reports_vap_r; assumption
        | apply reports_vap_l; find_report ].

Section Fields.
Context {EM : ExternalModels}.

Lemma model_validate_reports cls d e :
  match cls with
  | Action => reports (Action.fields d) e
  | ActionParameter => reports (ActionParameter.fields d) e
  | ControlPoint => reports (ControlPoint.fields d) e
  | Corridor => reports (Corridor.fields d) e
  | NodePosition => reports (NodePosition.fields d) e
  | Trajectory => reports (Trajectory.fields d) e
  | _ => False
  end ->
  exists errors,
    model_validate cls (PDict d) = Raise (ValidationError (model_class_name cls) errors)
    /\ In e errors.
Proof.
  destruct cls; try tauto; intros H; cbn [model_validate model_class_name];
    unfold Action.model_validate, ActionParameter.model_validate,
      ControlPoint.model_validate, Corridor.model_validate,
      NodePosition.model_validate, Trajectory.model_validate,
      Action.validate, ActionParameter.validate, ControlPoint.validate,
      Corridor.validate, NodePosition.validate, Trajectory.validate, model_validator;
    match goal with
    | |- context [raise_errors ?t ?r] =>
        destruct (reports_raise t r e H) as (errors & Hr & Hin)
    end;
    rewrite Hr; (exists errors; split; [reflexivity|assumption]).
Qed.

(** X11.  An input that lacks a required field of its class is
    refused, and the report names the field as missing, whatever the
    input holds besides. *)
Theorem required_field_missing cls d name :
  In name (required_names cls) -> dict_get d name = None ->
  exists errors,
    model_validate cls (PDict d) = Raise (ValidationError (model_class_name cls) errors)
    /\ In (mk_error [LKey name] "missing") errors.
Proof.
  intros Hin Hd. apply model_validate_reports.
  destruct cls; cbn [required_names] in Hin; try contradiction;
    repeat (destruct Hin as [<-|Hin]; [|try contradiction]);
    match goal with
    | |- reports _ (mk_error [LKey ?n] _) =>
        pose proof (fun A (val : pyval -> vresult A) => reports_missing n val d Hd) as Hm
    end;
    unfold Action.fields, ActionParameter.fields, ControlPoint.fields, Corridor.fields,
      NodePosition.fields, Trajectory.fields;
    repeat first [ apply reports_vap_r; apply Hm | apply reports_vap_l ].
Qed.

Ltac unfold_models :=
  cbn [model_validate];
  unfold Action.model_validate, ActionParameter.model_validate,
    ControlPoint.model_validate, Corridor.model_validate,
    NodePosition.model_validate, Trajectory.model_validate,
    Action.validate, ActionParameter.validate, ControlPoint.validate,
    Corridor.validate, NodePosition.validate, Trajectory.validate, model_validator,
    Action.fields, ActionParameter.fields, ControlPoint.fields, Corridor.fields,
    NodePosition.fields, Trajectory.fields, required, with_default.

(** X12.  The constructors of the six models look at the keys of
    their fields only: two inputs that agree on those keys are treated
    alike, so a key that is no field is passed over in silence. *)
Theorem unknown_keys_ignored cls d d' :
  is_common_model cls = true ->
  (forall k, In k (field_names cls) -> dict_get d k = dict_get d' k) ->
  model_validate cls (PDict d) = model_validate cls (PDict d').
Proof.
  intros Hc H. destruct cls; try discriminate; cbn [field_names] in H; unfold_models;
    repeat match goal with
           | |- context [dict_get d ?k] => rewrite (H k) by (cbn [In]; tauto)
           end;
    reflexivity.
Qed.

(** X13.  For a field declared with the default [None], an explicit
    [null] in the input and the absence of the key give the same
    result. *)
Theorem null_is_absent cls d d' name :
  In name (optional_names cls) ->
  dict_get d name = None -> dict_get d' name = Some PNone ->
  (forall k, k <> name -> dict_get d k = dict_get d' k) ->
  model_validate cls (PDict d) = model_validate cls (PDict d').
Proof.
  intros Hin Hd Hd' H.
  destruct cls; cbn [optional_names] in Hin; try contradiction;
    repeat (destruct Hin as [<-|Hin]; [|try contradiction]);
    unfold_models;
    repeat match goal with
           | |- context [dict_get d ?k] =>
               first [ rewrite (H k) by discriminate | rewrite Hd ]
           end;
    rewrite Hd'; reflexivity.
Qed.

End Fields.

(** ** The classes of common.py, field by field *)

Lemma enum_validator_ok {A} (members : list (string * A)) v a :
  enum_validator members v = VOk a -> exists s, v = PStr s /\ dict_get members s = Some a.
Proof.
  destruct v as [| | | |s| |]; try discriminate. simpl.
  destruct (dict_get members s) as [x|] eqn:E; intros [= <-]. eauto.
Qed.

Lemma dict_get_in {A} (d : list (string * A)) k a :
  dict_get d k = Some a -> In (k, a) d.
Proof.
  induction d as [|[k' v] d IH]; simpl; [discriminate|].
  destruct (String.eqb_spec k k') as [->|_]; [intros [= ->]; auto|auto].
Qed.

(** X14.  The two enumerations take the values of their members, in
    capitals as declared, and nothing else; an [Action] whose
    [blockingType] is any other value is refused at that field. *)
Theorem enumerations_take_member_values :
  (forall v b, BlockingType.validate v = VOk b <-> v = PStr (BlockingType.value b))
  /\ (forall v c,
        CorridorRefPoint.validate v = VOk c <-> v = PStr (CorridorRefPoint.value c))
  /\ (forall d v,
        dict_get d "blockingType" = Some v ->
        (forall b, v <> PStr (BlockingType.value b)) ->
        exists errors,
          Action.model_validate (PDict d) = Raise (ValidationError "Action" errors)
          /\ In (mk_error [LKey "blockingType"] "enum") errors).
Proof.
  assert (forall v b, BlockingType.validate v = VOk b <-> v = PStr (BlockingType.value b))
    as HB.
  { intros v b. split.
    - intros H. apply enum_validator_ok in H. destruct H as (s & -> & H).
      apply dict_get_in in H. unfold BlockingType.members in H.
      repeat (destruct H as [[= <- <-]|H]; [reflexivity|]). destruct H.
    - intros ->. destruct b; reflexivity. }
  split; [exact HB|split].
  - intros v c. split.
    + intros H. apply enum_validator_ok in H. destruct H as (s & -> & H).
      apply dict_get_in in H. unfold CorridorRefPoint.members in H.
      repeat (destruct H as [[= <- <-]|H]; [reflexivity|]). destruct H.
    + intros ->. destruct c; reflexivity.
  - intros d v Hd Hv. apply reports_raise.
    assert (reports (BlockingType.validate v) (mk_error [] "enum")) as Hr.
    { destruct (BlockingType.validate v) as [b|errors] eqn:E.
      - apply HB in E. destruct (Hv b E).
      - unfold BlockingType.validate, enum_validator in E.
        destruct v as [| | | |s| |]; try (injection E as <-; simpl; auto).
        destruct (dict_get BlockingType.members s); [discriminate|].
        injection E as <-. simpl. auto. }
    pose proof (reports_field "blockingType" BlockingType.validate d v "enum" Hd Hr).
    unfold Action.validate, model_validator, Action.fields. find_report.
Qed.

Lemma reports_vbind {A B} (r : vresult A) (k : A -> vresult B) e :
  reports r e -> reports (vbind r k) e.
Proof. destruct r; simpl; tauto. Qed.

Lemma reports_below v f bound :
  float_validator v = VOk f -> float_lt f bound = true ->
  reports (vbind (float_validator v) (check_ge bound)) (mk_error [] "greater_than_equal").
Proof.
  intros -> H. cbn [vbind]. unfold check_ge. rewrite (float_lt_not_le _ _ H).
  simpl. auto.
Qed.

(** X15.  A [Corridor] with a negative width is refused at that
    field, whatever the input holds besides; with widths from zero on
    it is built, with or without a reference point. *)
Theorem Corridor_width_bounds :
  (forall d name w,
     In name ["leftWidth"; "rightWidth"] ->
     dict_get d name = Some (PFloat w) -> float_lt w (dec 0 0) = true ->
     exists errors,
       Corridor.model_validate (PDict d) = Raise (ValidationError "Corridor" errors)
       /\ In (mk_error [LKey name] "greater_than_equal") errors)
  /\ (forall l r ref,
        float_le (dec 0 0) l = true -> float_le (dec 0 0) r = true ->
        Corridor.model_validate
          (PDict [("leftWidth", PFloat l); ("rightWidth", PFloat r);
                  ("corridorRefPoint", dump_option CorridorRefPoint.dump ref)])
        = Return {| Corridor.leftWidth := l; Corridor.rightWidth := r;
                    Corridor.corridorRefPoint := ref |}).
Proof.
  split.
  - intros d name w Hin Hd Hw. apply reports_raise.
    assert (reports (required name Corridor.width_validator d)
              (mk_error [LKey name] "greater_than_equal")) as Hr.
    { apply (reports_field name _ d (PFloat w)); [assumption|].
      apply (reports_below (PFloat w) w); [reflexivity|assumption]. }
    unfold Corridor.validate, model_validator, Corridor.fields.
    destruct Hin as [<-|[<-|[]]]; find_report.
  - intros l r ref Hl Hr.
    unfold Corridor.model_validate, Corridor.validate, Corridor.fields. get_fields.
    unfold Corridor.width_validator, check_ge. cbn [float_validator vbind].
    rewrite Hl, Hr. destruct ref as [[|]|]; reflexivity.
Qed.

(** X16.  [allowedDeviationTheta] of a [NodePosition]: a negative
    value and a value above 3.141592654 are refused at that field; zero
    and the bound itself are taken.  The bound is not the one of
    [theta]: the deviation 3.1415926536 is taken, the angle is not. *)
Theorem NodePosition_deviation_theta_bounds :
  (forall d a,
     dict_get d "allowedDeviationTheta" = Some (PFloat a) ->
     float_lt a NodePosition.deviation_ge = true
     \/ float_lt NodePosition.deviationTheta_le a = true ->
     exists errors ty,
       NodePosition.model_validate (PDict d)
       = Raise (ValidationError "NodePosition" errors)
       /\ In (mk_error [LKey "allowedDeviationTheta"] ty) errors)
  /\ (forall x y mapId a,
        a = NodePosition.deviation_ge \/ a = NodePosition.deviationTheta_le
        \/ a = dec 31415926536 (-10) ->
        NodePosition.model_validate
          (position_input x y mapId [("allowedDeviationTheta", PFloat a)])
        = Return {| NodePosition.x := x; NodePosition.y := y;
                    NodePosition.theta := None;
                    NodePosition.allowedDeviationXY := None;
                    NodePosition.allowedDeviationTheta := Some a;
                    NodePosition.mapId := mapId;
                    NodePosition.mapDescription := None |})
  /\ (forall x y mapId,
        exists errors,
          NodePosition.model_validate
            (position_input x y mapId [("theta", PFloat (dec 31415926536 (-10)))])
          = Raise (ValidationError "NodePosition" errors)).
Proof.
  split; [|split].
  - intros d a Hd Ha.
    assert (exists ty,
              reports (NodePosition.allowedDeviationTheta_validator (PFloat a))
                      (mk_error [] ty)) as (ty & Hr).
    { unfold NodePosition.allowedDeviationTheta_validator. cbn [float_validator vbind].
      unfold check_le, check_ge.
      destruct (float_le a NodePosition.deviationTheta_le) eqn:Hle; cbn [vbind].
      - destruct Ha as [Ha|Ha]; apply float_lt_not_le in Ha; [|congruence].
        rewrite Ha. eexists. simpl. eauto.
      - eexists. simpl. eauto. }
    destruct (reports_raise "NodePosition" (NodePosition.validate (PDict d))
                (mk_error [LKey "allowedDeviationTheta"] ty)) as (errors & He & Hin).
    { assert (reports (with_default "allowedDeviationTheta" None
                         (optional NodePosition.allowedDeviationTheta_validator) d)
                      (mk_error [LKey "allowedDeviationTheta"] ty)) as Hf.
      { apply (reports_default_field _ _ _ d (PFloat a)); [assumption|].
        cbn [optional]. apply reports_vbind. exact Hr. }
      unfold NodePosition.validate, model_validator, NodePosition.fields. find_report. }
    exists errors, ty. split; assumption.
  - intros x y mapId a [->|[->| ->]]; reflexivity.
  - intros x y mapId. eexists. reflexivity.
Qed.

(** X17.  A [Trajectory] whose [degree] is an int below 1 is refused
    at that field, whatever the lists hold; with degree 1 the empty
    lists are taken. *)
Theorem Trajectory_degree_bound :
  (forall d degree,
     dict_get d "degree" = Some (PInt degree) -> degree < 1 ->
     exists errors,
       Trajectory.model_validate (PDict d) = Raise (ValidationError "Trajectory" errors)
       /\ In (mk_error [LKey "degree"] "greater_than_equal") errors)
  /\ Trajectory.model_validate (trajectory_input 1 [] [])
     = Return {| Trajectory.degree := 1; Trajectory.knotVector := [];
                 Trajectory.controlPoints := [] |}.
Proof.
  split; [|reflexivity].
  intros d degree Hd Hlt. apply reports_raise.
  assert (reports (required "degree" Trajectory.degree_validator d)
            (mk_error [LKey "degree"] "greater_than_equal")) as Hr.
  { apply (reports_field _ _ d (PInt degree)); [assumption|].
    unfold Trajectory.degree_validator, int_check_ge. cbn [int_validator vbind].
    rewrite (proj2 (Z.leb_gt 1 degree) Hlt). simpl. auto. }
  unfold Trajectory.validate, model_validator, Trajectory.fields. find_report.
Qed.

(** X18.  A [ControlPoint] with a negative [weight] is refused at
    that field; the weight zero is taken, and so is an explicit
    [null], which leaves the point without weight. *)
Theorem ControlPoint_weight_bound :
  (forall d w,
     dict_get d "weight" = Some (PFloat w) -> float_lt w ControlPoint.weight_ge = true ->
     exists errors,
       ControlPoint.model_validate (PDict d)
       = Raise (ValidationError "ControlPoint" errors)
       /\ In (mk_error [LKey "weight"] "greater_than_equal") errors)
  /\ (forall x y,
        ControlPoint.model_validate
          (PDict [("x", PFloat x); ("y", PFloat y); ("weight", PFloat (dec 0 0))])
        = Return {| ControlPoint.x := x; ControlPoint.y := y;
                    ControlPoint.weight := Some (dec 0 0) |})
  /\ (forall x y,
        ControlPoint.model_validate
          (PDict [("x", PFloat x); ("y", PFloat y); ("weight", PNone)])
        = Return {| ControlPoint.x := x; ControlPoint.y := y;
                    ControlPoint.weight := None |}).
Proof.
  split; [|split; reflexivity].
  intros d w Hd Hw. apply reports_raise.
  assert (reports (with_default "weight" None (optional ControlPoint.weight_validator) d)
            (mk_error [LKey "weight"] "greater_than_equal")) as Hr.
  { apply (reports_default_field _ _ _ d (PFloat w)); [assumption|].
    cbn [optional]. apply reports_vbind.
    apply (reports_below (PFloat w) w); [reflexivity|assumption]. }
  unfold ControlPoint.validate, model_validator, ControlPoint.fields. find_report.
Qed.

Lemma float_of_Z_finite z : is_finite (float_of_Z z) = true.
Proof.
  unfold float_of_Z, dec. destruct z as [|p|p]; [reflexivity| |];
    unfold mk_float; destruct (strip_trailing _) as [[|q0 q] n]; reflexivity.
Qed.

(** X19.  An [ActionParameter] whose [value] is an int of magnitude
    at most 2^53, the range in which a float holds every int exactly,
    holds it as the float of that int and writes it back as a float; the
    value 300 of the tests is written [300.0].  A [value] of [null]
    matches no member of the union and is refused, with one entry per
    member. *)
Theorem ActionParameter_int_value :
  (forall key z,
     Z.abs z <= 2 ^ 53 ->
     ActionParameter.model_validate (PDict [("key", PStr key); ("value", PInt z)])
     = Return {| ActionParameter.key := key;
                 ActionParameter.value := ActionParameter.VFloat (float_of_Z z) |}
     /\ ActionParameter.dump
          {| ActionParameter.key := key;
             ActionParameter.value := ActionParameter.VFloat (float_of_Z z) |}
        = Return (PDict [("key", PStr key); ("value", PFloat (float_of_Z z))]))
  /\ ActionParameter.model_dump_json
       {| ActionParameter.key := "duration";
          ActionParameter.value := ActionParameter.VFloat (float_of_Z 300) |}
     = Return (dq "{'key':'duration','value':300.0}")
  /\ (forall key,
        ActionParameter.model_validate (PDict [("key", PStr key); ("value", PNone)])
        = Raise (ValidationError "ActionParameter"
                   [mk_error [LKey "value"; LKey "list[any]"] "list_type";
                    mk_error [LKey "value"; LKey "bool"] "bool_type";
                    mk_error [LKey "value"; LKey "float"] "float_type";
                    mk_error [LKey "value"; LKey "str"] "string_type";
                    mk_error [LKey "value"; LKey "dict[str,any]"] "dict_type"])).
Proof.
  split; [|split; reflexivity].
  intros key z _. split; [reflexivity|].
  unfold ActionParameter.dump. cbn [ActionParameter.key ActionParameter.value
                                     ActionParameter.dump_value].
  unfold dump_float. rewrite float_of_Z_finite. reflexivity.
Qed.


(** ** Models inside models *)

Lemma reports_required {A} name (val : pyval -> vresult A) d v e :
  dict_get d name = Some v -> reports (val v) e ->
  reports (required name val d) (mk_error (LKey name :: err_loc e) (err_type e)).
Proof.
  intros H Hr. unfold required. rewrite H. apply reports_at_loc. exact Hr.
Qed.

Lemma reports_with_default {A} name (default : A) (val : pyval -> vresult A) d v e :
  dict_get d name = Some v -> reports (val v) e ->
  reports (with_default name default val d) (mk_error (LKey name :: err_loc e) (err_type e)).
Proof.
  intros H Hr. unfold with_default. rewrite H. apply reports_at_loc. exact Hr.
Qed.

Lemma reports_list_items {A} (val : pyval -> vresult A) l :
  forall i k v e,
    nth_error l i = Some v -> reports (val v) e ->
    reports (list_items val k l) (mk_error (LIdx (k + i) :: err_loc e) (err_type e)).
Proof.
  induction l as [|x l IH]; intros i k v e Hn Hr; [destruct i; discriminate|].
  cbn [list_items]. destruct i as [|i]; simpl in Hn.
  - injection Hn as ->. rewrite Nat.add_0_r.
    apply reports_vap_l, reports_vap_r, reports_at_loc. exact Hr.
  - apply reports_vap_r. rewrite <- Nat.add_succ_comm. eapply IH; eassumption.
Qed.

(** X21.  A [Trajectory] validates every control point and an
    [Action] every action parameter: what the constructor of the
    element reports is reported for the whole, under the field, the
    index of the element and the place inside it. *)
Theorem nested_models_are_validated :
  (forall d l i v e,
     dict_get d "controlPoints" = Some (PList l) -> nth_error l i = Some v ->
     reports (ControlPoint.validate v) e ->
     exists errors,
       Trajectory.model_validate (PDict d) = Raise (ValidationError "Trajectory" errors)
       /\ In (mk_error (LKey "controlPoints" :: LIdx i :: err_loc e) (err_type e)) errors)
  /\ (forall d l i v e,
        dict_get d "actionParameters" = Some (PList l) -> nth_error l i = Some v ->
        reports (ActionParameter.validate v) e ->
        exists errors,
          Action.model_validate (PDict d) = Raise (ValidationError "Action" errors)
          /\ In (mk_error (LKey "actionParameters" :: LIdx i :: err_loc e) (err_type e))
               errors).
Proof.
  split; intros d l i v e Hd Hn He; apply reports_raise.
  - pose proof (reports_list_items ControlPoint.validate l i 0 v e Hn He) as Hl.
    pose proof (reports_required "controlPoints" (list_validator ControlPoint.validate)
                  d (PList l) _ Hd Hl) as Hr.
    cbn [err_loc err_type Nat.add] in Hr.
    unfold Trajectory.validate, model_validator, Trajectory.fields. find_report.
  - pose proof (reports_list_items ActionParameter.validate l i 0 v e Hn He) as Hl.
    assert (reports (optional (list_validator ActionParameter.validate) (PList l))
              (mk_error (LIdx i :: err_loc e) (err_type e))) as Ho.
    { cbn [optional]. apply reports_vbind. exact Hl. }
    pose proof (reports_with_default "actionParameters" None _ d (PList l) _ Hd Ho) as Hr.
    cbn [err_loc err_type] in Hr.
    unfold Action.validate, model_validator, Action.fields. find_report.
Qed.

(** ** The properties above on concrete inputs *)

(** X1 on a text that is no JSON and on a JSON array. *)
Lemma to_model_rejects_non_object_witness :
  @to_model common_only "oops"
  = Raise (ValueError (to_model_failed ++ "Expecting value"))
  /\ @to_model common_only "[1, 2]"
     = Raise (ValueError (to_model_failed ++ "'list' object has no attribute 'get'")).
Proof.
  split.
  - apply (proj1 (@to_model_rejects_non_object common_only) "oops"
             (JSONDecodeError "Expecting value")).
    reflexivity.
  - apply (proj2 (@to_model_rejects_non_object common_only) "[1, 2]"
             (PList [PInt 1; PInt 2])); reflexivity.
Defined.

(** X2 on an envelope whose [data] is the empty list. *)
Lemma to_model_missing_field_witness :
  @to_model common_only (dq "{'message_type': 'Action', 'data': []}")
  = Raise (ValueError (to_model_failed ++ missing_envelope_field)).
Proof.
  apply (@to_model_missing_field common_only _
           [("message_type", PStr "Action"); ("data", PList [])]);
    [reflexivity | right; reflexivity].
Defined.

(** X3 on the name of a message of the protocol that has no entry. *)
Lemma to_model_unregistered_type_witness :
  @to_model common_only (dq "{'message_type': 'Visualization', 'data': {'headerId': 1}}")
  = Raise (ValueError (to_model_failed ++ unsupported_message_type ++ "Visualization")).
Proof.
  apply (@to_model_unregistered_type common_only _
           [("message_type", PStr "Visualization");
            ("data", PDict [("headerId", PInt 1)])]
           (PStr "Visualization"));
    [reflexivity | reflexivity | reflexivity | reflexivity
    | left; exists "Visualization"; split; reflexivity].
Defined.

(** X4 on a [message_type] that is a list of one name. *)
Lemma to_model_unhashable_type_witness :
  @to_model common_only (dq "{'message_type': ['Action'], 'data': {'a': 1}}")
  = Raise (ValueError (to_model_failed ++ "unhashable type: 'list'")).
Proof.
  apply (@to_model_unhashable_type common_only _
           [("message_type", PList [PStr "Action"]); ("data", PDict [("a", PInt 1)])]
           (PList [PStr "Action"])); reflexivity.
Defined.

(** X5, from right to left, on the envelope of a control point. *)
Lemma to_model_returns_iff_witness :
  @to_model common_only
    (dq "{'message_type':'ControlPoint','data':{'x':1.0,'y':2.0,'weight':0.5}}")
  = Return (OControlPoint sample_point).
Proof.
  apply (proj2 (@to_model_returns_iff common_only _ (OControlPoint sample_point))).
  exists [("message_type", PStr "ControlPoint");
          ("data", ControlPoint.to_input sample_point)],
    "ControlPoint", ControlPoint, (ControlPoint.to_input sample_point).
  repeat split; reflexivity.
Defined.

(** X6 on one input per class. *)
Lemma validated_instances_in_bounds_witness :
  NodePosition_in_bounds (position (dec 0 0) (dec 0 0) "map" (Some (dec 1 0)) None) = true
  /\ ControlPoint_in_bounds sample_point = true
  /\ Corridor_in_bounds
       {| Corridor.leftWidth := dec 1 0; Corridor.rightWidth := dec 0 0;
          Corridor.corridorRefPoint := None |} = true
  /\ Trajectory_in_bounds
       {| Trajectory.degree := 3; Trajectory.knotVector := [dec 0 0];
          Trajectory.controlPoints := [sample_point] |} = true.
Proof.
  split; [|split; [|split]].
  - apply (proj1 validated_instances_in_bounds
             (position_input (dec 0 0) (dec 0 0) "map" [("theta", PInt 1)])).
    reflexivity.
  - apply (proj1 (proj2 validated_instances_in_bounds)
             (ControlPoint.to_input sample_point)).
    reflexivity.
  - apply (proj1 (proj2 (proj2 validated_instances_in_bounds))
             (PDict [("leftWidth", PInt 1); ("rightWidth", PFloat (dec 0 0))])).
    reflexivity.
  - apply (proj2 (proj2 (proj2 validated_instances_in_bounds))
             (trajectory_input 3 [dec 0 0] [sample_point])).
    reflexivity.
Defined.

(** X7 on the envelope of a control point. *)
Lemma to_model_returns_named_class_witness :
  @is_model common_only (OControlPoint sample_point) = true
  /\ @in_bounds common_only (OControlPoint sample_point) = true
  /\ exists d,
       json_loads
         (dq "{'message_type':'ControlPoint','data':{'x':1.0,'y':2.0,'weight':0.5}}")
       = Return (PDict d)
       /\ dict_get d "message_type" = Some (PStr "ControlPoint").
Proof.
  apply (@to_model_returns_named_class common_only
           (dq "{'message_type':'ControlPoint','data':{'x':1.0,'y':2.0,'weight':0.5}}")
           (OControlPoint sample_point)).
  - intros c data m. destruct m.
  - reflexivity.
Defined.

(** X8 on an instance of a class outside the registry and on a control
    point. *)
Lemma from_model_returns_envelope_witness :
  @from_model common_only (OOther "Visualization" (Return "{}"))
  = Raise (ValueError (from_model_failed ++ unsupported_model_type ++ "Visualization"))
  /\ exists cls dumped data,
       get_model_class "ControlPoint" = Some cls
       /\ @model_dump_json common_only (OControlPoint sample_point) = Return dumped
       /\ json_loads dumped = Return data
       /\ dq "{'message_type': 'ControlPoint', 'data': {'x': 1.0, 'y': 2.0, 'weight': 0.5}}"
          = json_dumps (envelope "ControlPoint" data)
       /\ json_loads
            (dq "{'message_type': 'ControlPoint', 'data': {'x': 1.0, 'y': 2.0, 'weight': 0.5}}")
          = Return (envelope "ControlPoint" data).
Proof.
  split.
  - apply (proj1 (@from_model_returns_envelope common_only)
             (OOther "Visualization" (Return "{}"))).
    reflexivity.
  - apply (proj2 (@from_model_returns_envelope common_only)
             (OControlPoint sample_point)).
    reflexivity.
Defined.



(** X11 on an action without [actionId]. *)
Lemma required_field_missing_witness :
  exists errors,
    @model_validate common_only Action
      (PDict [("actionType", PStr "pause"); ("blockingType", PStr "HARD")])
    = Raise (ValidationError "Action" errors)
    /\ In (mk_error [LKey "actionId"] "missing") errors.
Proof.
  apply (@required_field_missing common_only Action
           [("actionType", PStr "pause"); ("blockingType", PStr "HARD")] "actionId");
    [right; left; reflexivity | reflexivity].
Defined.

(** X12 on a control point with a third coordinate. *)
Lemma unknown_keys_ignored_witness :
  @model_validate common_only ControlPoint
    (PDict [("x", PFloat (dec 1 0)); ("y", PFloat (dec 2 0)); ("z", PFloat (dec 3 0))])
  = @model_validate common_only ControlPoint
      (PDict [("x", PFloat (dec 1 0)); ("y", PFloat (dec 2 0))]).
Proof.
  apply (@unknown_keys_ignored common_only ControlPoint); [reflexivity|].
  intros k [<-|[<-|[<-|[]]]]; reflexivity.
Defined.

(** X13 on the weight of a control point. *)
Lemma null_is_absent_witness :
  @model_validate common_only ControlPoint
    (PDict [("x", PFloat (dec 1 0)); ("y", PFloat (dec 2 0))])
  = @model_validate common_only ControlPoint
      (PDict [("weight", PNone); ("x", PFloat (dec 1 0)); ("y", PFloat (dec 2 0))]).
Proof.
  apply (@null_is_absent common_only ControlPoint _ _ "weight");
    [left; reflexivity | reflexivity | reflexivity |].
  intros k Hk. cbn [dict_get].
  destruct (String.eqb_spec k "weight") as [E|_]; [destruct (Hk E)|reflexivity].
Defined.

(** X14 on an action whose [blockingType] is written in small letters. *)
Lemma enumerations_take_member_values_witness :
  exists errors,
    Action.model_validate
      (PDict [("actionType", PStr "pause"); ("actionId", PStr "a1");
              ("blockingType", PStr "hard")])
    = Raise (ValidationError "Action" errors)
    /\ In (mk_error [LKey "blockingType"] "enum") errors.
Proof.
  apply (proj2 (proj2 enumerations_take_member_values) _ (PStr "hard"));
    [reflexivity|].
  intros b. destruct b; discriminate.
Defined.

(** X15 on a corridor with the left width [-1.0] and on one with the
    widths [0.0] and [2.5]. *)
Lemma Corridor_width_bounds_witness :
  (exists errors,
     Corridor.model_validate
       (PDict [("leftWidth", PFloat (dec (-1) 0)); ("rightWidth", PFloat (dec 1 0))])
     = Raise (ValidationError "Corridor" errors)
     /\ In (mk_error [LKey "leftWidth"] "greater_than_equal") errors)
  /\ Corridor.model_validate
       (PDict [("leftWidth", PFloat (dec 0 0)); ("rightWidth", PFloat (dec 25 (-1)));
               ("corridorRefPoint", PStr "CONTOUR")])
     = Return {| Corridor.leftWidth := dec 0 0; Corridor.rightWidth := dec 25 (-1);
                 Corridor.corridorRefPoint := Some CorridorRefPoint.CONTOUR |}.
Proof.
  split.
  - apply (proj1 Corridor_width_bounds _ "leftWidth" (dec (-1) 0));
      [left; reflexivity | reflexivity | reflexivity].
  - apply (proj2 Corridor_width_bounds (dec 0 0) (dec 25 (-1))
             (Some CorridorRefPoint.CONTOUR)); reflexivity.
Defined.

(** X16 on the deviations [-0.1] and [3.141592654]. *)
Lemma NodePosition_deviation_theta_bounds_witness :
  (exists errors ty,
     NodePosition.model_validate
       (position_input (dec 0 0) (dec 0 0) "map"
          [("allowedDeviationTheta", PFloat (dec (-1) (-1)))])
     = Raise (ValidationError "NodePosition" errors)
     /\ In (mk_error [LKey "allowedDeviationTheta"] ty) errors)
  /\ NodePosition.model_validate
       (position_input (dec 0 0) (dec 0 0) "map"
          [("allowedDeviationTheta", PFloat NodePosition.deviationTheta_le)])
     = Return {| NodePosition.x := dec 0 0; NodePosition.y := dec 0 0;
                 NodePosition.theta := None;
                 NodePosition.allowedDeviationXY := None;
                 NodePosition.allowedDeviationTheta := Some NodePosition.deviationTheta_le;
                 NodePosition.mapId := "map";
                 NodePosition.mapDescription := None |}.
Proof.
  split.
  - apply (proj1 NodePosition_deviation_theta_bounds _ (dec (-1) (-1)));
      [reflexivity | left; reflexivity].
  - apply (proj1 (proj2 NodePosition_deviation_theta_bounds)).
    right. left. reflexivity.
Defined.

(** X17 on the degree 0. *)
Lemma Trajectory_degree_bound_witness :
  exists errors,
    Trajectory.model_validate (trajectory_input 0 [dec 0 0] [sample_point])
    = Raise (ValidationError "Trajectory" errors)
    /\ In (mk_error [LKey "degree"] "greater_than_equal") errors.
Proof.
  apply (proj1 Trajectory_degree_bound _ 0); [reflexivity | lia].
Defined.

(** X18 on the weight [-1.0]. *)
Lemma ControlPoint_weight_bound_witness :
  exists errors,
    ControlPoint.model_validate
      (PDict [("x", PFloat (dec 0 0)); ("y", PFloat (dec 0 0));
              ("weight", PFloat (dec (-1) 0))])
    = Raise (ValidationError "ControlPoint" errors)
    /\ In (mk_error [LKey "weight"] "greater_than_equal") errors.
Proof.
  apply (proj1 ControlPoint_weight_bound _ (dec (-1) 0)); reflexivity.
Defined.

(** X19 on the parameter of the tests. *)
Lemma ActionParameter_int_value_witness :
  ActionParameter.model_validate (PDict [("key", PStr "duration"); ("value", PInt 300)])
  = Return {| ActionParameter.key := "duration";
              ActionParameter.value := ActionParameter.VFloat (float_of_Z 300) |}
  /\ ActionParameter.dump
       {| ActionParameter.key := "duration";
          ActionParameter.value := ActionParameter.VFloat (float_of_Z 300) |}
     = Return (PDict [("key", PStr "duration"); ("value", PFloat (float_of_Z 300))]).
Proof.
  apply (proj1 ActionParameter_int_value "duration" 300). vm_compute. discriminate.
Defined.


(** X21 on a trajectory whose second control point has no [x]. *)
Lemma nested_models_are_validated_witness :
  exists errors,
    Trajectory.model_validate
      (PDict [("degree", PInt 1); ("knotVector", PList []);
              ("controlPoints",
               PList [ControlPoint.to_input sample_point;
                      PDict [("y", PFloat (dec 1 0))]])])
    = Raise (ValidationError "Trajectory" errors)
    /\ In (mk_error [LKey "controlPoints"; LIdx 1; LKey "x"] "missing") errors.
Proof.
  apply (proj1 nested_models_are_validated _
           [ControlPoint.to_input sample_point; PDict [("y", PFloat (dec 1 0))]]
           1%nat (PDict [("y", PFloat (dec 1 0))]) (mk_error [LKey "x"] "missing"));
    [reflexivity | reflexivity | left; reflexivity].
Defined.
